(** * Alpha-Pulse quant engine: a shallow embedding of
      [backend/app/quant/worker_b.py] and its verified properties.

    Numbers.  Python [float]s are modelled as exact rationals ([Q]) and
    Python [int]s as [Z]; [round(x, n)] is rounding to [n] decimals with
    ties to even, the result kept as the decimal [k / 10^n].  A value that
    may be [None] is an [option]; truthiness ([if x], [not x], [x and y])
    is written out with the [bool_of_*] functions below.

    Binary floating point.  The engine computes in double precision, the
    model computes the same expressions exactly.  A rounded result of the
    engine can therefore differ from the model's in its last decimal when
    the exact value lies (nearly) half-way between two decimals.  The
    properties that give the value of a rounded result are stated with
    [rounding_of] below, which holds of both.  Its allowance for the error
    of double arithmetic, [float_error], is a relative 10^-12: that covers
    prices, yields, day counts and volumes of the size a market has, not
    operands so large or so small that a double overflows or loses its
    digits.

    Exceptions.  An expression that can raise returns a [result]; the
    [try]/[except] blocks of the source are written with [try_except].

    The store.  The engine reads its rows from an external store; the
    answer of each query is an argument of the function that issues it. *)

From Stdlib Require Import QArith Qround Qabs Qpower ZArith Lia Lqa Bool.
From Stdlib Require Import String Ascii List DecimalString Sorted.
From stdpp Require Import gmap strings.

Local Open Scope Q_scope.

(** ** The Python runtime the engine relies on *)

Module Py.

(** The exceptions that matter to the engine; [StoreError] stands for
    whatever a call of the store client raises. *)
Inductive exn : Type :=
  | ZeroDivisionError
  | OverflowError
  | StoreError.

Inductive result (A : Type) : Type :=
  | Ok (a : A)
  | Raise (e : exn).

Arguments Ok {A} a.
Arguments Raise {A} e.

Definition bind {A B : Type} (r : result A) (k : A -> result B) : result B :=
  match r with
  | Ok a => k a
  | Raise e => Raise e
  end.

(** [try: body / except: handler]. *)
Definition try_except {A : Type} (body : result A) (handler : exn -> result A)
  : result A :=
  match body with
  | Ok a => Ok a
  | Raise e => handler e
  end.

(** Truthiness of a number, of a string, and of an optional value. *)
Definition bool_of_float (x : Q) : bool := negb (Qeq_bool x 0).
Definition bool_of_int (z : Z) : bool := negb (z =? 0)%Z.
Definition bool_of_str (s : string) : bool :=
  match s with
  | EmptyString => false
  | String _ _ => true
  end.

Definition truthy {A : Type} (b : A -> bool) (o : option A) : bool :=
  match o with
  | Some a => b a
  | None => false
  end.

Definition Qltb (x y : Q) : bool := negb (Qle_bool y x).

(** [a / b] on floats: division by zero raises. *)
Definition truediv (a b : Q) : result Q :=
  if Qeq_bool b 0 then Raise ZeroDivisionError else Ok (a / b).

(** Nearest integer, ties to the even neighbour. *)
Definition round_half_even (x : Q) : Z :=
  let f := Qfloor x in
  let r := x - inject_Z f in
  if Qltb r (1 # 2) then f
  else if Qltb (1 # 2) r then (f + 1)%Z
  else if Z.even f then f else (f + 1)%Z.

Fixpoint pow10 (n : nat) : positive :=
  match n with
  | O => 1%positive
  | S k => (10 * pow10 k)%positive
  end.

(** [round(x, ndigits)] for [ndigits >= 0]. *)
Definition round (x : Q) (ndigits : nat) : Q :=
  round_half_even (x * (Zpos (pow10 ndigits) # 1)) # pow10 ndigits.

(** Largest finite double is [2^1024 - 2^971]; a result that rounds past it
    (at or above [2^1024 - 2^970]) overflows. *)
Definition overflow_threshold : Q :=
  inject_Z (2 ^ 1024 - 2 ^ 970).

Definition is_integral (e : Q) : bool :=
  (Z.rem (Qnum e) (Zpos (Qden e)) =? 0)%Z.

Section Pow.

(** The C library's [pow] at a non-integral exponent, where the exact value
    is in general irrational. *)
Variable libm_pow : Q -> Q -> Q.

(** [b ** e] on floats, for a base [b >= 0]: exact at an integral exponent,
    [ZeroDivisionError] for [0.0] to a negative power, [OverflowError] when
    the result is out of the range of a double. *)
Definition pow (b e : Q) : result Q :=
  if Qeq_bool b 0 && Qltb e 0 then Raise ZeroDivisionError
  else
    let r := if is_integral e
             then Qpower b (Qnum e / Zpos (Qden e))
             else libm_pow b e in
    if Qle_bool overflow_threshold (Qabs r) then Raise OverflowError
    else Ok r.

End Pow.

End Py.

Import Py.

Notation "'let*' x ':=' e 'in' k" := (Py.bind e (fun x => k))
  (at level 10, x name, e at level 100, k at level 200).

(** ** Constants *)

Definition GHANA_INFLATION_RATE : Q := 23.2.
Definition GHANA_POLICY_RATE : Q := 29.0.

Definition MATURITY_BUCKETS : list (Z * Z * string) :=
  [ (0, 91, "91D"); (92, 182, "182D"); (183, 365, "1Y"); (366, 730, "2Y");
    (731, 1095, "3Y"); (1096, 1825, "5Y"); (1826, 3650, "10Y");
    (3651, 7300, "20Y") ]%Z.

Definition VOLUME_SPIKE_THRESHOLD : Q := 3.0.

(** ** Maturity buckets *)

Definition in_bucket (days : Z) (b : Z * Z * string) : bool :=
  let '(low, high, _) := b in (low <=? days)%Z && (days <=? high)%Z.

Definition get_maturity_bucket (days : Z) : string :=
  match find (in_bucket days) MATURITY_BUCKETS with
  | Some (_, _, bucket) => bucket
  | None => "20Y+"
  end.

(** ** Yield calculators *)

Definition calculate_tbill_yields (price : option Q) (days_to_maturity : option Z)
  : result (gmap string Q) :=
  match price, days_to_maturity with
  | Some p, Some d =>
      if negb (bool_of_float p) || negb (bool_of_int d) || (d <=? 0)%Z
      then Ok ∅
      else
        let face_value := 100 in
        let discount := face_value - p in
        let* a := truediv discount face_value in
        let* b := truediv 360 (inject_Z d) in
        let discount_yield := a * b * 100 in
        let* c := truediv discount p in
        let* e := truediv 365 (inject_Z d) in
        let bey := c * e * 100 in
        Ok (<["discount_yield" := round discount_yield 4]>
             (<["bond_equivalent_yield" := round bey 4]>
               (<["ytm" := round bey 4]> ∅)))
  | _, _ => Ok ∅
  end.

Definition calculate_bond_ytm (price coupon_rate : option Q)
    (days_to_maturity : option Z) : result (option Q) :=
  match price, days_to_maturity with
  | Some p, Some d =>
      if negb (bool_of_float p) || Qle_bool p 0
         || negb (bool_of_int d) || (d <=? 0)%Z
      then Ok None
      else
        let face_value := 100 in
        let* years := truediv (inject_Z d) 365 in
        if Qle_bool years 0 then Ok None
        else
          let coupon := if truthy bool_of_float coupon_rate
                        then default 0 coupon_rate else 0 in
          let annual_coupon := coupon in
          let* g := truediv (face_value - p) years in
          let capital_gain_per_year := g in
          let* avg_price := truediv (face_value + p) 2 in
          let* q := truediv (annual_coupon + capital_gain_per_year) avg_price in
          let ytm := q * 100 in
          Ok (Some (round ytm 4))
  | _, _ => Ok None
  end.

(** ** Duration *)

Section Duration.

Variable libm_pow : Q -> Q -> Q.

(** The closed form of line 171, evaluated left to right. *)
Definition mac_duration_closed_form (y n coupon_rate : Q) : result Q :=
  let* a := truediv (1 + y) y in
  let* c1 := truediv coupon_rate 100 in
  let numerator := 1 + y + n * (c1 - y) in
  let* c2 := truediv coupon_rate 100 in
  let* pw := pow libm_pow (1 + y) n in
  let denominator := c2 * (pw - 1) + y in
  let* b := truediv numerator denominator in
  Ok (a - b).

Definition calculate_modified_duration (ytm years_to_maturity coupon_rate : option Q)
  : result (option Q) :=
  match ytm, years_to_maturity with
  | Some ytm, Some years =>
      if negb (bool_of_float ytm) || Qle_bool ytm 0
         || negb (bool_of_float years) || Qle_bool years 0
      then Ok None
      else
        match coupon_rate with
        | None => Ok (Some (round years 2))
        | Some cr =>
            if negb (bool_of_float cr) || Qeq_bool cr 0
            then Ok (Some (round years 2))
            else
              let* y := truediv ytm 100 in
              let n := years in
              let* mac_duration := mac_duration_closed_form y n cr in
              try_except
                (let mac_duration :=
                   if Qltb mac_duration 0 || Qltb n mac_duration
                   then n * 0.8 else mac_duration in
                 let* mod_duration := truediv mac_duration (1 + y) in
                 Ok (Some (round mod_duration 2)))
                (fun _ => Ok (Some (round (n * 0.7) 2)))
        end
  | _, _ => Ok None
  end.

End Duration.

(** ** Liquidity *)

Definition calculate_liquidity_score (volume hl_spread : option Q) : string :=
  match volume with
  | None => "LOW"
  | Some v =>
      if Qltb 10000000 v then "HIGH"
      else if Qltb 1000000 v then "MEDIUM"
      else "LOW"
  end.

(** ** Text: [str.split] and the format specifications of the alerts *)

Module PyStr.

(** [s.split(sep)] for a one-character separator. *)
Fixpoint split (sep : ascii) (s : string) : list string :=
  match s with
  | EmptyString => [EmptyString]
  | String c rest =>
      if Ascii.eqb c sep then EmptyString :: split sep rest
      else match split sep rest with
           | [] => [String c EmptyString]
           | part :: parts => String c part :: parts
           end
  end.

Definition digits_of (n : Z) : string :=
  NilZero.string_of_uint (N.to_uint (Z.to_N n)).

Fixpoint zeros (n : nat) : string :=
  match n with
  | O => EmptyString
  | S k => String "0" (zeros k)
  end.

Definition pad_left (width : nat) (s : string) : string :=
  String.append (zeros (width - String.length s)) s.

(** Thousands separators, on the digits taken from the right. *)
Fixpoint group3 (fuel : nat) (rev_digits : list ascii) : list ascii :=
  match fuel, rev_digits with
  | S k, a :: b :: c :: (_ :: _) as rest =>
      a :: b :: c :: ","%char :: group3 k rest
  | _, _ => rev_digits
  end.

Definition with_commas (s : string) : string :=
  let ds := list_ascii_of_string s in
  string_of_list_ascii (rev (group3 (List.length ds) (rev ds))).

(** [format(x, ".<nd>f")], and [format(x, ",.<nd>f")] when [grouping]. *)
Definition format_f (grouping : bool) (nd : nat) (x : Q) : string :=
  let k := round_half_even (Qabs x * (Zpos (pow10 nd) # 1)) in
  let ip := digits_of (k / Zpos (pow10 nd)) in
  let ip := if grouping then with_commas ip else ip in
  let sign := if Qltb x 0 then "-" else "" in
  let frac :=
    match nd with
    | O => EmptyString
    | S _ => String.append "." (pad_left nd (digits_of (k mod Zpos (pow10 nd))))
    end in
  String.append sign (String.append ip frac).

Definition concat (parts : list string) : string :=
  fold_right String.append EmptyString parts.

End PyStr.

(** ** Coupon extraction *)

Section Coupon.

(** [float(part)]: [None] when it raises [ValueError], and for the texts
    that denote an infinity or a NaN (which fail every range test below). *)
Variable float : string -> option Q.

Fixpoint coupon_scan (parts : list string) : option Q :=
  match parts with
  | [] => None
  | part :: rest =>
      match float part with
      | Some val => if Qltb 0 val && Qltb val 100 then Some val
                    else coupon_scan rest
      | None => coupon_scan rest
      end
  end.

Definition extract_coupon_from_description (desc : option string) : option Q :=
  match desc with
  | None => None
  | Some d =>
      if negb (bool_of_str d) then None
      else coupon_scan (rev (PyStr.split "-" d))
  end.

End Coupon.

(** ** Records

    The dictionaries the engine passes around have a fixed set of keys, so
    they are records here; a key that is absent, or present with the value
    [None], is [None] (the source reads every optional key with [.get]). *)

(** A row of a source table ([select("*")]). *)
Record raw_row : Type := mk_raw_row {
  r_isin : string;
  r_security_description : option string;
  r_closing_price : option Q;
  r_closing_yield : option Q;
  r_day_high_yield : option Q;
  r_day_low_yield : option Q;
  r_volume : option Q;
  r_volume_traded : option Q;
  r_days_to_maturity : option Z
}.

(** A [security_metrics] record under construction. *)
Record metric : Type := mk_metric {
  m_date : string;
  m_isin : string;
  m_security_type : string;
  m_ytm : option Q;
  m_discount_yield : option Q;
  m_bond_equivalent_yield : option Q;
  m_real_yield : option Q;
  m_coupon_rate : option Q;
  m_volume : option Q;
  m_hl_spread : option Q;
  m_liquidity_score : option string;
  m_modified_duration : option Q;
  m_benchmark_yield : option Q;
  m_spread_vs_govt : option Q;
  m_volume_avg_30d : option Q;
  m_volume_spike_flag : option bool;
  m_liquidity_flag : option string
}.

(** [m[key] = v], one function per key the engine assigns after the record
    is built. *)
Definition set_benchmark_yield (v : Q) (m : metric) : metric :=
  {| m_date := m_date m; m_isin := m_isin m;
     m_security_type := m_security_type m; m_ytm := m_ytm m;
     m_discount_yield := m_discount_yield m;
     m_bond_equivalent_yield := m_bond_equivalent_yield m;
     m_real_yield := m_real_yield m; m_coupon_rate := m_coupon_rate m;
     m_volume := m_volume m; m_hl_spread := m_hl_spread m;
     m_liquidity_score := m_liquidity_score m;
     m_modified_duration := m_modified_duration m; m_benchmark_yield := Some v;
     m_spread_vs_govt := m_spread_vs_govt m;
     m_volume_avg_30d := m_volume_avg_30d m;
     m_volume_spike_flag := m_volume_spike_flag m;
     m_liquidity_flag := m_liquidity_flag m |}.

Definition set_spread_vs_govt (v : Q) (m : metric) : metric :=
  {| m_date := m_date m; m_isin := m_isin m;
     m_security_type := m_security_type m; m_ytm := m_ytm m;
     m_discount_yield := m_discount_yield m;
     m_bond_equivalent_yield := m_bond_equivalent_yield m;
     m_real_yield := m_real_yield m; m_coupon_rate := m_coupon_rate m;
     m_volume := m_volume m; m_hl_spread := m_hl_spread m;
     m_liquidity_score := m_liquidity_score m;
     m_modified_duration := m_modified_duration m;
     m_benchmark_yield := m_benchmark_yield m; m_spread_vs_govt := Some v;
     m_volume_avg_30d := m_volume_avg_30d m;
     m_volume_spike_flag := m_volume_spike_flag m;
     m_liquidity_flag := m_liquidity_flag m |}.

Definition set_volume_avg_30d (v : Q) (m : metric) : metric :=
  {| m_date := m_date m; m_isin := m_isin m;
     m_security_type := m_security_type m; m_ytm := m_ytm m;
     m_discount_yield := m_discount_yield m;
     m_bond_equivalent_yield := m_bond_equivalent_yield m;
     m_real_yield := m_real_yield m; m_coupon_rate := m_coupon_rate m;
     m_volume := m_volume m; m_hl_spread := m_hl_spread m;
     m_liquidity_score := m_liquidity_score m;
     m_modified_duration := m_modified_duration m;
     m_benchmark_yield := m_benchmark_yield m;
     m_spread_vs_govt := m_spread_vs_govt m; m_volume_avg_30d := Some v;
     m_volume_spike_flag := m_volume_spike_flag m;
     m_liquidity_flag := m_liquidity_flag m |}.

Definition set_volume_spike_flag (v : bool) (m : metric) : metric :=
  {| m_date := m_date m; m_isin := m_isin m;
     m_security_type := m_security_type m; m_ytm := m_ytm m;
     m_discount_yield := m_discount_yield m;
     m_bond_equivalent_yield := m_bond_equivalent_yield m;
     m_real_yield := m_real_yield m; m_coupon_rate := m_coupon_rate m;
     m_volume := m_volume m; m_hl_spread := m_hl_spread m;
     m_liquidity_score := m_liquidity_score m;
     m_modified_duration := m_modified_duration m;
     m_benchmark_yield := m_benchmark_yield m;
     m_spread_vs_govt := m_spread_vs_govt m;
     m_volume_avg_30d := m_volume_avg_30d m; m_volume_spike_flag := Some v;
     m_liquidity_flag := m_liquidity_flag m |}.

Definition set_liquidity_flag (v : string) (m : metric) : metric :=
  {| m_date := m_date m; m_isin := m_isin m;
     m_security_type := m_security_type m; m_ytm := m_ytm m;
     m_discount_yield := m_discount_yield m;
     m_bond_equivalent_yield := m_bond_equivalent_yield m;
     m_real_yield := m_real_yield m; m_coupon_rate := m_coupon_rate m;
     m_volume := m_volume m; m_hl_spread := m_hl_spread m;
     m_liquidity_score := m_liquidity_score m;
     m_modified_duration := m_modified_duration m;
     m_benchmark_yield := m_benchmark_yield m;
     m_spread_vs_govt := m_spread_vs_govt m;
     m_volume_avg_30d := m_volume_avg_30d m;
     m_volume_spike_flag := m_volume_spike_flag m; m_liquidity_flag := Some v |}.

Record curve_point : Type := mk_curve_point {
  p_date : string;
  p_maturity_days : Z;
  p_maturity_bucket : string;
  p_yield : Q;
  p_curve_type : string
}.

Record alert : Type := mk_alert {
  a_date : string;
  a_isin : string;
  a_alert_type : string;
  a_alert_message : string;
  a_severity : string
}.

(** ** Per-type metric builders *)

Section Builders.

Variable float : string -> option Q.
Variable libm_pow : Q -> Q -> Q.

(** [round(abs(high_y - low_y), 4)] when both are truthy. *)
Definition hl_spread_of (high_y low_y : option Q) : option Q :=
  match high_y, low_y with
  | Some h, Some l =>
      if bool_of_float h && bool_of_float l
      then Some (round (Qabs (h - l)) 4) else None
  | _, _ => None
  end.

(** [days / 365 if days else None]. *)
Definition years_of (days : option Z) : result (option Q) :=
  match days with
  | Some d =>
      if bool_of_int d
      then let* y := truediv (inject_Z d) 365 in Ok (Some y)
      else Ok None
  | None => Ok None
  end.

Definition real_yield_of (ytm : option Q) : option Q :=
  match ytm with
  | Some y =>
      if bool_of_float y then Some (round (y - GHANA_INFLATION_RATE) 2)
      else None
  | None => None
  end.

(** The body of the loop of [process_gog_bonds], for one row. *)
Definition process_gog_row (trade_date security_type : string) (r : raw_row)
  : result metric :=
  let price := r_closing_price r in
  let days := r_days_to_maturity r in
  let desc := r_security_description r in
  let coupon := extract_coupon_from_description float desc in
  let* ytm :=
    if truthy bool_of_float price && truthy bool_of_int days
    then calculate_bond_ytm price coupon days
    else Ok (r_closing_yield r) in
  let ytm := if negb (truthy bool_of_float ytm) then r_closing_yield r else ytm in
  let real_yield := real_yield_of ytm in
  let hl_spread := hl_spread_of (r_day_high_yield r) (r_day_low_yield r) in
  let volume := r_volume r in
  let* years := years_of days in
  let* mod_duration :=
    if truthy bool_of_float ytm && truthy bool_of_float years
    then calculate_modified_duration libm_pow ytm years coupon
    else Ok None in
  Ok {| m_date := trade_date; m_isin := r_isin r;
        m_security_type := security_type; m_ytm := ytm;
        m_discount_yield := None; m_bond_equivalent_yield := None;
        m_real_yield := real_yield; m_coupon_rate := coupon;
        m_volume := volume; m_hl_spread := hl_spread;
        m_liquidity_score := Some (calculate_liquidity_score volume hl_spread);
        m_modified_duration := mod_duration;
        m_benchmark_yield := None; m_spread_vs_govt := None;
        m_volume_avg_30d := None; m_volume_spike_flag := None;
        m_liquidity_flag := None |}.

(** The body of the loop of [process_tbills]. *)
Definition process_tbill_row (trade_date : string) (r : raw_row) : result metric :=
  let price := r_closing_price r in
  let days := r_days_to_maturity r in
  let* yields :=
    if truthy bool_of_float price && truthy bool_of_int days
    then calculate_tbill_yields price days
    else Ok ∅ in
  let real_yield :=
    if truthy bool_of_float (yields !! "ytm")
    then Some (round (default 0 (yields !! "ytm") - GHANA_INFLATION_RATE) 2)
    else None in
  let volume := r_volume_traded r in
  let hl_spread := hl_spread_of (r_day_high_yield r) (r_day_low_yield r) in
  let* years := years_of days in
  Ok {| m_date := trade_date; m_isin := r_isin r;
        m_security_type := "TBILL"; m_ytm := yields !! "ytm";
        m_discount_yield := yields !! "discount_yield";
        m_bond_equivalent_yield := yields !! "bond_equivalent_yield";
        m_real_yield := real_yield; m_coupon_rate := None;
        m_volume := volume; m_hl_spread := hl_spread;
        m_liquidity_score := Some (calculate_liquidity_score volume hl_spread);
        m_modified_duration :=
          match years with
          | Some y => if bool_of_float y then Some (round y 2) else None
          | None => None
          end;
        m_benchmark_yield := None; m_spread_vs_govt := None;
        m_volume_avg_30d := None; m_volume_spike_flag := None;
        m_liquidity_flag := None |}.

(** The body of the loop of [process_corporate]. *)
Definition process_corporate_row (trade_date : string) (r : raw_row)
  : result metric :=
  let price := r_closing_price r in
  let days := r_days_to_maturity r in
  let desc := r_security_description r in
  let coupon := extract_coupon_from_description float desc in
  let* ytm :=
    if truthy bool_of_float price && truthy bool_of_int days
    then calculate_bond_ytm price coupon days
    else Ok None in
  let ytm := if negb (truthy bool_of_float ytm) then r_day_high_yield r else ytm in
  let real_yield := real_yield_of ytm in
  let volume := r_volume_traded r in
  let* years := years_of days in
  let* mod_duration :=
    if truthy bool_of_float ytm && truthy bool_of_float years
    then calculate_modified_duration libm_pow ytm years coupon
    else Ok None in
  Ok {| m_date := trade_date; m_isin := r_isin r;
        m_security_type := "CORPORATE"; m_ytm := ytm;
        m_discount_yield := None; m_bond_equivalent_yield := None;
        m_real_yield := real_yield; m_coupon_rate := coupon;
        m_volume := volume; m_hl_spread := None;
        m_liquidity_score := Some (calculate_liquidity_score volume None);
        m_modified_duration := mod_duration;
        m_benchmark_yield := None; m_spread_vs_govt := None;
        m_volume_avg_30d := None; m_volume_spike_flag := None;
        m_liquidity_flag := None |}.

(** [try: ... metrics.append(...) / except Exception: log]: a row whose body
    raises contributes nothing. *)
Definition collect (body : raw_row -> result metric) (records : list raw_row)
  : list metric :=
  flat_map (fun r => match body r with Ok m => [m] | Raise _ => [] end) records.

(** [records] is the answer of the store to the query by date. *)
Definition process_gog_bonds (trade_date : string) (records : list raw_row)
    (security_type : string) : list metric :=
  collect (process_gog_row trade_date security_type) records.

Definition process_tbills (trade_date : string) (records : list raw_row)
  : list metric :=
  collect (process_tbill_row trade_date) records.

Definition process_corporate (trade_date : string) (records : list raw_row)
  : list metric :=
  collect (process_corporate_row trade_date) records.

End Builders.

(** ** Corporate spreads *)

(** [{p["maturity_bucket"]: p["yield"] for p in curve_points}]: a later
    point replaces an earlier one of the same bucket. *)
Definition bucket_to_yield_of (curve_points : list curve_point) : gmap string Q :=
  fold_left (fun acc p => <[p_maturity_bucket p := p_yield p]> acc)
            curve_points ∅.

(** [{r["isin"]: r.get("days_to_maturity") for r in response.data}]. *)
Definition isin_to_days_of (rows : list (string * option Z))
  : gmap string (option Z) :=
  fold_left (fun acc r => <[fst r := snd r]> acc) rows ∅.

Definition spread_alert (m : metric) (spread benchmark : Q) : alert :=
  {| a_date := m_date m; a_isin := m_isin m;
     a_alert_type := "SPREAD_WIDENING";
     a_alert_message :=
       PyStr.concat ["Corporate spread at "; PyStr.format_f false 2 spread;
                     "% vs benchmark "; PyStr.format_f false 2 benchmark; "%"];
     a_severity := "INFO" |}.

(** The body of the loop of [calculate_corporate_spreads]: the metric as it
    is left, and the alerts appended. *)
Definition corporate_spread_step (bucket_to_yield : gmap string Q)
    (isin_to_days : gmap string (option Z)) (m : metric) : metric * list alert :=
  match m_ytm m with
  | Some ytm =>
      if String.eqb (m_security_type m) "CORPORATE" && bool_of_float ytm then
        match mjoin (isin_to_days !! m_isin m) with
        | Some days =>
            if bool_of_int days then
              let bucket := get_maturity_bucket days in
              match bucket_to_yield !! bucket with
              | Some benchmark =>
                  if bool_of_float benchmark then
                    let m := set_benchmark_yield (round benchmark 4) m in
                    let spread := round (ytm - benchmark) 4 in
                    let m := set_spread_vs_govt spread m in
                    if Qltb 5.0 spread
                    then (m, [spread_alert m spread benchmark])
                    else (m, [])
                  else (m, [])
              | None => (m, [])
              end
            else (m, [])
        | None => (m, [])
        end
      else (m, [])
  | None => (m, [])
  end.

(** Runs a loop body over the metrics in order: each dictionary of the list
    is updated in place and the alerts accumulate.  The dictionaries of a
    run are distinct objects (every builder creates its own), and a body
    reads and writes only the one it is given, so the updated list is the
    list of the updated metrics. *)
Definition for_each_metric (step : metric -> metric * list alert)
    (all_metrics : list metric) : list metric * list alert :=
  fold_left
    (fun acc m => let '(m', new) := step m in (fst acc ++ [m'], snd acc ++ new))
    all_metrics ([], []).

(** [corporate_rows] is the answer of the store to the query of the
    [corporate] table for [isin, days_to_maturity]. *)
Definition calculate_corporate_spreads (all_metrics : list metric)
    (curve_points : list curve_point) (corporate_rows : list (string * option Z))
  : list metric * list alert :=
  for_each_metric
    (corporate_spread_step (bucket_to_yield_of curve_points)
                           (isin_to_days_of corporate_rows))
    all_metrics.

(** ** Volume spikes *)

Section VolumeSpikes.

(** The history query of [security_metrics] for one ISIN: the [volume]
    column of the rows the store returns (the query asks for the rows of
    that ISIN on other dates, latest first, at most 30), or the exception
    the call raised. *)
Variable history : string -> string -> result (list (option Q)).

(** [[r["volume"] for r in response.data if r.get("volume")]]. *)
Definition historical_volumes_of (data : list (option Q)) : list Q :=
  flat_map (fun v => match v with
                     | Some x => if bool_of_float x then [x] else []
                     | None => []
                     end) data.

Definition py_sum (xs : list Q) : Q := fold_left Qplus xs 0.

Definition spike_alert (trade_date isin : string) (today_volume avg_volume : Q)
  : result alert :=
  let* ratio := truediv today_volume avg_volume in
  Ok {| a_date := trade_date; a_isin := isin;
        a_alert_type := "VOLUME_SPIKE";
        a_alert_message :=
          PyStr.concat ["Volume spike: "; PyStr.format_f true 0 today_volume;
                        " vs avg "; PyStr.format_f true 0 avg_volume;
                        " ("; PyStr.format_f false 1 ratio; "x)"];
        a_severity := "WARNING" |}.

(** The body of the loop of [detect_volume_spikes]. *)
Definition volume_spike_step (trade_date : string) (m : metric)
  : metric * list alert :=
  let isin := m_isin m in
  match m_volume m with
  | None => (set_liquidity_flag "STALE" m, [])
  | Some today_volume =>
      if negb (bool_of_float today_volume) || Qle_bool today_volume 0
      then (set_liquidity_flag "STALE" m, [])
      else
        let m := set_liquidity_flag "ACTIVE" m in
        match history isin trade_date with
        | Raise _ => (m, [])
        | Ok data =>
            let historical_volumes := historical_volumes_of data in
            match historical_volumes with
            | [] => (m, [])
            | _ :: _ =>
                match truediv (py_sum historical_volumes)
                              (inject_Z (Z.of_nat (List.length historical_volumes))) with
                | Raise _ => (m, [])
                | Ok avg_volume =>
                    let m := set_volume_avg_30d (round avg_volume 2) m in
                    if Qltb 0 avg_volume
                       && Qle_bool (avg_volume * VOLUME_SPIKE_THRESHOLD) today_volume
                    then
                      let m' := set_volume_spike_flag true m in
                      match spike_alert trade_date isin today_volume avg_volume with
                      | Ok a => (m', [a])
                      | Raise _ => (m', [])
                      end
                    else (set_volume_spike_flag false m, [])
                end
            end
        end
  end.

Definition detect_volume_spikes (trade_date : string) (all_metrics : list metric)
  : list metric * list alert :=
  for_each_metric (volume_spike_step trade_date) all_metrics.

End VolumeSpikes.

(** ** The uniform schema of [security_metrics] *)

Definition METRIC_KEYS : list string :=
  [ "date"; "isin"; "security_type";
    "ytm"; "discount_yield"; "bond_equivalent_yield"; "real_yield"; "coupon_rate";
    "volume"; "turnover_ratio"; "hl_spread"; "liquidity_score";
    "modified_duration"; "convexity"; "z_spread"; "corporate_spread";
    "benchmark_yield"; "spread_vs_govt"; "volume_avg_30d"; "volume_spike_flag";
    "liquidity_flag" ].

Section Normalize.

(** The values a record holds other than [None]; a dictionary maps a key
    to [Some v], or to [None] when the key is there with the value [None]. *)
Variable V : Type.

(** [record.get(k)]. *)
Definition dict_get (record : gmap string (option V)) (k : string) : option V :=
  mjoin (record !! k).

(** [{k: record.get(k) for k in METRIC_KEYS}]. *)
Definition normalize_metric_record (record : gmap string (option V))
  : gmap string (option V) :=
  fold_left (fun acc k => <[k := dict_get record k]> acc) METRIC_KEYS ∅.

End Normalize.

(** The values of a metric dictionary. *)
Inductive pyvalue : Type :=
  | VStr (s : string)
  | VFloat (x : Q)
  | VBool (b : bool).

(** The dictionary a [metric] stands for, every key written out. *)
Definition metric_to_dict (m : metric) : gmap string (option pyvalue) :=
  list_to_map
    [ ("date", Some (VStr (m_date m))); ("isin", Some (VStr (m_isin m)));
      ("security_type", Some (VStr (m_security_type m)));
      ("ytm", VFloat <$> m_ytm m);
      ("discount_yield", VFloat <$> m_discount_yield m);
      ("bond_equivalent_yield", VFloat <$> m_bond_equivalent_yield m);
      ("real_yield", VFloat <$> m_real_yield m);
      ("coupon_rate", VFloat <$> m_coupon_rate m);
      ("volume", VFloat <$> m_volume m);
      ("hl_spread", VFloat <$> m_hl_spread m);
      ("liquidity_score", VStr <$> m_liquidity_score m);
      ("modified_duration", VFloat <$> m_modified_duration m);
      ("benchmark_yield", VFloat <$> m_benchmark_yield m);
      ("spread_vs_govt", VFloat <$> m_spread_vs_govt m);
      ("volume_avg_30d", VFloat <$> m_volume_avg_30d m);
      ("volume_spike_flag", VBool <$> m_volume_spike_flag m);
      ("liquidity_flag", VStr <$> m_liquidity_flag m) ].

(** ** Yield curve *)

(** [bucket_yields], a dictionary in insertion order: the bucket's list
    grows at its end, a new bucket is added after the others. *)
Fixpoint bucket_append (bucket : string) (item : Z * Q)
    (bucket_yields : list (string * list (Z * Q)))
  : list (string * list (Z * Q)) :=
  match bucket_yields with
  | [] => [(bucket, [item])]
  | (b, items) :: rest =>
      if String.eqb b bucket then (b, items ++ [item]) :: rest
      else (b, items) :: bucket_append bucket item rest
  end.

(** The body of the bucketing loop of [build_yield_curve]. *)
Definition bucket_step (isin_to_days : gmap string (option Z))
    (bucket_yields : list (string * list (Z * Q))) (m : metric)
  : list (string * list (Z * Q)) :=
  if (String.eqb (m_security_type m) "GOG_BOND"
      || String.eqb (m_security_type m) "TBILL")
     && truthy bool_of_float (m_ytm m)
  then
    match mjoin (isin_to_days !! m_isin m), m_ytm m with
    | Some days, Some ytm =>
        if bool_of_int days
        then bucket_append (get_maturity_bucket days) (days, ytm) bucket_yields
        else bucket_yields
    | _, _ => bucket_yields
    end
  else bucket_yields.

Definition sum_int (xs : list Z) : Z := fold_left Z.add xs 0%Z.

(** [int(x)] on a float: truncation towards zero. *)
Definition py_int (x : Q) : Z := Z.quot (Qnum x) (Zpos (Qden x)).

(** The body of the averaging loop of [build_yield_curve]. *)
Definition curve_point_of (trade_date : string)
    (entry : string * list (Z * Q)) : result curve_point :=
  let '(bucket, items) := entry in
  let* avg_days :=
    truediv (inject_Z (sum_int (map fst items)))
            (inject_Z (Z.of_nat (List.length items))) in
  let* avg_yield :=
    truediv (py_sum (map snd items))
            (inject_Z (Z.of_nat (List.length items))) in
  Ok {| p_date := trade_date; p_maturity_days := py_int avg_days;
        p_maturity_bucket := bucket; p_yield := round avg_yield 4;
        p_curve_type := "GOG" |}.

Fixpoint map_result {A B : Type} (f : A -> result B) (xs : list A)
  : result (list B) :=
  match xs with
  | [] => Ok []
  | x :: rest =>
      let* y := f x in
      let* ys := map_result f rest in
      Ok (y :: ys)
  end.

(** [gog_data] is the answers of the store to the three queries for
    [isin, days_to_maturity] at the trade date (the two GOG tables, then
    the treasury bills), one after the other. *)
Definition build_yield_curve (trade_date : string) (all_metrics : list metric)
    (gog_data : list (string * option Z)) : result (list curve_point) :=
  let isin_to_days := isin_to_days_of gog_data in
  let bucket_yields := fold_left (bucket_step isin_to_days) all_metrics [] in
  map_result (curve_point_of trade_date) bucket_yields.

(** ** Daily summary *)

Record summary : Type := mk_summary {
  s_date : string;
  s_curve_shape : string;
  s_curve_slope : Q;
  s_spread_91d_10y : option Q;
  s_total_volume_gog : Q;
  s_total_volume_tbill : Q;
  s_total_volume_corporate : Q;
  s_most_active_isin : option string;
  s_inflation_rate : Q;
  s_policy_rate : Q
}.

(** [sorted(curve_points, key=lambda x: x["maturity_days"])]: a stable sort,
    here by insertion after the points whose key is not greater. *)
Fixpoint insert_by_days (p : curve_point) (sorted : list curve_point)
  : list curve_point :=
  match sorted with
  | [] => [p]
  | q :: rest =>
      if (p_maturity_days q <=? p_maturity_days p)%Z
      then q :: insert_by_days p rest
      else p :: q :: rest
  end.

Definition sorted_by_days (curve_points : list curve_point) : list curve_point :=
  fold_left (fun acc p => insert_by_days p acc) curve_points [].

(** [next((p["yield"] for p in curve_points if p["maturity_bucket"] == b), None)]. *)
Definition yield_of_bucket (b : string) (curve_points : list curve_point)
  : option Q :=
  p_yield <$> find (fun p => String.eqb (p_maturity_bucket p) b) curve_points.

(** [m.get("volume") or 0]. *)
Definition volume_or_0 (m : metric) : Q :=
  match m_volume m with
  | Some v => if bool_of_float v then v else 0
  | None => 0
  end.

(** [sum(m.get("volume") or 0 for m in all_metrics if m["security_type"] == t)]. *)
Definition total_volume (t : string) (all_metrics : list metric) : Q :=
  py_sum (map volume_or_0
            (List.filter (fun m => String.eqb (m_security_type m) t) all_metrics)).

(** [max(..., key=...)]: the first element whose key is the greatest. *)
Fixpoint max_by_volume (best : metric) (rest : list metric) : metric :=
  match rest with
  | [] => best
  | m :: rest' =>
      max_by_volume (if Qltb (volume_or_0 best) (volume_or_0 m) then m else best)
                    rest'
  end.

(** [max(all_metrics, key=..., default={}).get("isin")]. *)
Definition most_active_isin (all_metrics : list metric) : option string :=
  match all_metrics with
  | [] => None
  | m :: rest => Some (m_isin (max_by_volume m rest))
  end.

Definition curve_shape_of (curve_slope : Q) : string :=
  if Qltb curve_slope (-0.5) then "INVERTED"
  else if Qltb curve_slope 0.5 then "FLAT"
  else "NORMAL".

Definition build_daily_summary (trade_date : string) (all_metrics : list metric)
    (curve_points : list curve_point) : summary :=
  let sorted_curve := sorted_by_days curve_points in
  let '(curve_shape, curve_slope) :=
    match sorted_curve with
    | first :: _ :: _ =>
        let short_yield := p_yield first in
        let long_yield := p_yield (List.last sorted_curve first) in
        let curve_slope := round (long_yield - short_yield) 2 in
        (curve_shape_of curve_slope, curve_slope)
    | _ => ("NORMAL", 0)
    end in
  let yield_91d := yield_of_bucket "91D" curve_points in
  let yield_10y := yield_of_bucket "10Y" curve_points in
  let spread_91d_10y :=
    match yield_91d, yield_10y with
    | Some y91, Some y10 =>
        if bool_of_float y91 && bool_of_float y10
        then Some (round (y10 - y91) 2) else None
    | _, _ => None
    end in
  {| s_date := trade_date; s_curve_shape := curve_shape;
     s_curve_slope := curve_slope; s_spread_91d_10y := spread_91d_10y;
     s_total_volume_gog := total_volume "GOG_BOND" all_metrics;
     s_total_volume_tbill := total_volume "TBILL" all_metrics;
     s_total_volume_corporate := total_volume "CORPORATE" all_metrics;
     s_most_active_isin := most_active_isin all_metrics;
     s_inflation_rate := GHANA_INFLATION_RATE;
     s_policy_rate := GHANA_POLICY_RATE |}.

(** ** The run *)

(** What the store answers during one run: the rows of each source table
    at the trade date, the rows of [corporate] on every date (the spread
    calculator does not filter by date), and the history of each ISIN.  The
    curve builder asks the first three tables again for [isin,
    days_to_maturity]; it gets the same rows. *)
Record store : Type := mk_store {
  st_new_gog : list raw_row;
  st_old_gog : list raw_row;
  st_treasury_bills : list raw_row;
  st_corporate : list raw_row;
  st_corporate_all_dates : list raw_row;
  st_history : string -> string -> result (list (option Q))
}.

Definition isin_and_days (rows : list raw_row) : list (string * option Z) :=
  map (fun r => (r_isin r, r_days_to_maturity r)) rows.

(** The calls that change the store. *)
Inductive write : Type :=
  | UpsertSecurityMetrics (rows : list (gmap string (option pyvalue)))
  | UpsertYieldCurvePoints (rows : list curve_point)
  | UpsertDailyMarketSummary (row : summary)
  | InsertMarketAlerts (rows : list alert).

Section Run.

Variable float : string -> option Q.
Variable libm_pow : Q -> Q -> Q.

(** The metrics of the four builders, in the order of the run. *)
Definition collect_all_metrics (trade_date : string) (s : store) : list metric :=
  process_gog_bonds float libm_pow trade_date (st_new_gog s) "GOG_BOND"
  ++ process_gog_bonds float libm_pow trade_date (st_old_gog s) "GOG_BOND"
  ++ process_tbills trade_date (st_treasury_bills s)
  ++ process_corporate float libm_pow trade_date (st_corporate s).

(** [run_quant_engine]: the writes it sends to the store, in order. *)
Definition run_quant_engine (trade_date : string) (s : store)
  : result (list write) :=
  let all_metrics := collect_all_metrics trade_date s in
  let* curve_points :=
    build_yield_curve trade_date all_metrics
      (isin_and_days (st_new_gog s) ++ isin_and_days (st_old_gog s)
       ++ isin_and_days (st_treasury_bills s)) in
  let '(all_metrics, spread_alerts) :=
    calculate_corporate_spreads all_metrics curve_points
      (isin_and_days (st_corporate_all_dates s)) in
  let '(all_metrics, volume_alerts) :=
    detect_volume_spikes (st_history s) trade_date all_metrics in
  let all_alerts := spread_alerts ++ volume_alerts in
  let summary := build_daily_summary trade_date all_metrics curve_points in
  Ok ((match all_metrics with
       | [] => []
       | _ :: _ =>
           [UpsertSecurityMetrics
              (map (fun m => normalize_metric_record pyvalue (metric_to_dict m))
                   all_metrics)]
       end)
      ++ (match curve_points with
          | [] => []
          | _ :: _ => [UpsertYieldCurvePoints curve_points]
          end)
      ++ [UpsertDailyMarketSummary summary]
      ++ (match all_alerts with
          | [] => []
          | _ :: _ => [InsertMarketAlerts all_alerts]
          end)).

End Run.

(** ** Example inputs for the further properties *)

(** [float] on the texts of the examples: the three decimals read as
    numbers, every other text raises [ValueError]. *)
Definition float_decimal_examples (s : string) : option Q :=
  if String.eqb s "10.00" then Some 10.00
  else if String.eqb s "30.25" then Some 30.25
  else if String.eqb s "5.00" then Some 5.00
  else None.

(** A GOG row quoted at a yield of 100 with 401,500 days (1,100 years) to
    maturity and a coupon of 5. *)
Definition gog_row_with_1100_years : raw_row :=
  {| r_isin := "GOG1"; r_security_description := Some "GOG-BD-5.00";
     r_closing_price := None; r_closing_yield := Some 100;
     r_day_high_yield := None; r_day_low_yield := None;
     r_volume := Some 1000; r_volume_traded := None;
     r_days_to_maturity := Some 401500%Z |}.

(** ** Predicates on the buckets of the curve builder *)

(** The labels [get_maturity_bucket] can return. *)
Definition BUCKET_LABELS : list string :=
  ["91D"; "182D"; "1Y"; "2Y"; "3Y"; "5Y"; "10Y"; "20Y"; "20Y+"].

(** Every list of a bucket is non-empty, and what holds of the items
    appended holds of the items stored. *)
Definition entries_all (P : string -> Z * Q -> Prop)
    (bys : list (string * list (Z * Q))) : Prop :=
  Forall (fun e => snd e <> [] /\ Forall (P (fst e)) (snd e)) bys.

(** A metric counts for bucket [b] with the item [(days, ytm)]. *)
Definition counts_for (isin_to_days : gmap string (option Z))
    (all_metrics : list metric) (b : string) (item : Z * Q) : Prop :=
  exists m : metric,
    In m all_metrics /\
    (m_security_type m = "GOG_BOND" \/ m_security_type m = "TBILL") /\
    m_ytm m = Some (snd item) /\ ~ snd item == 0 /\
    mjoin (isin_to_days !! m_isin m) = Some (fst item) /\
    fst item <> 0%Z /\ get_maturity_bucket (fst item) = b.

(** A curve with two points, the long end listed first. *)
Definition curve_10Y_then_91D : list curve_point :=
  [ {| p_date := "2026-01-30"; p_maturity_days := 3000;
       p_maturity_bucket := "10Y"; p_yield := 21.5; p_curve_type := "GOG" |};
    {| p_date := "2026-01-30"; p_maturity_days := 60;
       p_maturity_bucket := "91D"; p_yield := 14.5; p_curve_type := "GOG" |} ].

(** The order of the sorted curve. *)
Definition days_le (p q : curve_point) : Prop :=
  (p_maturity_days p <= p_maturity_days q)%Z.

(** The curve of the T-bill scenario: one point, for the bill's 91 days. *)
Definition curve_of_TB1 : list curve_point :=
  [ {| p_date := "2026-01-30"; p_maturity_days := 91;
       p_maturity_bucket := "91D"; p_yield := 14.5476; p_curve_type := "GOG" |} ].

(** A treasury bill at 96.5 with 91 days to run. *)
Definition tbill_row_91d : raw_row :=
  {| r_isin := "TB1"; r_security_description := None;
     r_closing_price := Some 96.5; r_closing_yield := None;
     r_day_high_yield := None; r_day_low_yield := None;
     r_volume := None; r_volume_traded := Some 3000000;
     r_days_to_maturity := Some 91%Z |}.

(** A store whose only row is that bill; every history query fails. *)
Definition store_with_one_tbill : store :=
  {| st_new_gog := []; st_old_gog := []; st_treasury_bills := [tbill_row_91d];
     st_corporate := []; st_corporate_all_dates := [];
     st_history := fun _ _ => Raise StoreError |}.

(** What a run on that store writes, and the rows of its first write. *)
Definition writes_of_one_tbill : list write :=
  match run_quant_engine float_decimal_examples (fun _ _ => 1) "2026-01-30"
          store_with_one_tbill with
  | Ok ws => ws
  | Raise _ => []
  end.

Definition rows_of_one_tbill : list (gmap string (option pyvalue)) :=
  match writes_of_one_tbill with
  | UpsertSecurityMetrics rows :: _ => rows
  | _ => []
  end.

(** A store with no row at all. *)
Definition empty_store : store :=
  {| st_new_gog := []; st_old_gog := []; st_treasury_bills := [];
     st_corporate := []; st_corporate_all_dates := [];
     st_history := fun _ _ => Ok [] |}.

(** ** Example inputs, and the readings of the specification that the
    properties below compare with *)

(** A corporate row without a price that carries both yields (not a row the
    ingestion writes: the corporate table has no [closing_yield]). *)
Definition corporate_row_with_both_yields : raw_row :=
  {| r_isin := "CORP1"; r_security_description := None;
     r_closing_price := None; r_closing_yield := Some 20;
     r_day_high_yield := Some 21; r_day_low_yield := None;
     r_volume := None; r_volume_traded := Some 1000;
     r_days_to_maturity := None |}.

(** The fallback as C3 words it for corporate rows: [closing_yield] first,
    [day_high_yield] second. *)
Definition corporate_fallback_as_claimed (r : raw_row) : option Q :=
  match r_closing_yield r with
  | Some y => Some y
  | None => r_day_high_yield r
  end.

(** A corporate metric whose yield has five decimals. *)
Definition corporate_metric_20_00004 : metric :=
  {| m_date := "2026-01-30"; m_isin := "CORP1";
     m_security_type := "CORPORATE"; m_ytm := Some 20.00004;
     m_discount_yield := None; m_bond_equivalent_yield := None;
     m_real_yield := Some (-3.20); m_coupon_rate := None;
     m_volume := Some 1000; m_hl_spread := None;
     m_liquidity_score := Some "LOW"; m_modified_duration := None;
     m_benchmark_yield := None; m_spread_vs_govt := None;
     m_volume_avg_30d := None; m_volume_spike_flag := None;
     m_liquidity_flag := None |}.

(** A curve with one point, 14.5 in the bucket of 92 to 182 days. *)
Definition curve_182D_at_14_5 : list curve_point :=
  [ {| p_date := "2026-01-30"; p_maturity_days := 100;
       p_maturity_bucket := "182D"; p_yield := 14.5; p_curve_type := "GOG" |} ].

(** The metric of the T-bill scenario, with [v] as today's volume. *)
Definition metric_with_volume (v : Q) : metric :=
  {| m_date := "2026-01-30"; m_isin := "TB1";
     m_security_type := "TBILL"; m_ytm := Some 14.5476;
     m_discount_yield := Some 13.8462;
     m_bond_equivalent_yield := Some 14.5476;
     m_real_yield := Some (-8.65); m_coupon_rate := None;
     m_volume := Some v; m_hl_spread := Some 0.4000;
     m_liquidity_score := Some "MEDIUM"; m_modified_duration := Some 0.25;
     m_benchmark_yield := None; m_spread_vs_govt := None;
     m_volume_avg_30d := None; m_volume_spike_flag := None;
     m_liquidity_flag := None |}.

(** A store that answers every history query with [data]. *)
Definition history_of (data : list (option Q))
  : string -> string -> result (list (option Q)) :=
  fun _ _ => Ok data.

(** The mean as C8 words it: over every row with a recorded volume, zeros
    included. *)
Definition mean_of_recorded (data : list (option Q)) : Q :=
  py_sum (omap id data) / inject_Z (Z.of_nat (List.length (omap id data))).

(** ** Rounded values, up to the last bit

    At a price of 91.75 and 64 days the discount yield is exactly 46.40625:
    the model rounds it to 46.4062, the engine, whose product comes out
    just above, to 46.4063.  [rounding_of n scale x r] says of a result
    [r = round(x, n)] what holds in both: [r] has [n] decimals, and it lies
    within half a unit of the [n]-th decimal of the exact value [x], up to
    [float_error] times the magnitude [scale] of the operands. *)
Definition float_error : Q := 1 # 1000000000000.

Definition half_unit (ndigits : nat) : Q := 1 # (2 * pow10 ndigits).

Definition rounding_of (ndigits : nat) (scale x r : Q) : Prop :=
  round r ndigits = r /\
  Qabs (r - x) <= half_unit ndigits + float_error * scale.

(** ** The rows of the corporate table

    A row of the [corporate] table as the ingestion writes it
    ([map_corporate] of [extraction/process_excel.py] fills [isin],
    [issuer], [security_description], [opening_price], [closing_price],
    [volume_traded], [number_traded], [day_low_yield], [day_high_yield],
    [days_to_maturity] and [maturity_date]): it has neither a
    [closing_yield] nor a [volume]. *)
Definition written_by_map_corporate (r : raw_row) : Prop :=
  r_closing_yield r = None /\ r_volume r = None.

(** A GOG row without a price. *)
Definition gog_row_without_price : raw_row :=
  {| r_isin := "GOG2"; r_security_description := None;
     r_closing_price := None; r_closing_yield := Some 19.5;
     r_day_high_yield := Some 19.75; r_day_low_yield := Some 19.25;
     r_volume := Some 5000; r_volume_traded := None;
     r_days_to_maturity := None |}.

(** A corporate row without a price, as the ingestion writes it. *)
Definition corporate_row_without_price : raw_row :=
  {| r_isin := "CORP2"; r_security_description := None;
     r_closing_price := None; r_closing_yield := None;
     r_day_high_yield := Some 21; r_day_low_yield := Some 20;
     r_volume := None; r_volume_traded := Some 1000;
     r_days_to_maturity := None |}.

(** ** The historical average, in words

    The arithmetic mean of a list, the volumes a history records (a row
    without a volume records none), and those of them that are not zero. *)
Definition mean_of (xs : list Q) : Q :=
  fold_right Qplus 0 xs / inject_Z (Z.of_nat (List.length xs)).

Definition recorded (data : list (option Q)) : list Q := omap id data.

Definition recorded_nonzero (data : list (option Q)) : list Q :=
  List.filter (fun x => negb (Qeq_bool x 0)) (recorded data).

(** A whole number. *)
Definition whole (x : Q) : Prop := inject_Z (Qfloor x) == x.

(** How far the threshold the engine computes from the volumes [xs], three
    times their mean in double arithmetic, can lie from the exact one. *)
Definition threshold_error (xs : list Q) : Q :=
  float_error * (mean_of (map Qabs xs) * 3.0).

(** * Properties *)

(** ** Facts about the runtime model *)

Lemma Qltb_lt (x y : Q) : Qltb x y = true <-> x < y.
Proof.
  unfold Qltb. rewrite negb_true_iff.
  split.
  - intros H. apply Qnot_le_lt. intros Hle.
    apply Qle_bool_iff in Hle. congruence.
  - intros H. destruct (Qle_bool y x) eqn:E; [|reflexivity].
    apply Qle_bool_iff in E. exfalso. exact (Qlt_not_le _ _ H E).
Qed.

Lemma Qltb_ge (x y : Q) : Qltb x y = false <-> y <= x.
Proof.
  unfold Qltb. rewrite negb_false_iff. apply Qle_bool_iff.
Qed.

Lemma bool_of_float_true (x : Q) : bool_of_float x = true <-> ~ x == 0.
Proof.
  unfold bool_of_float. rewrite negb_true_iff. split.
  - intros H. apply Qeq_bool_neq. exact H.
  - intros H. destruct (Qeq_bool x 0) eqn:E; [|reflexivity].
    apply Qeq_bool_iff in E. contradiction.
Qed.

Lemma bool_of_float_false (x : Q) : bool_of_float x = false <-> x == 0.
Proof.
  unfold bool_of_float. rewrite negb_false_iff. apply Qeq_bool_iff.
Qed.

Lemma bool_of_int_true (z : Z) : bool_of_int z = true <-> z <> 0%Z.
Proof.
  unfold bool_of_int. rewrite negb_true_iff. apply Z.eqb_neq.
Qed.

Lemma truediv_ok (a b : Q) : ~ b == 0 -> truediv a b = Ok (a / b).
Proof.
  intros H. unfold truediv.
  destruct (Qeq_bool b 0) eqn:E; [|reflexivity].
  apply Qeq_bool_iff in E. contradiction.
Qed.

Lemma inject_Z_nonzero (d : Z) : d <> 0%Z -> ~ inject_Z d == 0.
Proof.
  intros H E. apply H. unfold Qeq in E. simpl in E. lia.
Qed.

(** Rounding to the nearest integer is monotone. *)
Lemma round_half_even_mono (x y : Q) :
  x <= y -> (round_half_even x <= round_half_even y)%Z.
Proof.
  intros Hxy.
  pose proof (Qfloor_resp_le _ _ Hxy) as Hf.
  pose proof (Qfloor_le x) as Hx1. pose proof (Qlt_floor x) as Hx2.
  pose proof (Qfloor_le y) as Hy1. pose proof (Qlt_floor y) as Hy2.
  unfold round_half_even.
  set (fx := Qfloor x) in *. set (fy := Qfloor y) in *.
  destruct (Z.eq_dec fx fy) as [Heq | Hne].
  - rewrite <- Heq in *. clear Heq.
    destruct (Qltb (x - inject_Z fx) (1 # 2)) eqn:A1;
      destruct (Qltb (y - inject_Z fx) (1 # 2)) eqn:B1;
      destruct (Qltb (1 # 2) (x - inject_Z fx)) eqn:A2;
      destruct (Qltb (1 # 2) (y - inject_Z fx)) eqn:B2;
      destruct (Z.even fx);
      try lia;
      repeat match goal with
             | H : Qltb _ _ = true |- _ => apply Qltb_lt in H
             | H : Qltb _ _ = false |- _ => apply Qltb_ge in H
             end; exfalso; lra.
  - assert (fx + 1 <= fy)%Z as Hlt by lia.
    destruct (Qltb (x - inject_Z fx) (1 # 2));
      destruct (Qltb (y - inject_Z fy) (1 # 2));
      destruct (Qltb (1 # 2) (x - inject_Z fx));
      destruct (Qltb (1 # 2) (y - inject_Z fy));
      destruct (Z.even fx); destruct (Z.even fy); lia.
Qed.

Lemma round_mono (x y : Q) (n : nat) : x <= y -> round x n <= round y n.
Proof.
  intros H. unfold round, Qle. simpl.
  apply Z.mul_le_mono_nonneg_r; [lia|].
  apply round_half_even_mono.
  apply Qmult_le_compat_r; [exact H|]. unfold Qle. simpl. lia.
Qed.

(** [round] does not depend on how its argument is written as a fraction. *)
Lemma round_proper (x y : Q) (n : nat) : x == y -> round x n = round y n.
Proof.
  intros H. unfold round. f_equal.
  apply Z.le_antisymm; apply round_half_even_mono;
    apply Qmult_le_compat_r; try (rewrite H; apply Qle_refl);
    unfold Qle; simpl; lia.
Qed.

(** The nearest integer is at most one half away. *)
Lemma round_half_even_close (y : Q) :
  Qabs (inject_Z (round_half_even y) - y) <= 1 # 2.
Proof.
  pose proof (Qfloor_le y) as Hlo.
  pose proof (Qlt_floor y) as Hhi. rewrite inject_Z_plus in Hhi.
  change (inject_Z 1) with 1 in Hhi.
  apply Qabs_Qle_condition. unfold round_half_even.
  destruct (Qltb (y - inject_Z (Qfloor y)) (1 # 2)) eqn:A.
  - apply Qltb_lt in A. split; lra.
  - apply Qltb_ge in A.
    destruct (Qltb (1 # 2) (y - inject_Z (Qfloor y))) eqn:B.
    + rewrite inject_Z_plus. change (inject_Z 1) with 1. split; lra.
    + apply Qltb_ge in B.
      destruct (Z.even (Qfloor y)).
      * split; lra.
      * rewrite inject_Z_plus. change (inject_Z 1) with 1. split; lra.
Qed.

Lemma round_half_even_inject_Z (z : Z) : round_half_even (inject_Z z) = z.
Proof.
  unfold round_half_even. rewrite Qfloor_Z.
  assert (Qltb (inject_Z z - inject_Z z) (1 # 2) = true) as ->
    by (apply Qltb_lt; lra).
  reflexivity.
Qed.

(** A rounded value is its own rounding. *)
Lemma round_idempotent (x : Q) (n : nat) : round (round x n) n = round x n.
Proof.
  unfold round at 1.
  set (z := round_half_even (x * (Z.pos (pow10 n) # 1))).
  change (round x n) with (z # pow10 n).
  apply (f_equal (fun k => k # pow10 n)).
  assert ((z # pow10 n) * (Z.pos (pow10 n) # 1) == inject_Z z) as E.
  { unfold Qeq, Qmult, inject_Z. cbn [Qnum Qden]. lia. }
  rewrite <- (round_half_even_inject_Z z) at 2.
  apply Z.le_antisymm; apply round_half_even_mono; rewrite E; apply Qle_refl.
Qed.

(** A rounded value is within half a unit of the last decimal. *)
Lemma round_close (x : Q) (n : nat) : Qabs (round x n - x) <= half_unit n.
Proof.
  unfold round, half_unit.
  set (P := pow10 n).
  set (z := round_half_even (x * (Z.pos P # 1))).
  pose proof (round_half_even_close (x * (Z.pos P # 1))) as H. fold z in H.
  assert ((z # P) - x == (inject_Z z - x * (Z.pos P # 1)) * (1 # P)) as ->.
  { unfold Qeq, Qminus, Qplus, Qmult, Qopp, inject_Z. cbn [Qnum Qden]. nia. }
  rewrite Qabs_Qmult.
  assert (Qabs (1 # P) == 1 # P) as -> by reflexivity.
  assert (1 # (2 * P) == (1 # 2) * (1 # P)) as -> by reflexivity.
  apply Qmult_le_compat_r; [exact H | discriminate].
Qed.

Lemma round_rounding_of (n : nat) (scale x : Q) :
  0 <= scale -> rounding_of n scale x (round x n).
Proof.
  intros Hs. split; [apply round_idempotent|].
  pose proof (round_close x n) as H.
  assert (0 <= float_error * scale) as H'
    by (apply Qmult_le_0_compat; [discriminate | exact Hs]).
  lra.
Qed.

(** ** T-bill yields *)

(** With a non-zero price and a positive number of days every division is
    defined and the three keys are set. *)
Lemma calculate_tbill_yields_defined (p : Q) (d : Z) :
  ~ p == 0 -> (0 < d)%Z ->
  calculate_tbill_yields (Some p) (Some d) =
    Ok (<["discount_yield" :=
            round ((100 - p) / 100 * (360 / inject_Z d) * 100) 4]>
        (<["bond_equivalent_yield" :=
            round ((100 - p) / p * (365 / inject_Z d) * 100) 4]>
         (<["ytm" := round ((100 - p) / p * (365 / inject_Z d) * 100) 4]> ∅))).
Proof.
  intros Hp Hd. unfold calculate_tbill_yields.
  assert (bool_of_float p = true) as -> by (apply bool_of_float_true; exact Hp).
  assert (bool_of_int d = true) as -> by (apply bool_of_int_true; lia).
  assert ((d <=? 0)%Z = false) as -> by (apply Z.leb_gt; lia).
  cbn [negb orb].
  rewrite (truediv_ok (100 - p) 100) by (intros E; discriminate E).
  cbn [bind].
  rewrite (truediv_ok 360 (inject_Z d)) by (apply inject_Z_nonzero; lia).
  cbn [bind].
  rewrite (truediv_ok (100 - p) p) by exact Hp.
  cbn [bind].
  rewrite (truediv_ok 365 (inject_Z d)) by (apply inject_Z_nonzero; lia).
  reflexivity.
Qed.

(** What the three-key dictionary holds. *)
Lemma tbill_dict_lookup (dy bey : Q) :
  let m : gmap string Q :=
    <["discount_yield" := dy]>
      (<["bond_equivalent_yield" := bey]> (<["ytm" := bey]> ∅)) in
  m !! "discount_yield" = Some dy /\
  m !! "bond_equivalent_yield" = Some bey /\
  m !! "ytm" = Some bey /\
  dom m = {[ "discount_yield"; "bond_equivalent_yield"; "ytm" ]}.
Proof.
  repeat split; reflexivity.
Qed.

Lemma calculate_tbill_yields_empty (price : option Q) (days : option Z) :
  price = None \/ (exists p, price = Some p /\ p == 0) \/
  days = None \/ (exists d, days = Some d /\ (d <= 0)%Z) ->
  calculate_tbill_yields price days = Ok ∅.
Proof.
  unfold calculate_tbill_yields.
  intros [-> | [(p & -> & Hp) | [-> | (d & -> & Hd)]]].
  - reflexivity.
  - destruct days as [d|]; [|reflexivity].
    apply bool_of_float_false in Hp. rewrite Hp. reflexivity.
  - destruct price; reflexivity.
  - destruct price as [p|]; [|reflexivity].
    assert ((d <=? 0)%Z = true) as -> by (apply Z.leb_le; exact Hd).
    rewrite !orb_true_r. reflexivity.
Qed.

(** The two formulas of the calculator, exactly. *)
Lemma tbill_formulas_nonneg_scale (p : Q) (d : Z) :
  0 <= Qabs ((100 - p) / 100 * (360 / inject_Z d) * 100) /\
  0 <= Qabs ((100 - p) / p * (365 / inject_Z d) * 100).
Proof. split; apply Qabs_nonneg. Qed.

(** C1 (as amended).  For a positive price [p] and a positive number of
    days [d] the calculator returns the three keys: [discount_yield] is
    [(100 - p)/100 * (360/d) * 100] rounded to 4 decimals and
    [bond_equivalent_yield] is [(100 - p)/p * (365/d) * 100] rounded to 4
    decimals, each a 4-decimal number within half a unit of the fourth
    decimal of the exact formula up to the error of double arithmetic, and
    [ytm] is the latter; when the price is missing or zero, or the days are
    missing, zero or negative, it returns the empty dictionary; and at
    [p = 96.5], [d = 91] the values are 13.8462 and 14.5476. *)
Theorem tbill_yields_formulas :
  (forall (p : Q) (d : Z), 0 < p -> (0 < d)%Z ->
     exists (m : gmap string Q) (dy bey : Q),
       calculate_tbill_yields (Some p) (Some d) = Ok m /\
       m !! "discount_yield" = Some dy /\
       m !! "bond_equivalent_yield" = Some bey /\
       m !! "ytm" = Some bey /\
       dom m = {[ "discount_yield"; "bond_equivalent_yield"; "ytm" ]} /\
       rounding_of 4 (Qabs ((100 - p) / 100 * (360 / inject_Z d) * 100))
         ((100 - p) / 100 * (360 / inject_Z d) * 100) dy /\
       rounding_of 4 (Qabs ((100 - p) / p * (365 / inject_Z d) * 100))
         ((100 - p) / p * (365 / inject_Z d) * 100) bey) /\
  (forall (price : option Q) (days : option Z),
     price = None \/ (exists p, price = Some p /\ p == 0) \/
     days = None \/ (exists d, days = Some d /\ (d <= 0)%Z) ->
     calculate_tbill_yields price days = Ok ∅) /\
  (exists m : gmap string Q,
     calculate_tbill_yields (Some 96.5) (Some 91%Z) = Ok m /\
     m !! "discount_yield" = Some 13.8462 /\
     m !! "bond_equivalent_yield" = Some 14.5476 /\
     m !! "ytm" = Some 14.5476).
Proof.
  split; [|split].
  - intros p d Hp Hd.
    do 3 eexists. split.
    + apply calculate_tbill_yields_defined; [|exact Hd].
      intros E. rewrite E in Hp. exact (Qlt_irrefl 0 Hp).
    + match goal with
      | |- context [<["discount_yield" := ?dy]> (<[_ := ?bey]> _)] =>
          destruct (tbill_dict_lookup dy bey) as (A & B & C & D)
      end.
      split; [exact A|]. split; [exact B|]. split; [exact C|].
      split; [exact D|].
      split; apply round_rounding_of; apply Qabs_nonneg.
  - exact calculate_tbill_yields_empty.
  - eexists. split.
    + apply calculate_tbill_yields_defined; [intros E; discriminate E | lia].
    + match goal with
      | |- context [<["discount_yield" := ?dy]> (<[_ := ?bey]> _)] =>
          destruct (tbill_dict_lookup dy bey) as (A & B & C & _)
      end.
      rewrite A, B, C.
      repeat split; apply f_equal; vm_compute; reflexivity.
Qed.

Lemma tbill_yields_formulas_witness :
  exists (m : gmap string Q) (dy bey : Q),
    calculate_tbill_yields (Some 91.75) (Some 64%Z) = Ok m /\
    m !! "discount_yield" = Some dy /\
    m !! "bond_equivalent_yield" = Some bey /\
    m !! "ytm" = Some bey /\
    dom m = {[ "discount_yield"; "bond_equivalent_yield"; "ytm" ]} /\
    rounding_of 4 (Qabs ((100 - 91.75) / 100 * (360 / inject_Z 64) * 100))
      ((100 - 91.75) / 100 * (360 / inject_Z 64) * 100) dy /\
    rounding_of 4 (Qabs ((100 - 91.75) / 91.75 * (365 / inject_Z 64) * 100))
      ((100 - 91.75) / 91.75 * (365 / inject_Z 64) * 100) bey.
Proof.
  apply (proj1 tbill_yields_formulas 91.75 64%Z); [reflexivity | lia].
Defined.

(** The tie of the opening example: at 91.75 and 64 days the exact discount
    yield is 46.40625, and both of its 4-decimal neighbours are roundings of
    it in the sense of the statement above. *)
Example tbill_yield_at_a_tie :
  (100 - 91.75) / 100 * (360 / inject_Z 64) * 100 == 46.40625 /\
  rounding_of 4 46.40625 46.40625 46.4062 /\
  rounding_of 4 46.40625 46.40625 46.4063.
Proof.
  split; [reflexivity|].
  split; (split; [vm_compute; reflexivity|]);
    apply Qabs_Qle_condition; split; vm_compute; discriminate.
Qed.

(** C1 as stated fails at its own example: at [p = 96.5], [d = 91] the
    bond-equivalent yield is not 14.5455. *)
Lemma tbill_bey_example_is_not_14_5455 :
  ~ (exists (m : gmap string Q) (v : Q),
       calculate_tbill_yields (Some 96.5) (Some 91%Z) = Ok m /\
       m !! "bond_equivalent_yield" = Some v /\ v == 14.5455).
Proof.
  intros (m & v & Hm & Hv & E).
  rewrite (calculate_tbill_yields_defined 96.5 91) in Hm
    by (first [ lia | intros A; discriminate A ]).
  injection Hm as <-.
  rewrite (proj1 (proj2 (tbill_dict_lookup _ _))) in Hv.
  injection Hv as <-.
  vm_compute in E. discriminate E.
Qed.

(** The slip that C1's amendment leaves out: a negative price passes the
    guard (only [days_to_maturity] is tested for sign), and the formulas
    are applied to it. *)
Example tbill_negative_price_not_empty :
  exists m : gmap string Q,
    calculate_tbill_yields (Some (-5)) (Some 91%Z) = Ok m /\
    m !! "discount_yield" = Some 415.3846.
Proof.
  eexists. split.
  - apply calculate_tbill_yields_defined; [intros E; discriminate E | lia].
  - rewrite (proj1 (tbill_dict_lookup _ _)).
    apply f_equal. vm_compute. reflexivity.
Qed.

(** The bond-equivalent yield before rounding falls as the price rises. *)
Lemma bey_unrounded_decreasing (d : Z) (p1 p2 : Q) :
  (0 < d)%Z -> 0 < p1 -> p1 < p2 ->
  (100 - p2) / p2 * (365 / inject_Z d) * 100
    < (100 - p1) / p1 * (365 / inject_Z d) * 100.
Proof.
  intros Hd H1 H12.
  assert (0 < p2) as H2 by (eapply Qlt_trans; eassumption).
  assert (0 < inject_Z d) as Hd' by (unfold Qlt; simpl; lia).
  assert (0 < 365 / inject_Z d) as Hk.
  { apply Qlt_shift_div_l; [exact Hd' | rewrite Qmult_0_l; reflexivity]. }
  apply Qmult_lt_compat_r; [reflexivity|].
  apply Qmult_lt_compat_r; [exact Hk|].
  apply Qlt_shift_div_r; [exact H2|].
  assert ((100 - p1) / p1 * p2 == (100 - p1) * p2 / p1) as ->.
  { field. intros E. rewrite E in H1. exact (Qlt_irrefl 0 H1). }
  apply Qlt_shift_div_l; [exact H1|].
  lra.
Qed.

(** Below par both formulas are positive and bounded. *)
Lemma tbill_formulas_bounded (d : Z) (p : Q) :
  (0 < d)%Z -> 0 < p -> p < 100 ->
  0 < (100 - p) / 100 * (360 / inject_Z d) * 100 <= 36000 - 360 * p /\
  0 < (100 - p) / p * (365 / inject_Z d) * 100 <= 3650000 / p - 36500.
Proof.
  intros Hd Hp Hp'.
  assert (1 <= inject_Z d) as Hd'.
  { change 1 with (inject_Z 1). rewrite <- Zle_Qle. lia. }
  assert (0 < / inject_Z d <= 1) as [Hi Hi'].
  { split; [apply Qinv_lt_0_compat; lra|].
    apply Qle_shift_inv_r; lra. }
  assert (0 < / p) as Hip by (apply Qinv_lt_0_compat; exact Hp).
  unfold Qdiv.
  assert (0 < 100 - p) as Hdisc by lra.
  assert (0 < (100 - p) * / inject_Z d) as Ha by (apply Qmult_lt_0_compat; assumption).
  assert ((100 - p) * / inject_Z d <= 100 - p) as Hb.
  { rewrite <- (Qmult_1_r (100 - p)) at 2.
    apply Qmult_le_l; assumption. }
  split.
  - assert ((100 - p) * / 100 * (360 * / inject_Z d) * 100
            == 360 * ((100 - p) * / inject_Z d)) as ->.
    { field. intros E. rewrite E in Hd'. lra. }
    split; lra.
  - assert ((100 - p) * / p * (365 * / inject_Z d) * 100
            == 36500 * / p * ((100 - p) * / inject_Z d)) as ->.
    { field. split; intros E; [rewrite E in Hd' | rewrite E in Hp]; lra. }
    assert (3650000 * / p - 36500 == 36500 * / p * (100 - p)) as ->.
    { field. intros E. rewrite E in Hp. lra. }
    assert (0 < 36500 * / p) as Hk by lra.
    split.
    + apply Qmult_lt_0_compat; assumption.
    + apply Qmult_le_l; assumption.
Qed.

(** Two rounded values whose exact values are more than one unit of the
    last decimal apart are in the order of the exact values. *)
Lemma round_strict (x y : Q) (n : nat) :
  2 * half_unit n < x - y -> round y n < round x n.
Proof.
  intros H.
  pose proof (round_close x n) as Hx. pose proof (round_close y n) as Hy.
  apply Qabs_Qle_condition in Hx, Hy.
  destruct (Qle_lt_or_eq _ _ (round_mono y x n ltac:(lra))) as [L | E];
    [exact L|].
  exfalso. lra.
Qed.




(** ** Duration *)

(** C6.  With a positive yield and a positive time to maturity, a coupon
    rate that is absent or zero makes the duration the time to maturity
    rounded to 2 decimals. *)
Theorem zero_coupon_duration_is_maturity (libm_pow : Q -> Q -> Q)
    (ytm years : Q) (coupon_rate : option Q) :
  0 < ytm -> 0 < years ->
  coupon_rate = None \/ (exists c, coupon_rate = Some c /\ c == 0) ->
  calculate_modified_duration libm_pow (Some ytm) (Some years) coupon_rate
    = Ok (Some (round years 2)).
Proof.
  intros Hy Hn Hc. unfold calculate_modified_duration.
  assert (bool_of_float ytm = true) as ->.
  { apply bool_of_float_true. intros E. rewrite E in Hy. exact (Qlt_irrefl 0 Hy). }
  assert (bool_of_float years = true) as ->.
  { apply bool_of_float_true. intros E. rewrite E in Hn. exact (Qlt_irrefl 0 Hn). }
  assert (Qle_bool ytm 0 = false) as -> by (apply negb_true_iff, Qltb_lt, Hy).
  assert (Qle_bool years 0 = false) as -> by (apply negb_true_iff, Qltb_lt, Hn).
  cbn [negb orb].
  destruct Hc as [-> | (c & -> & Hc)]; [reflexivity|].
  apply bool_of_float_false in Hc. rewrite Hc. reflexivity.
Qed.

Lemma zero_coupon_duration_is_maturity_witness :
  calculate_modified_duration (fun _ _ => 1) (Some 14.5) (Some 0.25) (Some 0)
    = Ok (Some (round 0.25 2)).
Proof.
  apply (zero_coupon_duration_is_maturity (fun _ _ => 1) 14.5 0.25 (Some 0));
    [reflexivity | reflexivity | right; exists 0; split; reflexivity].
Defined.

(** The guard of [calculate_modified_duration] lets a coupon-bearing input
    through, and the rest of the body is what remains. *)
Lemma calculate_modified_duration_coupon (libm_pow : Q -> Q -> Q)
    (ytm n c : Q) :
  0 < ytm -> 0 < n -> 0 < c ->
  calculate_modified_duration libm_pow (Some ytm) (Some n) (Some c) =
    (let* mac_duration := mac_duration_closed_form libm_pow (ytm / 100) n c in
     try_except
       (let mac_duration :=
          if Qltb mac_duration 0 || Qltb n mac_duration
          then n * 0.8 else mac_duration in
        let* mod_duration := truediv mac_duration (1 + ytm / 100) in
        Ok (Some (round mod_duration 2)))
       (fun _ => Ok (Some (round (n * 0.7) 2)))).
Proof.
  intros Hy Hn Hc. unfold calculate_modified_duration.
  assert (forall x, 0 < x -> bool_of_float x = true) as B.
  { intros x Hx. apply bool_of_float_true. intros E. rewrite E in Hx.
    exact (Qlt_irrefl 0 Hx). }
  assert (forall x, 0 < x -> Qle_bool x 0 = false) as L.
  { intros x Hx. apply negb_true_iff, Qltb_lt, Hx. }
  rewrite (B ytm Hy), (B n Hn), (B c Hc), (L ytm Hy), (L n Hn).
  cbn [negb orb].
  assert (Qeq_bool c 0 = false) as ->.
  { specialize (B c Hc). unfold bool_of_float in B.
    apply negb_true_iff in B. exact B. }
  rewrite (truediv_ok ytm 100) by (intros E; discriminate E).
  reflexivity.
Qed.

(** The first half of C2: a closed-form value below 0 or above [n] is
    replaced by [0.8 * n] before the division by [1 + ytm/100]; a value
    within [0, n] is divided as it is. *)
Lemma duration_out_of_range_uses_080 (libm_pow : Q -> Q -> Q)
    (ytm n c mac : Q) :
  0 < ytm -> 0 < n -> 0 < c ->
  mac_duration_closed_form libm_pow (ytm / 100) n c = Ok mac ->
  (mac < 0 \/ n < mac ->
   calculate_modified_duration libm_pow (Some ytm) (Some n) (Some c)
     = Ok (Some (round (n * 0.8 / (1 + ytm / 100)) 2))) /\
  (0 <= mac /\ mac <= n ->
   calculate_modified_duration libm_pow (Some ytm) (Some n) (Some c)
     = Ok (Some (round (mac / (1 + ytm / 100)) 2))).
Proof.
  intros Hy Hn Hc Hmac.
  rewrite (calculate_modified_duration_coupon libm_pow ytm n c Hy Hn Hc).
  rewrite Hmac. cbn [bind].
  assert (~ 1 + ytm / 100 == 0) as Hden.
  { intros E.
    assert (0 < ytm / 100) as Hpos.
    { apply Qlt_shift_div_l; [reflexivity | rewrite Qmult_0_l; exact Hy]. }
    rewrite <- E in Hpos. lra. }
  split.
  - intros Hout.
    assert (Qltb mac 0 || Qltb n mac = true) as ->.
    { apply orb_true_iff. destruct Hout as [H | H]; [left | right];
        apply Qltb_lt; exact H. }
    rewrite (truediv_ok _ _ Hden). reflexivity.
  - intros [H0 H1].
    assert (Qltb mac 0 || Qltb n mac = false) as ->.
    { apply orb_false_iff. split; apply Qltb_ge; assumption. }
    rewrite (truediv_ok _ _ Hden). reflexivity.
Qed.

(** An exception of the closed form is raised before the [try] block is
    entered, so it leaves the function. *)
Lemma duration_closed_form_error_propagates (libm_pow : Q -> Q -> Q)
    (ytm n c : Q) (e : exn) :
  0 < ytm -> 0 < n -> 0 < c ->
  mac_duration_closed_form libm_pow (ytm / 100) n c = Raise e ->
  calculate_modified_duration libm_pow (Some ytm) (Some n) (Some c) = Raise e.
Proof.
  intros Hy Hn Hc Hmac.
  rewrite (calculate_modified_duration_coupon libm_pow ytm n c Hy Hn Hc).
  rewrite Hmac. reflexivity.
Qed.

(** C2, the failing input.  At [ytm = 100.0], [years_to_maturity = 1100.0],
    [coupon_rate = 5.0] the power [2.0 ** 1100.0] overflows: the calculator
    raises [OverflowError] and does not return [0.7 * n]. *)
Theorem duration_overflow_is_not_caught (libm_pow : Q -> Q -> Q) :
  calculate_modified_duration libm_pow (Some 100) (Some 1100) (Some 5)
    = Raise OverflowError.
Proof.
  apply duration_closed_form_error_propagates;
    [reflexivity | reflexivity | reflexivity | vm_compute; reflexivity].
Qed.

(** ** Liquidity *)

(** C10.  The classification is the same whatever [hl_spread] is. *)
Theorem liquidity_score_ignores_hl_spread (volume s1 s2 : option Q) :
  calculate_liquidity_score volume s1 = calculate_liquidity_score volume s2.
Proof.
  destruct volume as [v|]; reflexivity.
Qed.

Example liquidity_score_boundaries :
  calculate_liquidity_score (Some 10000001) None = "HIGH" /\
  calculate_liquidity_score (Some 10000000) None = "MEDIUM" /\
  calculate_liquidity_score (Some 1000000) None = "LOW" /\
  calculate_liquidity_score None None = "LOW".
Proof.
  repeat split; reflexivity.
Qed.

(** ** Maturity buckets *)

Local Ltac decide_leb :=
  repeat match goal with
         | |- context [(?a <=? ?b)%Z] =>
             first [ rewrite (proj2 (Z.leb_le a b)) by lia
                   | rewrite (proj2 (Z.leb_gt a b)) by lia ]
         end.

(** The nine ranges and the label the function gives in each. *)
Lemma get_maturity_bucket_cases (days : Z) :
  (0 <= days)%Z ->
  ((days <= 91)%Z /\ get_maturity_bucket days = "91D") \/
  ((92 <= days <= 182)%Z /\ get_maturity_bucket days = "182D") \/
  ((183 <= days <= 365)%Z /\ get_maturity_bucket days = "1Y") \/
  ((366 <= days <= 730)%Z /\ get_maturity_bucket days = "2Y") \/
  ((731 <= days <= 1095)%Z /\ get_maturity_bucket days = "3Y") \/
  ((1096 <= days <= 1825)%Z /\ get_maturity_bucket days = "5Y") \/
  ((1826 <= days <= 3650)%Z /\ get_maturity_bucket days = "10Y") \/
  ((3651 <= days <= 7300)%Z /\ get_maturity_bucket days = "20Y") \/
  ((7300 < days)%Z /\ get_maturity_bucket days = "20Y+").
Proof.
  intros H0.
  assert ((days <= 91) \/ (92 <= days <= 182) \/ (183 <= days <= 365) \/
          (366 <= days <= 730) \/ (731 <= days <= 1095) \/
          (1096 <= days <= 1825) \/ (1826 <= days <= 3650) \/
          (3651 <= days <= 7300) \/ (7300 < days))%Z as Hc by lia.
  unfold get_maturity_bucket, MATURITY_BUCKETS, find, in_bucket.
  destruct Hc as [H|[H|[H|[H|[H|[H|[H|[H|H]]]]]]]];
    [ left | do 1 right; left | do 2 right; left | do 3 right; left
    | do 4 right; left | do 5 right; left | do 6 right; left
    | do 7 right; left | do 8 right ];
    (split; [exact H|]); decide_leb; reflexivity.
Qed.

(** C7.  For every integer [days >= 0]: [days] lies in the range of a row
    of the table exactly when the function returns that row's label (so no
    two rows claim the same [days]), it returns "20Y+" exactly when
    [days > 7300], and the result is always one of the nine labels.
    Moreover [91] maps to "91D", [92] to "182D", and every [days > 7300] to
    "20Y+". *)
Theorem maturity_bucket_total_and_disjoint :
  (forall days : Z, (0 <= days)%Z ->
     (forall (low high : Z) (bucket : string),
        In (low, high, bucket) MATURITY_BUCKETS ->
        ((low <= days <= high)%Z <-> get_maturity_bucket days = bucket)) /\
     (get_maturity_bucket days = "20Y+" <-> (7300 < days)%Z) /\
     In (get_maturity_bucket days)
        ["91D"; "182D"; "1Y"; "2Y"; "3Y"; "5Y"; "10Y"; "20Y"; "20Y+"]) /\
  get_maturity_bucket 91 = "91D" /\
  get_maturity_bucket 92 = "182D" /\
  (forall days : Z, (7300 < days)%Z -> get_maturity_bucket days = "20Y+").
Proof.
  split; [|split; [reflexivity | split; [reflexivity|]]].
  - intros days H0.
    pose proof (get_maturity_bucket_cases days H0) as Hc.
    split; [|split].
    + intros low high bucket Hin.
      unfold MATURITY_BUCKETS in Hin. cbn [In] in Hin.
      repeat match type of Hin with
             | _ \/ _ => destruct Hin as [Hin | Hin]
             end;
        try contradiction; injection Hin as <- <- <-;
        destruct Hc as [[H E]|[[H E]|[[H E]|[[H E]|[[H E]|[[H E]|[[H E]|[[H E]|[H E]]]]]]]]];
        rewrite E; (split; [intros ?; first [reflexivity | exfalso; lia]
                           | intros A; first [lia | discriminate A]]).
    + destruct Hc as [[H E]|[[H E]|[[H E]|[[H E]|[[H E]|[[H E]|[[H E]|[[H E]|[H E]]]]]]]]];
        rewrite E; (split; [intros A; first [exact H | discriminate A]
                           | intros ?; first [reflexivity | exfalso; lia]]).
    + destruct Hc as [[H E]|[[H E]|[[H E]|[[H E]|[[H E]|[[H E]|[[H E]|[[H E]|[H E]]]]]]]]];
        rewrite E; cbn [In]; tauto.
  - intros days H.
    destruct (get_maturity_bucket_cases days ltac:(lia))
      as [[H' E]|[[H' E]|[[H' E]|[[H' E]|[[H' E]|[[H' E]|[[H' E]|[[H' E]|[H' E]]]]]]]]];
      first [exact E | exfalso; lia].
Qed.

Lemma maturity_bucket_total_and_disjoint_witness :
  (forall (low high : Z) (bucket : string),
     In (low, high, bucket) MATURITY_BUCKETS ->
     ((low <= 400 <= high)%Z <-> get_maturity_bucket 400 = bucket)) /\
  (get_maturity_bucket 400 = "20Y+" <-> (7300 < 400)%Z) /\
  In (get_maturity_bucket 400)
     ["91D"; "182D"; "1Y"; "2Y"; "3Y"; "5Y"; "10Y"; "20Y"; "20Y+"].
Proof.
  apply (proj1 maturity_bucket_total_and_disjoint 400%Z). lia.
Defined.

(** ** Per-type metric builders *)

Lemma bind_ok_inv {A B : Type} (r : result A) (k : A -> result B) (b : B) :
  bind r k = Ok b -> exists a, r = Ok a /\ k a = Ok b.
Proof.
  destruct r as [a|e]; cbn [bind]; intros H; [eauto | discriminate H].
Qed.

Lemma in_collect (body : raw_row -> result metric) (records : list raw_row)
    (m : metric) :
  In m (collect body records) <-> exists r, In r records /\ body r = Ok m.
Proof.
  unfold collect. rewrite in_flat_map. split.
  - intros (r & Hr & Hm). exists r. split; [exact Hr|].
    destruct (body r) as [m'|e]; cbn [In] in Hm; [|contradiction].
    destruct Hm as [-> | []]. reflexivity.
  - intros (r & Hr & Hm). exists r. split; [exact Hr|].
    rewrite Hm. left. reflexivity.
Qed.

Section BuilderFacts.

Variable float : string -> option Q.
Variable libm_pow : Q -> Q -> Q.

(** A GOG row for which the calculator gives nothing carries the row's
    [closing_yield]. *)
Lemma process_gog_row_fallback (trade_date security_type : string)
    (r : raw_row) (m : metric) :
  calculate_bond_ytm (r_closing_price r)
    (extract_coupon_from_description float (r_security_description r))
    (r_days_to_maturity r) = Ok None ->
  process_gog_row float libm_pow trade_date security_type r = Ok m ->
  m_ytm m = r_closing_yield r.
Proof.
  intros Hcalc Hrow. unfold process_gog_row in Hrow.
  rewrite Hcalc in Hrow.
  apply bind_ok_inv in Hrow as (ytm0 & Hytm0 & Hrow).
  apply bind_ok_inv in Hrow as (years & _ & Hrow).
  apply bind_ok_inv in Hrow as (dur & _ & Hrow).
  injection Hrow as <-. cbn [m_ytm].
  destruct (truthy bool_of_float (r_closing_price r)
            && truthy bool_of_int (r_days_to_maturity r));
    injection Hytm0 as <-.
  - reflexivity.
  - destruct (truthy bool_of_float (r_closing_yield r)); reflexivity.
Qed.

(** A corporate row for which the calculator gives nothing carries the
    row's [day_high_yield]; [closing_yield] is not read. *)
Lemma process_corporate_row_fallback (trade_date : string)
    (r : raw_row) (m : metric) :
  calculate_bond_ytm (r_closing_price r)
    (extract_coupon_from_description float (r_security_description r))
    (r_days_to_maturity r) = Ok None ->
  process_corporate_row float libm_pow trade_date r = Ok m ->
  m_ytm m = r_day_high_yield r.
Proof.
  intros Hcalc Hrow. unfold process_corporate_row in Hrow.
  rewrite Hcalc in Hrow.
  apply bind_ok_inv in Hrow as (ytm0 & Hytm0 & Hrow).
  apply bind_ok_inv in Hrow as (years & _ & Hrow).
  apply bind_ok_inv in Hrow as (dur & _ & Hrow).
  injection Hrow as <-. cbn [m_ytm].
  destruct (truthy bool_of_float (r_closing_price r)
            && truthy bool_of_int (r_days_to_maturity r));
    injection Hytm0 as <-; reflexivity.
Qed.

End BuilderFacts.



(** ** The loops over the metrics *)

Lemma for_each_metric_acc (step : metric -> metric * list alert)
    (ms done : list metric) (alerts : list alert) :
  fold_left
    (fun acc m => let '(m', new) := step m in (fst acc ++ [m'], snd acc ++ new))
    ms (done, alerts)
  = (done ++ map (fun m => fst (step m)) ms,
     alerts ++ flat_map (fun m => snd (step m)) ms).
Proof.
  revert done alerts.
  induction ms as [|m ms IH]; intros done alerts; cbn [fold_left map flat_map].
  - rewrite !app_nil_r. reflexivity.
  - destruct (step m) as [m' new] eqn:E. cbn [fst snd].
    rewrite IH, <- !app_assoc. reflexivity.
Qed.

(** Each metric is replaced by what the body leaves of it, and the alerts
    of the bodies follow one another in the order of the metrics. *)
Lemma for_each_metric_spec (step : metric -> metric * list alert)
    (ms : list metric) :
  for_each_metric step ms
  = (map (fun m => fst (step m)) ms, flat_map (fun m => snd (step m)) ms).
Proof.
  unfold for_each_metric. rewrite for_each_metric_acc. reflexivity.
Qed.

(** ** Corporate spreads *)


Lemma bucket_to_yield_of_182D :
  bucket_to_yield_of curve_182D_at_14_5 !! "182D" = Some 14.5.
Proof. reflexivity. Qed.

Lemma isin_to_days_of_CORP1 :
  isin_to_days_of [("CORP1", Some 100%Z)] !! "CORP1" = Some (Some 100%Z).
Proof. reflexivity. Qed.



(** ** Volume spikes *)

Lemma positive_is_truthy (x : Q) :
  0 < x -> bool_of_float x = true /\ Qle_bool x 0 = false /\ ~ x == 0.
Proof.
  intros H.
  assert (~ x == 0) as N by (intros E; rewrite E in H; exact (Qlt_irrefl 0 H)).
  split; [apply bool_of_float_true, N|].
  split; [apply negb_true_iff, Qltb_lt, H | exact N].
Qed.

Lemma length_nonzero {A : Type} (xs : list A) :
  xs <> [] -> ~ inject_Z (Z.of_nat (List.length xs)) == 0.
Proof.
  intros H. apply inject_Z_nonzero.
  destruct xs; [contradiction | cbn [List.length]; lia].
Qed.

(** The body on a metric with a positive volume whose history gives at
    least one counted volume. *)
Lemma volume_spike_step_with_history
    (history : string -> string -> result (list (option Q)))
    (trade_date : string) (m : metric) (v : Q) (data : list (option Q)) :
  m_volume m = Some v -> 0 < v ->
  history (m_isin m) trade_date = Ok data ->
  historical_volumes_of data <> [] ->
  let hv := historical_volumes_of data in
  let avg := py_sum hv / inject_Z (Z.of_nat (List.length hv)) in
  let m1 := set_volume_avg_30d (round avg 2) (set_liquidity_flag "ACTIVE" m) in
  volume_spike_step history trade_date m =
    if Qltb 0 avg && Qle_bool (avg * VOLUME_SPIKE_THRESHOLD) v
    then (set_volume_spike_flag true m1,
          match spike_alert trade_date (m_isin m) v avg with
          | Ok a => [a]
          | Raise _ => []
          end)
    else (set_volume_spike_flag false m1, []).
Proof.
  intros Hvol Hv Hhist Hne. cbv zeta.
  destruct (positive_is_truthy v Hv) as (B & L & _).
  unfold volume_spike_step.
  rewrite Hvol, B, L. cbn [negb orb].
  cbn [m_isin set_liquidity_flag]. rewrite Hhist.
  pose proof (length_nonzero _ Hne) as Hlen.
  remember (historical_volumes_of data) as hv eqn:Ehv.
  destruct hv as [|x xs]; [contradiction|].
  rewrite (truediv_ok _ _ Hlen).
  destruct (Qltb 0 _ && Qle_bool _ v); [|reflexivity].
  destruct (spike_alert _ _ _ _); reflexivity.
Qed.

Lemma py_sum_acc (xs : list Q) (a : Q) :
  fold_left Qplus xs a == a + py_sum xs.
Proof.
  unfold py_sum. revert a.
  induction xs as [|x xs IH]; intros a; cbn [fold_left].
  - lra.
  - rewrite (IH (a + x)), (IH (0 + x)). lra.
Qed.

Lemma py_sum_cons (x : Q) (xs : list Q) : py_sum (x :: xs) == x + py_sum xs.
Proof.
  unfold py_sum at 1. cbn [fold_left]. rewrite py_sum_acc. lra.
Qed.

(** The comprehension keeps the recorded volumes that are not zero. *)
Lemma historical_volumes_of_filter (data : list (option Q)) :
  historical_volumes_of data = List.filter bool_of_float (omap id data).
Proof.
  unfold historical_volumes_of.
  induction data as [|[x|] data IH]; cbn [flat_map omap List.filter id]; [reflexivity| |].
  - cbn. destruct (bool_of_float x); cbn [app]; rewrite IH; reflexivity.
  - cbn. exact IH.
Qed.

(** The average the detector computes is the mean of the recorded volumes
    that are not zero. *)
Lemma py_sum_fold_right (xs : list Q) : py_sum xs == fold_right Qplus 0 xs.
Proof.
  induction xs as [|x xs IH]; [reflexivity|].
  rewrite py_sum_cons, IH. reflexivity.
Qed.

Lemma detector_average_is_mean_of_nonzero (data : list (option Q)) :
  historical_volumes_of data = recorded_nonzero data /\
  py_sum (historical_volumes_of data)
    / inject_Z (Z.of_nat (List.length (historical_volumes_of data)))
  == mean_of (recorded_nonzero data).
Proof.
  assert (historical_volumes_of data = recorded_nonzero data) as E
    by apply historical_volumes_of_filter.
  split; [exact E|].
  rewrite E. unfold mean_of. rewrite py_sum_fold_right. reflexivity.
Qed.

Lemma threshold_error_nonneg (xs : list Q) : 0 <= threshold_error xs.
Proof.
  unfold threshold_error, mean_of.
  assert (0 <= fold_right Qplus 0 (map Qabs xs)) as Hs.
  { induction xs as [|x xs IH]; cbn [map fold_right]; [apply Qle_refl|].
    pose proof (Qabs_nonneg x). lra. }
  assert (0 <= inject_Z (Z.of_nat (List.length (map Qabs xs)))) as Hn.
  { change 0 with (inject_Z 0). rewrite <- Zle_Qle. lia. }
  apply Qmult_le_0_compat; [discriminate|].
  apply Qmult_le_0_compat; [|discriminate].
  unfold Qdiv. apply Qmult_le_0_compat; [exact Hs|].
  apply Qinv_le_0_compat. exact Hn.
Qed.

(** C4 (as amended).  A metric whose volume is absent or zero is marked
    STALE and nothing else about it changes, with no alert.  A metric with
    a positive volume is marked ACTIVE; and when the mean of the non-zero
    volumes its history records is positive, [volume_spike_flag] is either
    true with exactly one alert, a VOLUME_SPIKE of severity WARNING, or
    false with no alert: true when today's volume is at least 3.0 times
    that mean, false when it is below, up to the error of double arithmetic
    in the threshold; and when today's volume and the recorded volumes are
    whole numbers the threshold is exact, a ratio of exactly 3.0 raising
    the flag.  [detect_volume_spikes] applies this body to every metric in
    turn. *)
Theorem volume_spike_flag_and_alert
    (history : string -> string -> result (list (option Q)))
    (trade_date : string) (m : metric) :
  (m_volume m = None \/ (exists v, m_volume m = Some v /\ v == 0) ->
   volume_spike_step history trade_date m
     = (set_liquidity_flag "STALE" m, [])) /\
  (forall (v : Q) (data : list (option Q)),
     m_volume m = Some v -> 0 < v ->
     history (m_isin m) trade_date = Ok data ->
     recorded_nonzero data <> [] ->
     0 < mean_of (recorded_nonzero data) ->
     exists (m' : metric) (alerts : list alert),
       volume_spike_step history trade_date m = (m', alerts) /\
       m_liquidity_flag m' = Some "ACTIVE" /\
       ((m_volume_spike_flag m' = Some true /\
         exists a : alert,
           alerts = [a] /\ a_alert_type a = "VOLUME_SPIKE" /\
           a_severity a = "WARNING" /\ a_isin a = m_isin m /\
           a_date a = trade_date)
        \/ (m_volume_spike_flag m' = Some false /\ alerts = [])) /\
       ((mean_of (recorded_nonzero data) * 3.0
           + threshold_error (recorded_nonzero data) <= v /\
         m_volume_spike_flag m' = Some true)
        \/ (v < mean_of (recorded_nonzero data) * 3.0
                - threshold_error (recorded_nonzero data) /\
            m_volume_spike_flag m' = Some false)
        \/ (mean_of (recorded_nonzero data) * 3.0
              - threshold_error (recorded_nonzero data) <= v
            /\ v < mean_of (recorded_nonzero data) * 3.0
                   + threshold_error (recorded_nonzero data)))) /\
  (forall (v : Q) (data : list (option Q)),
     m_volume m = Some v -> 0 < v ->
     history (m_isin m) trade_date = Ok data ->
     recorded_nonzero data <> [] ->
     0 < mean_of (recorded_nonzero data) ->
     whole v -> Forall whole (recorded_nonzero data) ->
     (mean_of (recorded_nonzero data) * 3.0 <= v /\
      m_volume_spike_flag (fst (volume_spike_step history trade_date m))
        = Some true /\
      List.length (snd (volume_spike_step history trade_date m)) = 1%nat)
     \/
     (v < mean_of (recorded_nonzero data) * 3.0 /\
      m_volume_spike_flag (fst (volume_spike_step history trade_date m))
        = Some false /\
      snd (volume_spike_step history trade_date m) = [])) /\
  (forall v : Q, m_volume m = Some v -> 0 < v ->
   m_liquidity_flag (fst (volume_spike_step history trade_date m))
     = Some "ACTIVE") /\
  (forall all_metrics : list metric,
     detect_volume_spikes history trade_date all_metrics
     = (map (fun m => fst (volume_spike_step history trade_date m)) all_metrics,
        flat_map (fun m => snd (volume_spike_step history trade_date m))
                 all_metrics)).
Proof.
  assert (forall (v : Q) (data : list (option Q)),
            m_volume m = Some v -> 0 < v ->
            history (m_isin m) trade_date = Ok data ->
            recorded_nonzero data <> [] ->
            0 < mean_of (recorded_nonzero data) ->
            exists (m1 : metric) (a : alert),
              m_liquidity_flag m1 = Some "ACTIVE" /\
              a_alert_type a = "VOLUME_SPIKE" /\ a_severity a = "WARNING" /\
              a_isin a = m_isin m /\ a_date a = trade_date /\
              ((mean_of (recorded_nonzero data) * 3.0 <= v /\
                volume_spike_step history trade_date m
                = (set_volume_spike_flag true m1, [a])) \/
               (v < mean_of (recorded_nonzero data) * 3.0 /\
                volume_spike_step history trade_date m
                = (set_volume_spike_flag false m1, [])))) as Hstep.
  { intros v data Hvol Hv Hhist Hne Havg.
    destruct (detector_average_is_mean_of_nonzero data) as [Ehv Eavg].
    rewrite <- Ehv in Hne.
    rewrite (volume_spike_step_with_history history trade_date m v data
               Hvol Hv Hhist Hne).
    cbv zeta.
    set (avg := py_sum (historical_volumes_of data)
                / inject_Z (Z.of_nat (List.length (historical_volumes_of data))))
      in *.
    assert (0 < avg) as Havg' by (rewrite Eavg; exact Havg).
    assert (Qltb 0 avg = true) as -> by (apply Qltb_lt, Havg').
    cbn [andb]. unfold VOLUME_SPIKE_THRESHOLD, spike_alert.
    rewrite (truediv_ok v avg) by (apply (positive_is_truthy avg Havg')).
    cbn [bind].
    exists (set_volume_avg_30d (round avg 2) (set_liquidity_flag "ACTIVE" m)).
    exists {| a_date := trade_date; a_isin := m_isin m;
              a_alert_type := "VOLUME_SPIKE";
              a_alert_message :=
                PyStr.concat
                  ["Volume spike: "; PyStr.format_f true 0 v; " vs avg ";
                   PyStr.format_f true 0 avg; " (";
                   PyStr.format_f false 1 (v / avg); "x)"];
              a_severity := "WARNING" |}.
    split; [reflexivity|].
    split; [reflexivity|]. split; [reflexivity|]. split; [reflexivity|].
    split; [reflexivity|].
    destruct (Qle_bool (avg * 3.0) v) eqn:C.
    - apply Qle_bool_iff in C. left.
      split; [rewrite <- Eavg; exact C | reflexivity].
    - assert (v < avg * 3.0) as C0 by (apply Qltb_lt, negb_true_iff, C).
      right. split; [rewrite <- Eavg; exact C0 | reflexivity]. }
  split; [|split; [|split; [|split]]].
  - intros [Hnone | (v & Hv & Hz)]; unfold volume_spike_step.
    + rewrite Hnone. reflexivity.
    + rewrite Hv. apply bool_of_float_false in Hz. rewrite Hz. reflexivity.
  - intros v data Hvol Hv Hhist Hne Havg.
    pose proof (threshold_error_nonneg (recorded_nonzero data)) as Hband.
    destruct (Hstep v data Hvol Hv Hhist Hne Havg)
      as (m1 & a & A1 & A2 & A3 & A4 & A5 & [[C ->] | [C ->]]).
    + do 2 eexists. split; [reflexivity|]. split; [exact A1|].
      split; [left; split; [reflexivity | eauto 10]|].
      destruct (Qlt_le_dec v (mean_of (recorded_nonzero data) * 3.0
                              + threshold_error (recorded_nonzero data)))
        as [L | L].
      * right. right. split; [lra | exact L].
      * left. split; [exact L | reflexivity].
    + do 2 eexists. split; [reflexivity|]. split; [exact A1|].
      split; [right; split; reflexivity|].
      destruct (Qlt_le_dec v (mean_of (recorded_nonzero data) * 3.0
                              - threshold_error (recorded_nonzero data)))
        as [L | L].
      * right. left. split; [exact L | reflexivity].
      * right. right. split; [exact L | lra].
  - intros v data Hvol Hv Hhist Hne Havg _ _.
    destruct (Hstep v data Hvol Hv Hhist Hne Havg)
      as (m1 & a & _ & _ & _ & _ & _ & [[C ->] | [C ->]]).
    + left. split; [exact C|]. split; reflexivity.
    + right. split; [exact C|]. split; reflexivity.
  - intros v Hvol Hv.
    destruct (positive_is_truthy v Hv) as (B & L & _).
    unfold volume_spike_step. rewrite Hvol, B, L. cbn [negb orb].
    repeat match goal with
           | |- context [match ?x with _ => _ end] => destruct x
           end; reflexivity.
  - intros all_metrics. apply for_each_metric_spec.
Qed.

Lemma volume_spike_flag_and_alert_witness :
  (exists (m' : metric) (alerts : list alert),
     volume_spike_step (history_of [Some 0; None; Some 1000000]) "2026-01-30"
       (metric_with_volume 4000000) = (m', alerts) /\
     m_liquidity_flag m' = Some "ACTIVE" /\
     ((m_volume_spike_flag m' = Some true /\
       exists a : alert,
         alerts = [a] /\ a_alert_type a = "VOLUME_SPIKE" /\
         a_severity a = "WARNING" /\
         a_isin a = m_isin (metric_with_volume 4000000) /\
         a_date a = "2026-01-30")
      \/ (m_volume_spike_flag m' = Some false /\ alerts = [])) /\
     ((mean_of (recorded_nonzero [Some 0; None; Some 1000000]) * 3.0
         + threshold_error (recorded_nonzero [Some 0; None; Some 1000000])
       <= 4000000 /\
       m_volume_spike_flag m' = Some true)
      \/ (4000000 < mean_of (recorded_nonzero [Some 0; None; Some 1000000]) * 3.0
                    - threshold_error
                        (recorded_nonzero [Some 0; None; Some 1000000]) /\
          m_volume_spike_flag m' = Some false)
      \/ (mean_of (recorded_nonzero [Some 0; None; Some 1000000]) * 3.0
            - threshold_error (recorded_nonzero [Some 0; None; Some 1000000])
          <= 4000000
          /\ 4000000 < mean_of (recorded_nonzero [Some 0; None; Some 1000000])
                       * 3.0
                       + threshold_error
                           (recorded_nonzero [Some 0; None; Some 1000000])))) /\
  ((mean_of (recorded_nonzero [Some 0; None; Some 1000000]) * 3.0 <= 3000000 /\
    m_volume_spike_flag
      (fst (volume_spike_step (history_of [Some 0; None; Some 1000000])
              "2026-01-30" (metric_with_volume 3000000))) = Some true /\
    List.length
      (snd (volume_spike_step (history_of [Some 0; None; Some 1000000])
              "2026-01-30" (metric_with_volume 3000000))) = 1%nat)
   \/
   (3000000 < mean_of (recorded_nonzero [Some 0; None; Some 1000000]) * 3.0 /\
    m_volume_spike_flag
      (fst (volume_spike_step (history_of [Some 0; None; Some 1000000])
              "2026-01-30" (metric_with_volume 3000000))) = Some false /\
    snd (volume_spike_step (history_of [Some 0; None; Some 1000000])
           "2026-01-30" (metric_with_volume 3000000)) = [])).
Proof.
  split.
  - apply (proj1 (proj2 (volume_spike_flag_and_alert
                           (history_of [Some 0; None; Some 1000000])
                           "2026-01-30" (metric_with_volume 4000000)))
                 4000000 [Some 0; None; Some 1000000]);
      first [reflexivity | discriminate].
  - apply (proj1 (proj2 (proj2 (volume_spike_flag_and_alert
                                  (history_of [Some 0; None; Some 1000000])
                                  "2026-01-30" (metric_with_volume 3000000))))
                 3000000 [Some 0; None; Some 1000000]);
      first [reflexivity | discriminate
            | repeat constructor ].
Defined.

(** C4 as stated fails when "the historical average" is the mean of the
    recorded volumes, zeros included: with a history of two rows, one with
    volume 0 and one with volume 100, that mean is 50, which is positive,
    and today's volume of 200 is at least 3.0 times 50; yet the detector
    sets [volume_spike_flag] to false and emits no alert. *)
Lemma spike_is_measured_against_the_nonzero_mean :
  mean_of (recorded [Some 0; Some 100]) == 50 /\
  0 < mean_of (recorded [Some 0; Some 100]) /\
  mean_of (recorded [Some 0; Some 100]) * 3.0 <= 200 /\
  volume_spike_step (history_of [Some 0; Some 100]) "2026-01-30"
    (metric_with_volume 200)
  = (set_volume_spike_flag false
       (set_volume_avg_30d 100.00
          (set_liquidity_flag "ACTIVE" (metric_with_volume 200))), []).
Proof.
  repeat split; vm_compute; first [reflexivity | discriminate].
Qed.

(** The two scenarios of the specification: an average of 1,000,000
    against a volume of 3,000,000 raises the flag, an average of 1,000,001
    does not. *)
Example volume_spike_at_exactly_three_times :
  m_volume_spike_flag
    (fst (volume_spike_step (history_of [Some 1000000]) "2026-01-30"
            (metric_with_volume 3000000))) = Some true /\
  m_volume_spike_flag
    (fst (volume_spike_step (history_of [Some 1000001]) "2026-01-30"
            (metric_with_volume 3000000))) = Some false.
Proof.
  split; vm_compute; reflexivity.
Qed.

(** Leaving the zeros out does not change the sum. *)
Lemma py_sum_filter_nonzero (xs : list Q) :
  py_sum (List.filter bool_of_float xs) == py_sum xs.
Proof.
  induction xs as [|x xs IH]; cbn [List.filter]; [reflexivity|].
  destruct (bool_of_float x) eqn:E.
  - rewrite !py_sum_cons, IH. reflexivity.
  - apply bool_of_float_false in E. rewrite py_sum_cons, IH, E. lra.
Qed.

(** C8 (as amended).  For a metric with a positive volume whose history
    query answers [data]: the volumes counted are the recorded ones that
    are not zero (a row with a missing volume and a row with a volume of
    zero are both left out); when there is at least one, [volume_avg_30d]
    is their arithmetic mean rounded to 2 decimals, that is the sum of all
    recorded volumes divided by the number of non-zero ones; when there is
    none, [volume_avg_30d] is left as it was. *)
Theorem volume_avg_is_mean_of_nonzero_volumes
    (history : string -> string -> result (list (option Q)))
    (trade_date : string) (m : metric) (v : Q) (data : list (option Q)) :
  m_volume m = Some v -> 0 < v ->
  history (m_isin m) trade_date = Ok data ->
  historical_volumes_of data = List.filter bool_of_float (omap id data) /\
  (List.filter bool_of_float (omap id data) <> [] ->
   m_volume_avg_30d (fst (volume_spike_step history trade_date m))
     = Some (round (py_sum (List.filter bool_of_float (omap id data))
                    / inject_Z (Z.of_nat (List.length
                                   (List.filter bool_of_float (omap id data)))))
                   2) /\
   m_volume_avg_30d (fst (volume_spike_step history trade_date m))
     = Some (round (py_sum (omap id data)
                    / inject_Z (Z.of_nat (List.length
                                   (List.filter bool_of_float (omap id data)))))
                   2)) /\
  (List.filter bool_of_float (omap id data) = [] ->
   m_volume_avg_30d (fst (volume_spike_step history trade_date m))
     = m_volume_avg_30d m).
Proof.
  intros Hvol Hv Hhist.
  pose proof (historical_volumes_of_filter data) as Hf.
  split; [exact Hf|]. split.
  - intros Hne. rewrite <- Hf in *.
    rewrite (volume_spike_step_with_history history trade_date m v data
               Hvol Hv Hhist Hne).
    cbv zeta.
    assert (forall (b : bool) (a1 a2 : list alert) (m1 : metric),
              m_volume_avg_30d
                (fst (if b then (set_volume_spike_flag true m1, a1)
                      else (set_volume_spike_flag false m1, a2)))
              = m_volume_avg_30d m1) as Hflag
      by (intros [] ? ? ?; reflexivity).
    rewrite Hflag. cbn [m_volume_avg_30d set_volume_avg_30d].
    split; [reflexivity|].
    f_equal. apply round_proper.
    rewrite Hf at 1. rewrite py_sum_filter_nonzero. reflexivity.
  - intros Hnil. rewrite <- Hf in Hnil.
    destruct (positive_is_truthy v Hv) as (B & L & _).
    unfold volume_spike_step. rewrite Hvol, B, L. cbn [negb orb].
    cbn [m_isin set_liquidity_flag]. rewrite Hhist, Hnil. reflexivity.
Qed.

Lemma volume_avg_is_mean_of_nonzero_volumes_witness :
  historical_volumes_of [Some 0; None; Some 100]
    = List.filter bool_of_float (omap id [Some 0; None; Some 100]) /\
  (List.filter bool_of_float (omap id [Some 0; None; Some 100]) <> [] ->
   m_volume_avg_30d
     (fst (volume_spike_step (history_of [Some 0; None; Some 100])
             "2026-01-30" (metric_with_volume 50)))
     = Some (round (py_sum (List.filter bool_of_float
                              (omap id [Some 0; None; Some 100]))
                    / inject_Z (Z.of_nat (List.length
                                   (List.filter bool_of_float
                                      (omap id [Some 0; None; Some 100])))))
                   2) /\
   m_volume_avg_30d
     (fst (volume_spike_step (history_of [Some 0; None; Some 100])
             "2026-01-30" (metric_with_volume 50)))
     = Some (round (py_sum (omap id [Some 0; None; Some 100])
                    / inject_Z (Z.of_nat (List.length
                                   (List.filter bool_of_float
                                      (omap id [Some 0; None; Some 100])))))
                   2)) /\
  (List.filter bool_of_float (omap id [Some 0; None; Some 100]) = [] ->
   m_volume_avg_30d
     (fst (volume_spike_step (history_of [Some 0; None; Some 100])
             "2026-01-30" (metric_with_volume 50)))
     = m_volume_avg_30d (metric_with_volume 50)).
Proof.
  apply (volume_avg_is_mean_of_nonzero_volumes
           (history_of [Some 0; None; Some 100]) "2026-01-30"
           (metric_with_volume 50) 50 [Some 0; None; Some 100]);
    reflexivity.
Defined.

(** C8 as stated fails: with a history of two rows, one with volume 0 and
    one with volume 100, [volume_avg_30d] is 100.00 and not the mean 50.00
    of the two recorded volumes. *)
Lemma volume_avg_leaves_out_zero_volumes :
  m_volume_avg_30d
    (fst (volume_spike_step (history_of [Some 0; Some 100]) "2026-01-30"
            (metric_with_volume 50))) = Some 100.00 /\
  round (mean_of_recorded [Some 0; Some 100]) 2 = 50.00 /\
  ~ 100.00 == 50.00.
Proof.
  split; [vm_compute; reflexivity|].
  split; [vm_compute; reflexivity|].
  intros E. discriminate E.
Qed.

(** ** Scenarios *)

(** The bond-yield calculator never raises: with a positive price and a
    positive number of days every divisor is positive. *)
Lemma calculate_bond_ytm_never_raises (price coupon_rate : option Q)
    (days_to_maturity : option Z) :
  exists ytm : option Q,
    calculate_bond_ytm price coupon_rate days_to_maturity = Ok ytm.
Proof.
  unfold calculate_bond_ytm.
  destruct price as [p|]; [|eexists; reflexivity].
  destruct days_to_maturity as [d|]; [|eexists; reflexivity].
  destruct (negb (bool_of_float p) || Qle_bool p 0
            || negb (bool_of_int d) || (d <=? 0)%Z) eqn:G;
    [eexists; reflexivity|].
  apply orb_false_iff in G as [G Gd].
  apply orb_false_iff in G as [G _].
  apply orb_false_iff in G as [_ Gp].
  apply Z.leb_gt in Gd.
  assert (0 < p) as Hp by (apply Qltb_lt; unfold Qltb; rewrite Gp; reflexivity).
  assert (0 < inject_Z d / 365) as Hyears.
  { apply Qlt_shift_div_l; [reflexivity|]. rewrite Qmult_0_l.
    unfold Qlt. simpl. lia. }
  rewrite (truediv_ok (inject_Z d) 365) by (intros E; discriminate E).
  cbn [bind].
  assert (Qle_bool (inject_Z d / 365) 0 = false) as ->
    by (apply negb_true_iff, Qltb_lt, Hyears).
  rewrite (truediv_ok (100 - p) (inject_Z d / 365))
    by (intros E; rewrite E in Hyears; exact (Qlt_irrefl 0 Hyears)).
  cbn [bind].
  rewrite (truediv_ok (100 + p) 2) by (intros E; discriminate E).
  cbn [bind].
  assert (0 < (100 + p) / 2) as Havg.
  { apply Qlt_shift_div_l; [reflexivity|]. lra. }
  rewrite (truediv_ok _ ((100 + p) / 2))
    by (intros E; rewrite E in Havg; exact (Qlt_irrefl 0 Havg)).
  eexists. reflexivity.
Qed.

(** The T-bill of the end-to-end scenario: price 96.5, 91 days, volume
    2,000,000, high and low yields 14.2 and 13.8. *)
Example tbill_scenario_metric :
  process_tbill_row "2026-01-30"
    {| r_isin := "TB1"; r_security_description := None;
       r_closing_price := Some 96.5; r_closing_yield := None;
       r_day_high_yield := Some 14.2; r_day_low_yield := Some 13.8;
       r_volume := None; r_volume_traded := Some 2000000;
       r_days_to_maturity := Some 91%Z |}
  = Ok {| m_date := "2026-01-30"; m_isin := "TB1";
          m_security_type := "TBILL"; m_ytm := Some 14.5476;
          m_discount_yield := Some 13.8462;
          m_bond_equivalent_yield := Some 14.5476;
          m_real_yield := Some (-8.65); m_coupon_rate := None;
          m_volume := Some 2000000; m_hl_spread := Some 0.4000;
          m_liquidity_score := Some "MEDIUM";
          m_modified_duration := Some 0.25;
          m_benchmark_yield := None; m_spread_vs_govt := None;
          m_volume_avg_30d := None; m_volume_spike_flag := None;
          m_liquidity_flag := None |}
  /\ get_maturity_bucket 91 = "91D".
Proof.
  split; vm_compute; reflexivity.
Qed.

(** What the uncaught overflow of C2 does to a batch: a GOG row quoted at a
    yield of 100 with 401,500 days (1,100 years) to maturity and a coupon
    of 5 raises inside the duration calculator, and the builder drops the
    whole row. *)
Example gog_row_lost_to_overflow (float : string -> option Q)
    (libm_pow : Q -> Q -> Q) :
  float "5.00" = Some 5 ->
  process_gog_bonds float libm_pow "2026-01-30"
    [ {| r_isin := "GOG1"; r_security_description := Some "GOG-BD-5.00";
         r_closing_price := None; r_closing_yield := Some 100;
         r_day_high_yield := None; r_day_low_yield := None;
         r_volume := Some 1000; r_volume_traded := None;
         r_days_to_maturity := Some 401500%Z |} ]
    "GOG_BOND"
  = [].
Proof.
  intros Hfloat.
  unfold process_gog_bonds, collect, process_gog_row. cbn [flat_map app].
  cbn [r_closing_price r_days_to_maturity r_security_description
       r_closing_yield r_day_high_yield r_day_low_yield r_volume r_isin].
  unfold extract_coupon_from_description.
  cbn [bool_of_str negb PyStr.split rev app coupon_scan Ascii.eqb Bool.eqb].
  rewrite Hfloat.
  replace (Qltb 0 5 && Qltb 5 100) with true by reflexivity.
  replace (bool_of_float 100) with true by reflexivity.
  cbn [truthy andb bind negb].
  replace (bool_of_float 100) with true by reflexivity.
  replace (years_of (Some 401500%Z)) with (Ok (Some (inject_Z 401500 / 365)))
    by reflexivity.
  cbn [bind truthy negb].
  replace (bool_of_float 100) with true by reflexivity.
  replace (bool_of_float (inject_Z 401500 / 365)) with true by reflexivity.
  cbn [andb].
  rewrite (duration_closed_form_error_propagates libm_pow 100
             (inject_Z 401500 / 365) 5 OverflowError);
    [reflexivity | reflexivity | reflexivity | reflexivity
    | vm_compute; reflexivity].
Qed.

(** * Further properties of the engine *)

(** ** Duration and bond yield *)

Lemma round_half_even_proper (x y : Q) :
  x == y -> round_half_even x = round_half_even y.
Proof.
  intros H. apply Z.le_antisymm; apply round_half_even_mono;
    rewrite H; apply Qle_refl.
Qed.

Lemma round_zero (n : nat) : round 0 n == 0.
Proof.
  unfold round.
  rewrite (round_half_even_proper (0 * (Zpos (pow10 n) # 1)) 0)
    by apply Qmult_0_l.
  reflexivity.
Qed.

Lemma round_nonneg (x : Q) (n : nat) : 0 <= x -> 0 <= round x n.
Proof.
  intros H. rewrite <- (round_zero n). apply round_mono. exact H.
Qed.

Lemma Qle_bool_false_lt (x y : Q) : Qle_bool x y = false -> y < x.
Proof.
  intros H. apply Qltb_lt. unfold Qltb. rewrite H. reflexivity.
Qed.

Lemma Qdiv_le_self (a b : Q) : 0 <= a -> 1 <= b -> 0 <= a / b /\ a / b <= a.
Proof.
  intros Ha Hb.
  assert (0 < b) as Hb0 by lra.
  split.
  - apply Qle_shift_div_l; [exact Hb0|]. lra.
  - apply Qle_shift_div_r; [exact Hb0|]. nra.
Qed.

(** X1.  Whatever [pow] computes, a duration the calculator returns is
    never negative and never above the time to maturity rounded to 2
    decimals. *)
Theorem duration_between_zero_and_maturity (libm_pow : Q -> Q -> Q)
    (ytm years_to_maturity coupon_rate : option Q) (duration : Q) :
  calculate_modified_duration libm_pow ytm years_to_maturity coupon_rate
    = Ok (Some duration) ->
  exists n : Q,
    years_to_maturity = Some n /\ 0 < n /\
    0 <= duration /\ duration <= round n 2.
Proof.
  unfold calculate_modified_duration.
  destruct ytm as [ytm|]; [|discriminate].
  destruct years_to_maturity as [n|]; [|discriminate].
  destruct (negb (bool_of_float ytm) || Qle_bool ytm 0
            || negb (bool_of_float n) || Qle_bool n 0) eqn:G; [discriminate|].
  apply orb_false_iff in G as [G Gn].
  apply orb_false_iff in G as [G _].
  apply orb_false_iff in G as [_ Gy].
  apply Qle_bool_false_lt in Gn, Gy.
  intros H. exists n. split; [reflexivity|]. split; [exact Gn|].
  assert (0 <= round n 2 /\ round n 2 <= round n 2) as Hzero
    by (split; [apply round_nonneg; lra | apply Qle_refl]).
  destruct coupon_rate as [cr|]; [|injection H as <-; exact Hzero].
  destruct (negb (bool_of_float cr) || Qeq_bool cr 0);
    [injection H as <-; exact Hzero|].
  rewrite (truediv_ok ytm 100) in H by (intros E; discriminate E).
  cbn [bind] in H.
  destruct (mac_duration_closed_form libm_pow (ytm / 100) n cr) as [mac|e];
    [|discriminate].
  cbn [bind] in H.
  assert (0 < ytm / 100) as Hy.
  { apply Qlt_shift_div_l; [reflexivity | rewrite Qmult_0_l; exact Gy]. }
  rewrite (truediv_ok _ (1 + ytm / 100)) in H by (intros E; lra).
  cbn [bind try_except] in H. injection H as <-.
  assert (forall m, 0 <= m -> m <= n ->
            0 <= round (m / (1 + ytm / 100)) 2 /\
            round (m / (1 + ytm / 100)) 2 <= round n 2) as Hb.
  { intros m H0 H1.
    destruct (Qdiv_le_self m (1 + ytm / 100) H0 ltac:(lra)) as [A B].
    split; [apply round_nonneg; exact A | apply round_mono; lra]. }
  destruct (Qltb mac 0 || Qltb n mac) eqn:E.
  - apply Hb; lra.
  - apply orb_false_iff in E as [E1 E2].
    apply Qltb_ge in E1, E2. apply Hb; assumption.
Qed.

Lemma duration_between_zero_and_maturity_witness :
  exists n : Q, Some 5 = Some n /\ 0 < n /\ 0 <= 4.08 /\ 4.08 <= round n 2.
Proof.
  apply (duration_between_zero_and_maturity (fun _ _ => 1)
           (Some 10) (Some 5) (Some 5) 4.08).
  vm_compute. reflexivity.
Defined.

Lemma calculate_bond_ytm_defined (p : Q) (d : Z) (coupon_rate : option Q) :
  0 < p -> (0 < d)%Z ->
  calculate_bond_ytm (Some p) coupon_rate (Some d)
  = Ok (Some (round ((default 0 coupon_rate
                      + (100 - p) / (inject_Z d / 365))
                     / ((100 + p) / 2) * 100) 4)).
Proof.
  intros Hp Hd. unfold calculate_bond_ytm.
  destruct (positive_is_truthy p Hp) as (B & L & _).
  rewrite B, L.
  assert (bool_of_int d = true) as -> by (apply bool_of_int_true; lia).
  assert ((d <=? 0)%Z = false) as -> by (apply Z.leb_gt; lia).
  cbn [negb orb].
  assert (0 < inject_Z d / 365) as Hyears.
  { apply Qlt_shift_div_l; [reflexivity|]. rewrite Qmult_0_l.
    unfold Qlt. simpl. lia. }
  rewrite (truediv_ok (inject_Z d) 365) by (intros E; discriminate E).
  cbn [bind].
  destruct (positive_is_truthy _ Hyears) as (_ & Ly & Ny).
  rewrite Ly, (truediv_ok (100 - p) _ Ny). cbn [bind].
  rewrite (truediv_ok (100 + p) 2) by (intros E; discriminate E).
  cbn [bind].
  assert (0 < (100 + p) / 2) as Havg.
  { apply Qlt_shift_div_l; [reflexivity|]. lra. }
  rewrite (truediv_ok _ ((100 + p) / 2))
    by (apply (positive_is_truthy _ Havg)).
  cbn [bind]. do 2 f_equal. apply round_proper.
  destruct coupon_rate as [c|]; cbn [truthy default]; [|reflexivity].
  destruct (bool_of_float c) eqn:Bc; [reflexivity|].
  apply bool_of_float_false in Bc. rewrite Bc. reflexivity.
Qed.

Lemma calculate_bond_ytm_none (price coupon_rate : option Q) (days : option Z) :
  price = None \/ (exists p, price = Some p /\ p <= 0) \/
  days = None \/ (exists d, days = Some d /\ (d <= 0)%Z) ->
  calculate_bond_ytm price coupon_rate days = Ok None.
Proof.
  intros H. unfold calculate_bond_ytm.
  destruct H as [-> | [(p & -> & Hp) | [-> | (d & -> & Hd)]]].
  + reflexivity.
  + destruct days as [d|]; [|reflexivity].
    assert (Qle_bool p 0 = true) as -> by (apply Qle_bool_iff, Hp).
    rewrite orb_true_r. reflexivity.
  + destruct price; reflexivity.
  + destruct price as [p|]; [|reflexivity].
    assert ((d <=? 0)%Z = true) as -> by (apply Z.leb_le; exact Hd).
    rewrite !orb_true_r. reflexivity.
Qed.

(** X2.  The bond-yield approximation never raises.  For a positive price
    [p] and a positive number of days [d] it returns [(coupon + (100 - p) /
    (d/365)) / ((100 + p)/2) * 100] rounded to 4 decimals, a missing coupon
    counting as 0: a 4-decimal number within half a unit of the fourth
    decimal of the exact value, up to the error of double arithmetic on the
    two terms of the sum.  When the price is missing, zero or negative, or
    the days are missing, zero or negative, it returns [None]. *)
Theorem bond_ytm_formula_and_guard :
  (forall (p : Q) (d : Z) (coupon_rate : option Q),
     0 < p -> (0 < d)%Z ->
     exists y : Q,
       calculate_bond_ytm (Some p) coupon_rate (Some d) = Ok (Some y) /\
       rounding_of 4
         ((Qabs (default 0 coupon_rate)
           + Qabs (100 - p) / (inject_Z d / 365))
          / ((100 + p) / 2) * 100)
         ((default 0 coupon_rate + (100 - p) / (inject_Z d / 365))
          / ((100 + p) / 2) * 100)
         y) /\
  (forall (price coupon_rate : option Q) (days : option Z),
     price = None \/ (exists p, price = Some p /\ p <= 0) \/
     days = None \/ (exists d, days = Some d /\ (d <= 0)%Z) ->
     calculate_bond_ytm price coupon_rate days = Ok None).
Proof.
  split.
  - intros p d coupon_rate Hp Hd. eexists.
    split; [apply calculate_bond_ytm_defined; assumption|].
    apply round_rounding_of.
    assert (0 < inject_Z d / 365) as Hyears.
    { apply Qlt_shift_div_l; [reflexivity|]. rewrite Qmult_0_l.
      unfold Qlt. simpl. lia. }
    assert (0 < (100 + p) / 2) as Havg.
    { apply Qlt_shift_div_l; [reflexivity|]. lra. }
    apply Qmult_le_0_compat; [|discriminate].
    apply Qle_shift_div_l; [exact Havg|]. rewrite Qmult_0_l.
    assert (0 <= Qabs (100 - p) / (inject_Z d / 365)) as Hgain.
    { apply Qle_shift_div_l; [exact Hyears|]. rewrite Qmult_0_l.
      apply Qabs_nonneg. }
    pose proof (Qabs_nonneg (default 0 coupon_rate)). lra.
  - exact calculate_bond_ytm_none.
Qed.

Lemma bond_ytm_formula_and_guard_witness :
  exists y : Q,
    calculate_bond_ytm (Some 77.5) (Some 8.5) (Some 2304%Z) = Ok (Some y) /\
    rounding_of 4
      ((Qabs (default 0 (Some 8.5))
        + Qabs (100 - 77.5) / (inject_Z 2304 / 365))
       / ((100 + 77.5) / 2) * 100)
      ((default 0 (Some 8.5) + (100 - 77.5) / (inject_Z 2304 / 365))
       / ((100 + 77.5) / 2) * 100)
      y.
Proof.
  apply (proj1 bond_ytm_formula_and_guard 77.5 2304%Z (Some 8.5));
    [reflexivity | lia].
Defined.

(** The yield before rounding, as a function of the price. *)
Lemma bond_ytm_unrounded_decreasing (c years p1 p2 : Q) :
  0 <= c -> 0 < years -> 0 < p1 -> p1 < p2 ->
  (c + (100 - p2) / years) / ((100 + p2) / 2) * 100
  < (c + (100 - p1) / years) / ((100 + p1) / 2) * 100.
Proof.
  intros Hc Hy H1 H12.
  assert (forall p, 0 < p ->
            (c + (100 - p) / years) / ((100 + p) / 2) * 100
            == 200 * (c * years + 100 - p) / (years * (100 + p))) as Hf.
  { intros p Hp. field. split; lra. }
  rewrite (Hf p1 H1), (Hf p2 ltac:(lra)).
  assert (0 < years * (100 + p1)) as D1 by nra.
  assert (0 < years * (100 + p2)) as D2 by nra.
  apply Qlt_shift_div_r; [exact D2|].
  assert (200 * (c * years + 100 - p1) / (years * (100 + p1)) * (years * (100 + p2))
          == 200 * (c * years + 100 - p1) * (years * (100 + p2))
             / (years * (100 + p1))) as -> by (field; lra).
  apply Qlt_shift_div_l; [exact D1|].
  assert (0 < years * (p2 - p1)) as A by nra.
  assert (0 <= c * years) as B by nra.
  assert (0 <= (c * years) * (years * (p2 - p1))) as C by nra.
  lra.
Qed.

(** X3.  A bond priced at par yields its coupon, and with a coupon that is
    not negative a dearer bond never yields more: for prices [0 < p1 < p2]
    the yield returned at [p2] is at most the yield returned at [p1]. *)
Theorem bond_ytm_par_and_price_order (coupon_rate : option Q) (d : Z) :
  (0 < d)%Z -> 0 <= default 0 coupon_rate ->
  calculate_bond_ytm (Some 100) coupon_rate (Some d)
    = Ok (Some (round (default 0 coupon_rate) 4)) /\
  (forall p1 p2 : Q, 0 < p1 -> p1 < p2 ->
   exists y1 y2 : Q,
     calculate_bond_ytm (Some p1) coupon_rate (Some d) = Ok (Some y1) /\
     calculate_bond_ytm (Some p2) coupon_rate (Some d) = Ok (Some y2) /\
     y2 <= y1).
Proof.
  intros Hd Hc.
  assert (0 < inject_Z d / 365) as Hyears.
  { apply Qlt_shift_div_l; [reflexivity|]. rewrite Qmult_0_l.
    unfold Qlt. simpl. lia. }
  pose proof calculate_bond_ytm_defined as F.
  split.
  - rewrite (F 100 d coupon_rate ltac:(reflexivity) Hd).
    assert (0 < inject_Z d) as Hd' by (unfold Qlt; simpl; lia).
    do 2 f_equal. apply round_proper. field. lra.
  - intros p1 p2 H1 H12.
    do 2 eexists.
    split; [apply (F p1 d coupon_rate H1 Hd)|].
    split; [apply (F p2 d coupon_rate ltac:(lra) Hd)|].
    apply round_mono, Qlt_le_weak.
    apply bond_ytm_unrounded_decreasing; assumption.
Qed.

Lemma bond_ytm_par_and_price_order_witness :
  calculate_bond_ytm (Some 100) (Some 10) (Some 365%Z)
    = Ok (Some (round (default 0 (Some 10)) 4)) /\
  (forall p1 p2 : Q, 0 < p1 -> p1 < p2 ->
   exists y1 y2 : Q,
     calculate_bond_ytm (Some p1) (Some 10) (Some 365%Z) = Ok (Some y1) /\
     calculate_bond_ytm (Some p2) (Some 10) (Some 365%Z) = Ok (Some y2) /\
     y2 <= y1).
Proof.
  apply (bond_ytm_par_and_price_order (Some 10) 365%Z); [lia|].
  intros E. discriminate E.
Defined.

(** ** Coupon extraction *)

Lemma split_not_nil (sep : ascii) (s : string) : PyStr.split sep s <> [].
Proof.
  destruct s as [|c rest]; cbn [PyStr.split]; [discriminate|].
  destruct (Ascii.eqb c sep); [discriminate|].
  destruct (PyStr.split sep rest); discriminate.
Qed.

(** A text without the separator is its own single part. *)
Lemma split_no_sep (sep : ascii) (t : string) :
  (forall c, In c (list_ascii_of_string t) -> c <> sep) ->
  PyStr.split sep t = [t].
Proof.
  induction t as [|c t IH]; intros H; cbn [PyStr.split]; [reflexivity|].
  assert (Ascii.eqb c sep = false) as ->.
  { apply Ascii.eqb_neq. apply H. left. reflexivity. }
  rewrite IH; [reflexivity|].
  intros c' Hc'. apply H. right. exact Hc'.
Qed.

(** The part after the last separator is the last part. *)
Lemma split_app_last (sep : ascii) (s t : string) :
  (forall c, In c (list_ascii_of_string t) -> c <> sep) ->
  PyStr.split sep (String.append s (String sep t))
  = PyStr.split sep s ++ [t].
Proof.
  intros Ht.
  induction s as [|c s IH].
  - change (String.append EmptyString (String sep t)) with (String sep t).
    cbn [PyStr.split app].
    rewrite Ascii.eqb_refl, (split_no_sep sep t Ht). reflexivity.
  - change (String.append (String c s) (String sep t))
      with (String c (String.append s (String sep t))).
    cbn [PyStr.split].
    destruct (Ascii.eqb c sep).
    + rewrite IH. reflexivity.
    + rewrite IH.
      destruct (PyStr.split sep s) as [|part parts] eqn:E.
      * exfalso. exact (split_not_nil sep s E).
      * reflexivity.
Qed.

Lemma coupon_scan_some (float : string -> option Q) (parts : list string)
    (v : Q) :
  coupon_scan float parts = Some v ->
  0 < v /\ v < 100 /\ exists part, In part parts /\ float part = Some v.
Proof.
  induction parts as [|part parts IH]; cbn [coupon_scan]; [discriminate|].
  destruct (float part) as [val|] eqn:F.
  - destruct (Qltb 0 val && Qltb val 100) eqn:R.
    + intros E. injection E as <-.
      apply andb_true_iff in R as [R1 R2]. apply Qltb_lt in R1, R2.
      split; [exact R1|]. split; [exact R2|].
      exists part. split; [left; reflexivity | exact F].
    + intros E. destruct (IH E) as (A & B & part' & Hin & Hf).
      split; [exact A|]. split; [exact B|].
      exists part'. split; [right; exact Hin | exact Hf].
  - intros E. destruct (IH E) as (A & B & part' & Hin & Hf).
    split; [exact A|]. split; [exact B|].
    exists part'. split; [right; exact Hin | exact Hf].
Qed.

(** X4.  Whatever [float] accepts, a coupon the extractor returns lies
    strictly between 0 and 100 and is the value of one of the parts of the
    description between hyphens; a missing or empty description gives no
    coupon. *)
Theorem extracted_coupon_is_a_part_in_range (float : string -> option Q) :
  (forall (desc : option string) (v : Q),
     extract_coupon_from_description float desc = Some v ->
     0 < v /\ v < 100 /\
     exists (d part : string),
       desc = Some d /\ d <> EmptyString /\
       In part (PyStr.split "-" d) /\ float part = Some v) /\
  extract_coupon_from_description float None = None /\
  extract_coupon_from_description float (Some EmptyString) = None.
Proof.
  split; [|split; reflexivity].
  intros desc v H. unfold extract_coupon_from_description in H.
  destruct desc as [d|]; [|discriminate].
  destruct d as [|c d]; [discriminate|]. cbn [bool_of_str negb] in H.
  destruct (coupon_scan_some float _ v H) as (A & B & part & Hin & Hf).
  split; [exact A|]. split; [exact B|].
  exists (String c d), part.
  split; [reflexivity|]. split; [discriminate|].
  split; [|exact Hf]. apply in_rev. exact Hin.
Qed.

Lemma extracted_coupon_is_a_part_in_range_witness :
  0 < 10.00 /\ 10.00 < 100 /\
  exists (d part : string),
    Some "GOG-BD-17/08/27-A6139-1838-10.00" = Some d /\ d <> EmptyString /\
    In part (PyStr.split "-" d) /\ float_decimal_examples part = Some 10.00.
Proof.
  apply (proj1 (extracted_coupon_is_a_part_in_range float_decimal_examples)
           (Some "GOG-BD-17/08/27-A6139-1838-10.00") 10.00).
  reflexivity.
Defined.

(** X5.  When the text after the last hyphen of a description reads as a
    number strictly between 0 and 100, that number is the coupon, whatever
    precedes it (the two examples of the docstring are of this form). *)
Theorem coupon_is_the_trailing_part (float : string -> option Q)
    (prefix tail : string) (v : Q) :
  (forall c, In c (list_ascii_of_string tail) -> c <> "-"%char) ->
  float tail = Some v -> 0 < v -> v < 100 ->
  extract_coupon_from_description float
    (Some (String.append prefix (String "-" tail))) = Some v.
Proof.
  intros Htail Hf H0 H1. unfold extract_coupon_from_description.
  assert (bool_of_str (String.append prefix (String "-" tail)) = true) as ->
    by (destruct prefix; reflexivity).
  cbn [negb].
  rewrite (split_app_last "-" prefix tail Htail), rev_app_distr.
  cbn [rev app coupon_scan]. rewrite Hf.
  assert (Qltb 0 v && Qltb v 100 = true) as ->
    by (apply andb_true_iff; split; apply Qltb_lt; assumption).
  reflexivity.
Qed.

Lemma coupon_is_the_trailing_part_witness :
  extract_coupon_from_description float_decimal_examples
    (Some (String.append "LGH-BD-13/03/28-C0896" (String "-" "30.25")))
  = Some 30.25.
Proof.
  apply (coupon_is_the_trailing_part float_decimal_examples
           "LGH-BD-13/03/28-C0896" "30.25" 30.25).
  - intros c Hc. cbn in Hc.
    repeat (destruct Hc as [<- | Hc]; [discriminate|]). contradiction.
  - reflexivity.
  - reflexivity.
  - reflexivity.
Defined.

(** ** Maturity buckets beyond the table *)

(** X6.  On every integer the function returns "20Y+" exactly when the
    days are negative or above 7300: a negative number of days falls
    through every row of the table into the last bucket. *)
Theorem maturity_bucket_20Y_plus_is_the_fallthrough (days : Z) :
  get_maturity_bucket days = "20Y+" <-> (days < 0)%Z \/ (7300 < days)%Z.
Proof.
  destruct (Z.lt_ge_cases days 0) as [Hneg | Hpos].
  - split; [intros _; left; exact Hneg|]. intros _.
    unfold get_maturity_bucket, MATURITY_BUCKETS, find, in_bucket.
    decide_leb. reflexivity.
  - destruct (get_maturity_bucket_cases days Hpos)
      as [[H E]|[[H E]|[[H E]|[[H E]|[[H E]|[[H E]|[[H E]|[[H E]|[H E]]]]]]]]];
      rewrite E;
      (split; [intros A; first [right; exact H | discriminate A]
              | intros [A | A]; first [reflexivity | exfalso; lia]]).
Qed.

(** ** Builders: which rows become metrics *)

Lemma years_of_never_raises (days : option Z) :
  exists years, years_of days = Ok years.
Proof.
  unfold years_of. destruct days as [d|]; [|eauto].
  destruct (bool_of_int d); [|eauto].
  rewrite (truediv_ok (inject_Z d) 365) by (intros E; discriminate E).
  cbn [bind]. eauto.
Qed.

(** The T-bill calculator never raises. *)
Lemma calculate_tbill_yields_cases (price : option Q) (days : option Z) :
  calculate_tbill_yields price days = Ok ∅ \/
  exists dy bey : Q,
    calculate_tbill_yields price days
    = Ok (<["discount_yield" := dy]>
           (<["bond_equivalent_yield" := bey]> (<["ytm" := bey]> ∅))).
Proof.
  destruct price as [p|]; [|left; reflexivity].
  destruct days as [d|]; [|left; reflexivity].
  destruct (Qeq_dec p 0) as [Hp | Hp].
  - left. apply calculate_tbill_yields_empty. right. left. eauto.
  - destruct (Z.lt_ge_cases 0 d) as [Hd | Hd].
    + right. do 2 eexists. apply calculate_tbill_yields_defined; assumption.
    + left. apply calculate_tbill_yields_empty. do 3 right. exists d.
      split; [reflexivity | lia].
Qed.

Lemma process_tbill_row_ok (trade_date : string) (r : raw_row) :
  exists m : metric,
    process_tbill_row trade_date r = Ok m /\
    m_isin m = r_isin r /\ m_date m = trade_date /\
    m_security_type m = "TBILL" /\
    m_ytm m = m_bond_equivalent_yield m /\
    (m_discount_yield m = None <-> m_ytm m = None).
Proof.
  unfold process_tbill_row.
  destruct (years_of_never_raises (r_days_to_maturity r)) as [years ->].
  destruct (truthy bool_of_float (r_closing_price r)
            && truthy bool_of_int (r_days_to_maturity r)).
  - destruct (calculate_tbill_yields_cases (r_closing_price r)
                (r_days_to_maturity r)) as [-> | (dy & bey & ->)];
      cbn [bind]; eexists; (split; [reflexivity|]); cbn;
      repeat split; try reflexivity; intros; discriminate.
  - cbn [bind]. eexists. split; [reflexivity|]. cbn.
    repeat split; reflexivity.
Qed.

(** X7.  The T-bill builder never loses a row: it emits one metric per
    row, in the order of the rows and under the row's ISIN; each metric is
    of type TBILL for the trade date, its [ytm] is its
    [bond_equivalent_yield], and it has no [discount_yield] exactly when it
    has no [ytm]. *)
Theorem process_tbills_one_metric_per_row (trade_date : string)
    (records : list raw_row) :
  map m_isin (process_tbills trade_date records) = map r_isin records /\
  Forall (fun m => m_date m = trade_date /\ m_security_type m = "TBILL" /\
                   m_ytm m = m_bond_equivalent_yield m /\
                   (m_discount_yield m = None <-> m_ytm m = None))
         (process_tbills trade_date records).
Proof.
  unfold process_tbills, collect.
  induction records as [|r records [IH1 IH2]]; cbn [flat_map map].
  - split; [reflexivity | constructor].
  - destruct (process_tbill_row_ok trade_date r)
      as (m & -> & A & B & C & D & E).
    cbn [app map]. split.
    + rewrite A, IH1. reflexivity.
    + constructor; [auto | exact IH2].
Qed.

(** A row passes through a builder under its own ISIN. *)
Lemma process_gog_row_isin (float : string -> option Q) (libm_pow : Q -> Q -> Q)
    (trade_date security_type : string) (r : raw_row) (m : metric) :
  process_gog_row float libm_pow trade_date security_type r = Ok m ->
  m_isin m = r_isin r /\ m_date m = trade_date /\
  m_security_type m = security_type.
Proof.
  intros H. unfold process_gog_row in H.
  apply bind_ok_inv in H as (? & _ & H).
  apply bind_ok_inv in H as (? & _ & H).
  apply bind_ok_inv in H as (? & _ & H).
  injection H as <-. repeat split; reflexivity.
Qed.

Lemma process_corporate_row_isin (float : string -> option Q)
    (libm_pow : Q -> Q -> Q) (trade_date : string) (r : raw_row) (m : metric) :
  process_corporate_row float libm_pow trade_date r = Ok m ->
  m_isin m = r_isin r /\ m_date m = trade_date /\
  m_security_type m = "CORPORATE".
Proof.
  intros H. unfold process_corporate_row in H.
  apply bind_ok_inv in H as (? & _ & H).
  apply bind_ok_inv in H as (? & _ & H).
  apply bind_ok_inv in H as (? & _ & H).
  injection H as <-. repeat split; reflexivity.
Qed.

Lemma collect_sublist (body : raw_row -> result metric)
    (records : list raw_row) :
  (forall r m, body r = Ok m -> m_isin m = r_isin r) ->
  sublist (map m_isin (collect body records)) (map r_isin records).
Proof.
  intros Hisin. unfold collect.
  induction records as [|r records IH]; cbn [flat_map map].
  - constructor.
  - destruct (body r) as [m|e] eqn:E; cbn [app map].
    + rewrite (Hisin r m E). apply sublist_skip. exact IH.
    + apply sublist_cons. exact IH.
Qed.

(** A row without days to maturity asks for no duration, so nothing in its
    body can raise. *)
Lemma process_gog_row_without_days (float : string -> option Q)
    (libm_pow : Q -> Q -> Q) (trade_date security_type : string) (r : raw_row) :
  truthy bool_of_int (r_days_to_maturity r) = false ->
  exists m : metric,
    process_gog_row float libm_pow trade_date security_type r = Ok m /\
    m_ytm m = r_closing_yield r /\ m_modified_duration m = None.
Proof.
  intros Hd. unfold process_gog_row. rewrite Hd, andb_false_r. cbn [bind].
  assert (years_of (r_days_to_maturity r) = Ok None) as ->.
  { unfold years_of. destruct (r_days_to_maturity r) as [d|]; [|reflexivity].
    cbn [truthy] in Hd. rewrite Hd. reflexivity. }
  cbn [bind truthy]. rewrite andb_false_r. cbn [bind].
  eexists. split; [reflexivity|]. cbn.
  split; [|reflexivity].
  destruct (truthy bool_of_float (r_closing_yield r)); reflexivity.
Qed.

Lemma process_corporate_row_without_days (float : string -> option Q)
    (libm_pow : Q -> Q -> Q) (trade_date : string) (r : raw_row) :
  truthy bool_of_int (r_days_to_maturity r) = false ->
  exists m : metric,
    process_corporate_row float libm_pow trade_date r = Ok m /\
    m_ytm m = r_day_high_yield r /\ m_modified_duration m = None.
Proof.
  intros Hd. unfold process_corporate_row. rewrite Hd, andb_false_r.
  cbn [bind].
  assert (years_of (r_days_to_maturity r) = Ok None) as ->.
  { unfold years_of. destruct (r_days_to_maturity r) as [d|]; [|reflexivity].
    cbn [truthy] in Hd. rewrite Hd. reflexivity. }
  cbn [bind truthy]. rewrite andb_false_r. cbn [bind].
  eexists. split; [reflexivity|]. cbn.
  split; reflexivity.
Qed.

(** X8.  The GOG and corporate builders invent and reorder nothing: the
    ISINs of the metrics they emit are a subsequence of the ISINs of the
    rows, every metric carries the trade date and the type of its builder,
    and a row whose days to maturity are missing or zero is always emitted,
    without a duration. *)
Theorem builders_keep_rows_in_order (float : string -> option Q)
    (libm_pow : Q -> Q -> Q) (trade_date : string) (records : list raw_row) :
  (forall security_type : string,
     sublist (map m_isin (process_gog_bonds float libm_pow trade_date records
                            security_type))
             (map r_isin records) /\
     Forall (fun m => m_date m = trade_date /\ m_security_type m = security_type)
            (process_gog_bonds float libm_pow trade_date records security_type) /\
     forall r, In r records ->
       truthy bool_of_int (r_days_to_maturity r) = false ->
       exists m,
         In m (process_gog_bonds float libm_pow trade_date records security_type)
         /\ m_isin m = r_isin r /\ m_modified_duration m = None) /\
  sublist (map m_isin (process_corporate float libm_pow trade_date records))
          (map r_isin records) /\
  Forall (fun m => m_date m = trade_date /\ m_security_type m = "CORPORATE")
         (process_corporate float libm_pow trade_date records) /\
  (forall r, In r records ->
     truthy bool_of_int (r_days_to_maturity r) = false ->
     exists m,
       In m (process_corporate float libm_pow trade_date records)
       /\ m_isin m = r_isin r /\ m_modified_duration m = None).
Proof.
  split; [intros security_type; split; [|split] | split; [|split]].
  - apply collect_sublist. intros r m H.
    apply (process_gog_row_isin _ _ _ _ _ _ H).
  - apply List.Forall_forall. intros m Hm.
    apply in_collect in Hm as (r & _ & H).
    destruct (process_gog_row_isin _ _ _ _ _ _ H) as (_ & A & B). auto.
  - intros r Hr Hd.
    destruct (process_gog_row_without_days float libm_pow trade_date
                security_type r Hd) as (m & Hm & _ & Hdur).
    exists m. split; [apply in_collect; eauto|].
    split; [apply (process_gog_row_isin _ _ _ _ _ _ Hm) | exact Hdur].
  - apply collect_sublist. intros r m H.
    apply (process_corporate_row_isin _ _ _ _ _ H).
  - apply List.Forall_forall. intros m Hm.
    apply in_collect in Hm as (r & _ & H).
    destruct (process_corporate_row_isin _ _ _ _ _ H) as (_ & A & B). auto.
  - intros r Hr Hd.
    destruct (process_corporate_row_without_days float libm_pow trade_date
                r Hd) as (m & Hm & _ & Hdur).
    exists m. split; [apply in_collect; eauto|].
    split; [apply (process_corporate_row_isin _ _ _ _ _ Hm) | exact Hdur].
Qed.

Lemma builders_keep_rows_in_order_witness :
  exists m : metric,
    In m (process_corporate float_decimal_examples (fun _ _ => 1) "2026-01-30"
            [corporate_row_with_both_yields])
    /\ m_isin m = r_isin corporate_row_with_both_yields
    /\ m_modified_duration m = None.
Proof.
  apply (proj2 (proj2 (proj2 (builders_keep_rows_in_order
                                float_decimal_examples (fun _ _ => 1)
                                "2026-01-30" [corporate_row_with_both_yields])))
           corporate_row_with_both_yields);
    [left; reflexivity | reflexivity].
Defined.

(** ** Builders: the only way to lose a row *)

Section OnlyOverflow.

Variable libm_pow : Q -> Q -> Q.

(** What the C library's [pow] satisfies on the arguments the duration
    passes to it: a base above 1 to a positive power is at least 1. *)
Hypothesis libm_pow_ge_1 : forall b e : Q, 1 < b -> 0 < e -> 1 <= libm_pow b e.

Lemma pow_raises_only_overflow (y n : Q) (e : exn) :
  0 < y -> 0 < n ->
  (pow libm_pow (1 + y) n = Raise e -> e = OverflowError) /\
  (forall r, pow libm_pow (1 + y) n = Ok r -> 1 <= r).
Proof.
  intros Hy Hn. unfold pow.
  assert (Qeq_bool (1 + y) 0 = false) as ->.
  { destruct (Qeq_bool (1 + y) 0) eqn:E; [|reflexivity].
    apply Qeq_bool_iff in E. lra. }
  cbn [andb].
  assert (1 <= (if is_integral n
                then Qpower (1 + y) (Qnum n / Zpos (Qden n))
                else libm_pow (1 + y) n)) as Hr.
  { destruct (is_integral n).
    - apply Qpower_1_le; [lra|].
      apply Z.div_pos; [|lia].
      unfold Qlt in Hn. simpl in Hn. lia.
    - apply libm_pow_ge_1; lra. }
  destruct (Qle_bool overflow_threshold _).
  - split; [intros E; injection E as <-; reflexivity | discriminate].
  - split; [discriminate | intros r E; injection E as <-; exact Hr].
Qed.

Lemma mac_duration_closed_form_raises_only_overflow (y n c : Q) (e : exn) :
  0 < y -> 0 < n -> 0 < c ->
  mac_duration_closed_form libm_pow y n c = Raise e -> e = OverflowError.
Proof.
  intros Hy Hn Hc. unfold mac_duration_closed_form.
  rewrite (truediv_ok (1 + y) y) by lra. cbn [bind].
  rewrite (truediv_ok c 100) by (intros E; discriminate E). cbn [bind].
  destruct (pow_raises_only_overflow y n e Hy Hn) as [Hraise Hok].
  destruct (pow libm_pow (1 + y) n) as [pw|e'] eqn:P; cbn [bind].
  - specialize (Hok pw eq_refl).
    assert (0 < c / 100) as Hc100.
    { apply Qlt_shift_div_l; [reflexivity | lra]. }
    rewrite (truediv_ok _ (c / 100 * (pw - 1) + y)) by nra.
    cbn [bind]. discriminate.
  - intros E. injection E as <-. apply Hraise. reflexivity.
Qed.

Lemma calculate_modified_duration_raises_only_overflow
    (ytm years coupon : option Q) (e : exn) :
  (forall c, coupon = Some c -> 0 <= c) ->
  calculate_modified_duration libm_pow ytm years coupon = Raise e ->
  e = OverflowError.
Proof.
  intros Hcoupon. unfold calculate_modified_duration.
  destruct ytm as [ytm|]; [|discriminate].
  destruct years as [n|]; [|discriminate].
  destruct (negb (bool_of_float ytm) || Qle_bool ytm 0
            || negb (bool_of_float n) || Qle_bool n 0) eqn:G; [discriminate|].
  apply orb_false_iff in G as [G Gn].
  apply orb_false_iff in G as [G _].
  apply orb_false_iff in G as [_ Gy].
  apply Qle_bool_false_lt in Gn, Gy.
  destruct coupon as [cr|]; [|discriminate].
  destruct (negb (bool_of_float cr) || Qeq_bool cr 0) eqn:C; [discriminate|].
  apply orb_false_iff in C as [C _]. apply negb_false_iff in C.
  apply bool_of_float_true in C.
  assert (0 < cr) as Hcr.
  { specialize (Hcoupon cr eq_refl).
    apply Qle_lteq in Hcoupon as [H | H]; [exact H|].
    exfalso. apply C. symmetry. exact H. }
  rewrite (truediv_ok ytm 100) by (intros E; discriminate E). cbn [bind].
  assert (0 < ytm / 100) as Hy.
  { apply Qlt_shift_div_l; [reflexivity | rewrite Qmult_0_l; exact Gy]. }
  destruct (mac_duration_closed_form libm_pow (ytm / 100) n cr) as [mac|e']
    eqn:M; cbn [bind].
  - rewrite (truediv_ok _ (1 + ytm / 100)) by (intros E; lra).
    cbn [bind try_except]. discriminate.
  - intros E. injection E as <-.
    apply (mac_duration_closed_form_raises_only_overflow _ _ _ _ Hy Gn Hcr M).
Qed.

Variable float : string -> option Q.

Lemma extracted_coupon_nonneg (desc : option string) (c : Q) :
  extract_coupon_from_description float desc = Some c -> 0 <= c.
Proof.
  intros H. unfold extract_coupon_from_description in H.
  destruct desc as [d|]; [|discriminate].
  destruct (negb (bool_of_str d)); [discriminate|].
  apply coupon_scan_some in H as (A & _). lra.
Qed.

Lemma rows_raise_only_overflow (trade_date security_type : string)
    (r : raw_row) (e : exn) :
  (process_gog_row float libm_pow trade_date security_type r = Raise e ->
   e = OverflowError) /\
  (process_corporate_row float libm_pow trade_date r = Raise e ->
   e = OverflowError).
Proof.
  split; intros H; [unfold process_gog_row in H | unfold process_corporate_row in H].
  - destruct (calculate_bond_ytm_never_raises (r_closing_price r)
                (extract_coupon_from_description float (r_security_description r))
                (r_days_to_maturity r)) as [y0 Hy0].
    rewrite Hy0 in H.
    destruct (truthy bool_of_float (r_closing_price r)
              && truthy bool_of_int (r_days_to_maturity r)); cbn [bind] in H.
    all: destruct (years_of_never_raises (r_days_to_maturity r)) as [ys Hys];
      rewrite Hys in H; cbn [bind] in H.
    all: match type of H with
         | bind (if ?b then ?d else _) _ = _ =>
             destruct b; [destruct d as [dur|e'] eqn:D|]; cbn [bind] in H;
               try discriminate H
         end.
    all: injection H as <-;
      apply (calculate_modified_duration_raises_only_overflow _ _ _ _
               (extracted_coupon_nonneg _) D).
  - destruct (calculate_bond_ytm_never_raises (r_closing_price r)
                (extract_coupon_from_description float (r_security_description r))
                (r_days_to_maturity r)) as [y0 Hy0].
    rewrite Hy0 in H.
    destruct (truthy bool_of_float (r_closing_price r)
              && truthy bool_of_int (r_days_to_maturity r)); cbn [bind] in H.
    all: destruct (years_of_never_raises (r_days_to_maturity r)) as [ys Hys];
      rewrite Hys in H; cbn [bind] in H.
    all: match type of H with
         | bind (if ?b then ?d else _) _ = _ =>
             destruct b; [destruct d as [dur|e'] eqn:D|]; cbn [bind] in H;
               try discriminate H
         end.
    all: injection H as <-;
      apply (calculate_modified_duration_raises_only_overflow _ _ _ _
               (extracted_coupon_nonneg _) D).
Qed.

(** X9.  With a [pow] that is at least 1 on a base above 1 and a positive
    exponent, the body of a GOG or corporate row either yields its metric
    or raises the [OverflowError] of the power in the duration, which makes
    the builder drop the row: no division in the body can fail. *)
Theorem row_is_lost_only_to_overflow (trade_date security_type : string)
    (r : raw_row) :
  ((exists m, process_gog_row float libm_pow trade_date security_type r = Ok m)
   \/ process_gog_row float libm_pow trade_date security_type r
      = Raise OverflowError) /\
  ((exists m, process_corporate_row float libm_pow trade_date r = Ok m)
   \/ process_corporate_row float libm_pow trade_date r = Raise OverflowError).
Proof.
  split.
  - destruct (process_gog_row float libm_pow trade_date security_type r)
      as [m|e] eqn:H; [left; eauto | right].
    f_equal.
    exact (proj1 (rows_raise_only_overflow trade_date security_type r e) H).
  - destruct (process_corporate_row float libm_pow trade_date r)
      as [m|e] eqn:H; [left; eauto | right].
    f_equal.
    exact (proj2 (rows_raise_only_overflow trade_date security_type r e) H).
Qed.

End OnlyOverflow.

Lemma row_is_lost_only_to_overflow_witness :
  ((exists m, process_gog_row float_decimal_examples (fun _ _ => 1)
                "2026-01-30" "GOG_BOND" gog_row_with_1100_years = Ok m)
   \/ process_gog_row float_decimal_examples (fun _ _ => 1)
        "2026-01-30" "GOG_BOND" gog_row_with_1100_years
      = Raise OverflowError) /\
  ((exists m, process_corporate_row float_decimal_examples (fun _ _ => 1)
                "2026-01-30" gog_row_with_1100_years = Ok m)
   \/ process_corporate_row float_decimal_examples (fun _ _ => 1)
        "2026-01-30" gog_row_with_1100_years = Raise OverflowError).
Proof.
  apply (row_is_lost_only_to_overflow (fun _ _ => 1)).
  intros b e _ _. apply Qle_refl.
Defined.

(** ** Corporate spreads: what changes and what does not *)

(** The three outcomes of the body of the loop. *)
Lemma corporate_spread_step_cases (bucket_to_yield : gmap string Q)
    (isin_to_days : gmap string (option Z)) (m : metric) :
  corporate_spread_step bucket_to_yield isin_to_days m = (m, []) \/
  exists ytm benchmark : Q,
    m_security_type m = "CORPORATE" /\ m_ytm m = Some ytm /\
    let m' := set_spread_vs_govt (round (ytm - benchmark) 4)
                (set_benchmark_yield (round benchmark 4) m) in
    (round (ytm - benchmark) 4 <= 5 /\
     corporate_spread_step bucket_to_yield isin_to_days m = (m', [])) \/
    (5 < round (ytm - benchmark) 4 /\
     corporate_spread_step bucket_to_yield isin_to_days m
     = (m', [spread_alert m' (round (ytm - benchmark) 4) benchmark])).
Proof.
  unfold corporate_spread_step.
  destruct (m_ytm m) as [ytm|] eqn:Hytm; [|left; reflexivity].
  destruct (String.eqb (m_security_type m) "CORPORATE") eqn:T;
    [|left; reflexivity].
  apply String.eqb_eq in T.
  destruct (bool_of_float ytm); cbn [andb]; [|left; reflexivity].
  destruct (mjoin (isin_to_days !! m_isin m)) as [days|]; [|left; reflexivity].
  destruct (bool_of_int days); [|left; reflexivity].
  destruct (bucket_to_yield !! get_maturity_bucket days) as [benchmark|];
    [|left; reflexivity].
  destruct (bool_of_float benchmark); [|left; reflexivity].
  right. exists ytm, benchmark. split; [exact T|]. split; [reflexivity|].
  cbv zeta.
  destruct (Qltb 5.0 (round (ytm - benchmark) 4)) eqn:E.
  - right. apply Qltb_lt in E. split; [lra | reflexivity].
  - left. apply Qltb_ge in E. split; [lra | reflexivity].
Qed.

(** X10.  The spread calculator returns the metrics in their order, each
    either untouched or a corporate metric with [benchmark_yield] and
    [spread_vs_govt] assigned together and nothing else changed; a metric
    that is not corporate is never touched.  Every alert is a
    SPREAD_WIDENING alert of severity INFO for a corporate metric of the
    result whose [spread_vs_govt] is above 5. *)
Theorem corporate_spreads_only_assign_the_two_fields
    (all_metrics : list metric) (curve_points : list curve_point)
    (corporate_rows : list (string * option Z)) :
  Forall2
    (fun m m' =>
       m' = m \/
       (m_security_type m = "CORPORATE" /\
        exists benchmark spread : Q,
          m' = set_spread_vs_govt spread (set_benchmark_yield benchmark m)))
    all_metrics
    (fst (calculate_corporate_spreads all_metrics curve_points corporate_rows))
  /\
  Forall
    (fun a =>
       a_alert_type a = "SPREAD_WIDENING" /\ a_severity a = "INFO" /\
       exists (m' : metric) (spread : Q),
         In m' (fst (calculate_corporate_spreads all_metrics curve_points
                       corporate_rows)) /\
         m_security_type m' = "CORPORATE" /\
         a_isin a = m_isin m' /\ a_date a = m_date m' /\
         m_spread_vs_govt m' = Some spread /\ 5 < spread)
    (snd (calculate_corporate_spreads all_metrics curve_points corporate_rows)).
Proof.
  unfold calculate_corporate_spreads. rewrite for_each_metric_spec.
  cbn [fst snd].
  set (step := corporate_spread_step (bucket_to_yield_of curve_points)
                 (isin_to_days_of corporate_rows)).
  split.
  - induction all_metrics as [|m ms IH]; cbn [map]; constructor; [|exact IH].
    destruct (corporate_spread_step_cases (bucket_to_yield_of curve_points)
                (isin_to_days_of corporate_rows) m)
      as [E | (ytm & benchmark & T & _ & [[_ E] | [_ E]])];
      fold step in E; rewrite E; cbn [fst]; [left; reflexivity | right | right];
      (split; [exact T | eauto]).
  - apply List.Forall_forall. intros a Ha.
    apply in_flat_map in Ha as (m & Hm & Ha).
    destruct (corporate_spread_step_cases (bucket_to_yield_of curve_points)
                (isin_to_days_of corporate_rows) m)
      as [E | (ytm & benchmark & T & _ & [[_ E] | [Hgt E]])];
      fold step in E.
    + rewrite E in Ha. contradiction.
    + rewrite E in Ha. contradiction.
    + assert (fst (step m) = fst (step m)) as Hfst by reflexivity.
      rewrite E in Ha, Hfst at 2. cbn [snd fst In] in Ha, Hfst.
      destruct Ha as [<- | []].
      split; [reflexivity|]. split; [reflexivity|].
      eexists. exists (round (ytm - benchmark) 4).
      split; [apply in_map_iff; exists m; split; [exact Hfst | exact Hm]|].
      repeat split; try reflexivity; [exact T | exact Hgt].
Qed.

Lemma corporate_spread_step_again (bucket_to_yield : gmap string Q)
    (isin_to_days : gmap string (option Z)) (m : metric) :
  corporate_spread_step bucket_to_yield isin_to_days
    (fst (corporate_spread_step bucket_to_yield isin_to_days m))
  = corporate_spread_step bucket_to_yield isin_to_days m.
Proof.
  unfold corporate_spread_step.
  destruct (m_ytm m) as [ytm|] eqn:Hytm; cbn [fst]; [|rewrite Hytm; reflexivity].
  destruct (String.eqb (m_security_type m) "CORPORATE" && bool_of_float ytm)
    eqn:G; cbn [fst]; [|rewrite Hytm, G; reflexivity].
  destruct (mjoin (isin_to_days !! m_isin m)) as [days|] eqn:D; cbn [fst];
    [|rewrite Hytm, G, D; reflexivity].
  destruct (bool_of_int days) eqn:Bd; cbn [fst];
    [|rewrite Hytm, G, D, Bd; reflexivity].
  destruct (bucket_to_yield !! get_maturity_bucket days) as [benchmark|] eqn:L;
    cbn [fst]; [|rewrite Hytm, G, D, Bd, L; reflexivity].
  destruct (bool_of_float benchmark) eqn:Bb; cbn [fst];
    [|rewrite Hytm, G, D, Bd, L, Bb; reflexivity].
  destruct (Qltb 5.0 (round (ytm - benchmark) 4)) eqn:E; cbn [fst];
    cbn [m_ytm m_security_type m_isin set_spread_vs_govt set_benchmark_yield];
    rewrite Hytm, G, D, Bd, L, Bb, E; destruct m; reflexivity.
Qed.

(** X11.  Running the spread calculator again on its own result, with the
    same curve and the same corporate rows, leaves the metrics as they are
    and emits the same alerts once more. *)
Theorem corporate_spreads_rerun (all_metrics : list metric)
    (curve_points : list curve_point)
    (corporate_rows : list (string * option Z)) :
  calculate_corporate_spreads
    (fst (calculate_corporate_spreads all_metrics curve_points corporate_rows))
    curve_points corporate_rows
  = calculate_corporate_spreads all_metrics curve_points corporate_rows.
Proof.
  unfold calculate_corporate_spreads. rewrite !for_each_metric_spec.
  cbn [fst]. rewrite map_map, flat_map_concat_map, map_map,
    <- flat_map_concat_map.
  f_equal.
  - apply map_ext. intros m. rewrite corporate_spread_step_again. reflexivity.
  - induction all_metrics as [|m ms IH]; cbn [flat_map]; [reflexivity|].
    rewrite corporate_spread_step_again, IH. reflexivity.
Qed.

(** ** Volume spikes: what changes and what does not *)

Lemma volume_spike_step_cases
    (history : string -> string -> result (list (option Q)))
    (trade_date : string) (m : metric) :
  ((m_volume m = None \/ exists v, m_volume m = Some v /\ v <= 0) /\
   volume_spike_step history trade_date m = (set_liquidity_flag "STALE" m, []))
  \/
  (exists v, m_volume m = Some v /\ 0 < v /\
     (volume_spike_step history trade_date m
        = (set_liquidity_flag "ACTIVE" m, []) \/
      exists (avg : Q) (data : list (option Q)),
        history (m_isin m) trade_date = Ok data /\
        (volume_spike_step history trade_date m
         = (set_volume_spike_flag false
              (set_volume_avg_30d avg (set_liquidity_flag "ACTIVE" m)), []) \/
         exists a : alert,
           a_alert_type a = "VOLUME_SPIKE" /\ a_severity a = "WARNING" /\
           a_isin a = m_isin m /\ a_date a = trade_date /\
           volume_spike_step history trade_date m
           = (set_volume_spike_flag true
                (set_volume_avg_30d avg (set_liquidity_flag "ACTIVE" m)),
              [a])))).
Proof.
  destruct (m_volume m) as [v|] eqn:Hvol.
  2:{ left. split; [left; reflexivity|].
      unfold volume_spike_step. rewrite Hvol. reflexivity. }
  destruct (Qlt_le_dec 0 v) as [Hv | Hv].
  2:{ left. split; [right; eauto|].
      unfold volume_spike_step. rewrite Hvol.
      assert (Qle_bool v 0 = true) as -> by (apply Qle_bool_iff, Hv).
      rewrite orb_true_r. reflexivity. }
  right. exists v. split; [reflexivity|]. split; [exact Hv|].
  destruct (history (m_isin m) trade_date) as [data|e] eqn:Hhist.
  2:{ left. destruct (positive_is_truthy v Hv) as (B & L & _).
      unfold volume_spike_step. rewrite Hvol, B, L. cbn [negb orb].
      cbn [m_isin set_liquidity_flag]. rewrite Hhist. reflexivity. }
  destruct (historical_volumes_of data) as [|x xs] eqn:Hhv.
  { left. destruct (positive_is_truthy v Hv) as (B & L & _).
    unfold volume_spike_step. rewrite Hvol, B, L. cbn [negb orb].
    cbn [m_isin set_liquidity_flag]. rewrite Hhist, Hhv. reflexivity. }
  right.
  assert (historical_volumes_of data <> []) as Hne by (rewrite Hhv; discriminate).
  rewrite (volume_spike_step_with_history history trade_date m v data
             Hvol Hv Hhist Hne).
  cbv zeta. eexists. exists data. split; [reflexivity|].
  destruct (Qltb 0 _ && Qle_bool _ v) eqn:C; [right | left; reflexivity].
  apply andb_true_iff in C as [C _]. apply Qltb_lt in C.
  unfold spike_alert.
  rewrite (truediv_ok v _) by (apply (positive_is_truthy _ C)).
  cbn [bind]. eexists. repeat split; reflexivity.
Qed.

(** X12.  After the spike detector every metric, in its place, is marked
    ACTIVE when its volume is positive and STALE otherwise (a negative
    volume counts as none), and that is the only change apart from
    [volume_avg_30d] and [volume_spike_flag], which are assigned together
    and only on ACTIVE metrics.  The alerts come metric by metric, in the
    order of the metrics: each metric has at most one alert, a VOLUME_SPIKE
    alert of severity WARNING for the trade date under the metric's own
    ISIN, and a metric that has one is ACTIVE with [volume_spike_flag]
    true. *)
Theorem volume_spikes_mark_every_metric
    (history : string -> string -> result (list (option Q)))
    (trade_date : string) (all_metrics : list metric) :
  Forall2
    (fun m m' =>
       ((m_volume m = None \/ exists v, m_volume m = Some v /\ v <= 0) /\
        m' = set_liquidity_flag "STALE" m)
       \/
       ((exists v, m_volume m = Some v /\ 0 < v) /\
        (m' = set_liquidity_flag "ACTIVE" m \/
         exists (avg : Q) (flag : bool),
           m' = set_volume_spike_flag flag
                  (set_volume_avg_30d avg (set_liquidity_flag "ACTIVE" m)))))
    all_metrics
    (fst (detect_volume_spikes history trade_date all_metrics))
  /\
  exists per_metric : list (list alert),
    snd (detect_volume_spikes history trade_date all_metrics)
      = List.concat per_metric /\
    Forall2
      (fun m alerts =>
         (List.length alerts <= 1)%nat /\
         Forall (fun a => a_alert_type a = "VOLUME_SPIKE" /\
                          a_severity a = "WARNING" /\
                          a_date a = trade_date /\ a_isin a = m_isin m)
                alerts)
      all_metrics per_metric /\
    Forall2
      (fun m' alerts =>
         alerts <> [] ->
         m_liquidity_flag m' = Some "ACTIVE" /\
         m_volume_spike_flag m' = Some true)
      (fst (detect_volume_spikes history trade_date all_metrics)) per_metric.
Proof.
  unfold detect_volume_spikes. rewrite for_each_metric_spec. cbn [fst snd].
  split.
  - induction all_metrics as [|m ms IH]; cbn [map]; constructor; [|exact IH].
    destruct (volume_spike_step_cases history trade_date m)
      as [[Hv E] | (v & Hvol & Hv & [E | (avg & data & _ & [E | (a & _ & _ & _ & _ & E)])])];
      rewrite E; cbn [fst].
    + left. split; [exact Hv | reflexivity].
    + right. split; [eauto | left; reflexivity].
    + right. split; [eauto | right; eauto].
    + right. split; [eauto | right; eauto].
  - exists (map (fun m => snd (volume_spike_step history trade_date m))
                all_metrics).
    split; [apply flat_map_concat_map|]. split.
    + induction all_metrics as [|m ms IH]; cbn [map]; constructor; [|exact IH].
      destruct (volume_spike_step_cases history trade_date m)
        as [[Hv E] | (v & Hvol & Hv & [E | (avg & data & _ & [E | (a & A & B & C & D & E)])])];
        rewrite E; cbn [snd List.length]; (split; [lia|]);
        try (constructor; fail).
      constructor; [auto | constructor].
    + induction all_metrics as [|m ms IH]; cbn [map]; constructor; [|exact IH].
      destruct (volume_spike_step_cases history trade_date m)
        as [[Hv E] | (v & Hvol & Hv & [E | (avg & data & _ & [E | (a & A & B & C & D & E)])])];
        rewrite E; cbn [fst snd]; intros Hne; try contradiction.
      split; reflexivity.
Qed.

(** X13.  The spike detector asks the store only about the ISINs of the
    metrics it is given, so a store that fails or differs on other ISINs
    changes nothing; and a metric with a positive volume whose own query
    raises is only marked ACTIVE, with no alert. *)
Theorem volume_spikes_store_failures_stay_local
    (h1 h2 : string -> string -> result (list (option Q)))
    (trade_date : string) (all_metrics : list metric) :
  (forall m, In m all_metrics ->
     h1 (m_isin m) trade_date = h2 (m_isin m) trade_date) ->
  detect_volume_spikes h1 trade_date all_metrics
    = detect_volume_spikes h2 trade_date all_metrics /\
  (forall (m : metric) (v : Q) (e : exn),
     m_volume m = Some v -> 0 < v -> h1 (m_isin m) trade_date = Raise e ->
     volume_spike_step h1 trade_date m = (set_liquidity_flag "ACTIVE" m, [])).
Proof.
  intros Hagree. split.
  - unfold detect_volume_spikes. rewrite !for_each_metric_spec.
    assert (forall m, In m all_metrics ->
              volume_spike_step h1 trade_date m
              = volume_spike_step h2 trade_date m) as Hstep.
    { intros m Hm. unfold volume_spike_step.
      rewrite (Hagree m Hm). reflexivity. }
    f_equal.
    + apply map_ext_in. intros m Hm. rewrite (Hstep m Hm). reflexivity.
    + clear Hagree.
      induction all_metrics as [|m ms IH]; cbn [flat_map]; [reflexivity|].
      rewrite (Hstep m (or_introl eq_refl)), IH; [reflexivity|].
      intros m' Hm'. apply Hstep. right. exact Hm'.
  - intros m v e Hvol Hv Hraise.
    destruct (positive_is_truthy v Hv) as (B & L & _).
    unfold volume_spike_step. rewrite Hvol, B, L. cbn [negb orb].
    cbn [m_isin set_liquidity_flag]. rewrite Hraise. reflexivity.
Qed.

Lemma volume_spikes_store_failures_stay_local_witness :
  detect_volume_spikes (history_of [Some 1000000]) "2026-01-30"
    [metric_with_volume 3000000]
  = detect_volume_spikes
      (fun isin _ => if String.eqb isin "TB1" then Ok [Some 1000000]
                     else Raise StoreError)
      "2026-01-30" [metric_with_volume 3000000] /\
  (forall (m : metric) (v : Q) (e : exn),
     m_volume m = Some v -> 0 < v ->
     history_of [Some 1000000] (m_isin m) "2026-01-30" = Raise e ->
     volume_spike_step (history_of [Some 1000000]) "2026-01-30" m
     = (set_liquidity_flag "ACTIVE" m, [])).
Proof.
  apply (volume_spikes_store_failures_stay_local
           (history_of [Some 1000000])
           (fun isin _ => if String.eqb isin "TB1" then Ok [Some 1000000]
                          else Raise StoreError)
           "2026-01-30" [metric_with_volume 3000000]).
  intros m [<- | []]. reflexivity.
Defined.

Lemma volume_spike_step_again
    (history : string -> string -> result (list (option Q)))
    (trade_date : string) (m : metric) :
  volume_spike_step history trade_date
    (fst (volume_spike_step history trade_date m))
  = volume_spike_step history trade_date m.
Proof.
  unfold volume_spike_step.
  destruct (m_volume m) as [v|] eqn:Hvol; cbn [fst].
  2:{ cbn [m_volume set_liquidity_flag]. rewrite Hvol.
      destruct m; reflexivity. }
  destruct (negb (bool_of_float v) || Qle_bool v 0) eqn:G; cbn [fst].
  { cbn [m_volume set_liquidity_flag]. rewrite Hvol, G.
    destruct m; reflexivity. }
  cbn [m_isin set_liquidity_flag].
  destruct (history (m_isin m) trade_date) as [data|e] eqn:Hhist; cbn [fst].
  2:{ cbn [m_volume m_isin set_liquidity_flag]. rewrite Hvol, G, Hhist.
      destruct m; reflexivity. }
  destruct (historical_volumes_of data) as [|x xs] eqn:Hhv; cbn [fst].
  { cbn [m_volume m_isin set_liquidity_flag]. rewrite Hvol, G, Hhist, Hhv.
    destruct m; reflexivity. }
  destruct (truediv _ _) as [avg|e] eqn:Havg; cbn [fst].
  2:{ cbn [m_volume m_isin set_liquidity_flag]. rewrite Hvol, G, Hhist, Hhv, Havg.
      destruct m; reflexivity. }
  destruct (Qltb 0 avg && Qle_bool (avg * VOLUME_SPIKE_THRESHOLD) v) eqn:C.
  - destruct (spike_alert trade_date (m_isin m) v avg) as [a|e] eqn:A;
      cbn [fst];
      cbn [m_volume m_isin set_liquidity_flag set_volume_avg_30d
           set_volume_spike_flag];
      rewrite Hvol, G, Hhist, Hhv, Havg, C, A; destruct m; reflexivity.
  - cbn [fst];
      cbn [m_volume m_isin set_liquidity_flag set_volume_avg_30d
           set_volume_spike_flag];
      rewrite Hvol, G, Hhist, Hhv, Havg, C; destruct m; reflexivity.
Qed.

(** X14.  Against an unchanged history, running the spike detector again
    on its own result leaves the metrics as they are and emits the same
    alerts once more. *)
Theorem volume_spikes_rerun
    (history : string -> string -> result (list (option Q)))
    (trade_date : string) (all_metrics : list metric) :
  detect_volume_spikes history trade_date
    (fst (detect_volume_spikes history trade_date all_metrics))
  = detect_volume_spikes history trade_date all_metrics.
Proof.
  unfold detect_volume_spikes. rewrite !for_each_metric_spec.
  cbn [fst]. rewrite map_map, flat_map_concat_map, map_map,
    <- flat_map_concat_map.
  f_equal.
  - apply map_ext. intros m. rewrite volume_spike_step_again. reflexivity.
  - induction all_metrics as [|m ms IH]; cbn [flat_map]; [reflexivity|].
    rewrite volume_spike_step_again, IH. reflexivity.
Qed.

(** ** The uniform schema *)

Lemma lookup_fold_left_insert {A : Type} (f : string -> A) (ks : list string)
    (m0 : gmap string A) (k : string) :
  fold_left (fun acc k' => <[k' := f k']> acc) ks m0 !! k
  = if decide (k ∈ ks) then Some (f k) else m0 !! k.
Proof.
  revert m0. induction ks as [|k0 ks IH]; intros m0; cbn [fold_left].
  - destruct (decide (k ∈ [])) as [H|_]; [|reflexivity].
    apply elem_of_nil in H. contradiction.
  - rewrite IH.
    destruct (decide (k ∈ ks)) as [H|H].
    + rewrite decide_True by (right; exact H). reflexivity.
    + destruct (decide (k = k0)) as [->|Hne].
      * rewrite decide_True by left. apply lookup_insert_eq.
      * rewrite decide_False
          by (intros Hin; apply elem_of_cons in Hin as [?|?]; contradiction).
        apply lookup_insert_ne. congruence.
Qed.

Lemma normalize_metric_record_lookup (V : Type)
    (record : gmap string (option V)) (k : string) :
  normalize_metric_record V record !! k
  = if decide (k ∈ METRIC_KEYS) then Some (dict_get V record k) else None.
Proof.
  unfold normalize_metric_record.
  rewrite (lookup_fold_left_insert (dict_get V record)).
  destruct (decide (k ∈ METRIC_KEYS)); [reflexivity | apply lookup_empty].
Qed.

Lemma METRIC_KEYS_NoDup : NoDup METRIC_KEYS.
Proof.
  apply (bool_decide_eq_true_1 (NoDup METRIC_KEYS)). vm_compute. reflexivity.
Qed.

(** X15.  Whatever the record holds, its normal form has exactly the 21
    keys of [METRIC_KEYS]: each of them maps to what the record has under
    it ([None] when the record lacks the key), and every other key of the
    record is dropped. *)
Theorem normalized_record_has_exactly_the_metric_keys (V : Type)
    (record : gmap string (option V)) :
  (forall k : string,
     normalize_metric_record V record !! k
     = if decide (k ∈ METRIC_KEYS) then Some (dict_get V record k) else None) /\
  dom (normalize_metric_record V record) = list_to_set METRIC_KEYS /\
  size (normalize_metric_record V record) = 21%nat.
Proof.
  assert (dom (normalize_metric_record V record)
          = (list_to_set METRIC_KEYS : gset string)) as Hdom.
  { apply set_eq. intros k.
    rewrite elem_of_dom, normalize_metric_record_lookup, elem_of_list_to_set.
    destruct (decide (k ∈ METRIC_KEYS)) as [H|H].
    - split; [intros _; exact H | intros _; eexists; reflexivity].
    - split; [intros [? E]; discriminate E | intros H'; contradiction]. }
  split; [apply normalize_metric_record_lookup|]. split; [exact Hdom|].
  rewrite <- size_dom, Hdom, (size_list_to_set _ METRIC_KEYS_NoDup).
  reflexivity.
Qed.

Lemma dict_get_filter_not_None (V : Type) (record : gmap string (option V))
    (k : string) :
  dict_get V (filter (fun kv => is_Some (snd kv)) record) k = dict_get V record k.
Proof.
  unfold dict_get.
  destruct (record !! k) as [[v|]|] eqn:E.
  - rewrite (proj2 (map_lookup_filter_Some _ record k (Some v)));
      [reflexivity|]. split; [exact E | cbn; eauto].
  - assert (filter (fun kv : string * option V => is_Some (snd kv)) record !! k
            = None) as ->; [|reflexivity].
    apply map_lookup_filter_None. right. intros x Hx [y Hy].
    rewrite E in Hx. injection Hx as <-. cbn in Hy. discriminate Hy.
  - assert (filter (fun kv : string * option V => is_Some (snd kv)) record !! k
            = None) as ->; [|reflexivity].
    apply map_lookup_filter_None. left. exact E.
Qed.

(** X16.  Normalising twice is normalising once, and a key that holds
    [None] counts as an absent key: removing every key whose value is
    [None] before normalising gives the same normal form. *)
Theorem normalize_is_idempotent_and_blind_to_None (V : Type)
    (record : gmap string (option V)) :
  normalize_metric_record V (normalize_metric_record V record)
    = normalize_metric_record V record /\
  normalize_metric_record V (filter (fun kv => is_Some (snd kv)) record)
    = normalize_metric_record V record.
Proof.
  split; apply map_eq; intros k; rewrite !normalize_metric_record_lookup;
    destruct (decide (k ∈ METRIC_KEYS)) as [H|H]; try reflexivity; f_equal.
  - unfold dict_get at 1. rewrite normalize_metric_record_lookup.
    rewrite decide_True by exact H. reflexivity.
  - apply dict_get_filter_not_None.
Qed.

(** ** Yield curve *)

Lemma bucket_append_keys (bucket : string) (item : Z * Q)
    (bys : list (string * list (Z * Q))) :
  map fst (bucket_append bucket item bys)
  = if in_dec String.string_dec bucket (map fst bys) then map fst bys
    else map fst bys ++ [bucket].
Proof.
  induction bys as [|[b items] rest IH]; cbn [bucket_append map fst app].
  - destruct (in_dec String.string_dec bucket []) as [[]|_]. reflexivity.
  - destruct (String.eqb b bucket) eqn:E.
    + apply String.eqb_eq in E. subst b.
      destruct (in_dec String.string_dec bucket (bucket :: map fst rest))
        as [_|H]; [reflexivity|].
      exfalso. apply H. left. reflexivity.
    + apply String.eqb_neq in E. cbn [map fst]. rewrite IH.
      destruct (in_dec String.string_dec bucket (map fst rest)) as [H|H];
        destruct (in_dec String.string_dec bucket (b :: map fst rest))
          as [H'|H']; try reflexivity.
      * exfalso. apply H'. right. exact H.
      * exfalso. destruct H' as [A|A]; contradiction.
Qed.

Lemma bucket_append_NoDup (bucket : string) (item : Z * Q)
    (bys : list (string * list (Z * Q))) :
  List.NoDup (map fst bys) ->
  List.NoDup (map fst (bucket_append bucket item bys)).
Proof.
  intros H. rewrite bucket_append_keys.
  destruct (in_dec String.string_dec bucket (map fst bys)) as [Hin|Hin]; [exact H|].
  apply NoDup_ListNoDup, NoDup_app. apply NoDup_ListNoDup in H.
  split; [exact H|]. split.
  - intros x Hx Hx'. apply list_elem_of_singleton in Hx'. subst x.
    apply Hin, list_elem_of_In. exact Hx.
  - apply NoDup_singleton.
Qed.

Lemma bucket_append_entries (P : string -> Z * Q -> Prop) (bucket : string)
    (item : Z * Q) (bys : list (string * list (Z * Q))) :
  entries_all P bys -> P bucket item ->
  entries_all P (bucket_append bucket item bys).
Proof.
  unfold entries_all. intros H Hitem.
  induction bys as [|[b items] rest IH]; cbn [bucket_append].
  - constructor; [|constructor]. cbn [fst snd].
    split; [discriminate | constructor; [exact Hitem | constructor]].
  - apply Forall_cons in H as [[Hne Hitems] Hrest]. cbn [fst snd] in *.
    destruct (String.eqb b bucket) eqn:E.
    + apply String.eqb_eq in E. subst b.
      constructor; [|exact Hrest]. cbn [fst snd]. split.
      * destruct items; discriminate.
      * apply Forall_app. split; [exact Hitems|].
        constructor; [exact Hitem | constructor].
    + constructor; [split; assumption | apply IH; exact Hrest].
Qed.

(** What one metric adds to the buckets. *)
Lemma bucket_step_cases (isin_to_days : gmap string (option Z))
    (bys : list (string * list (Z * Q))) (m : metric) :
  bucket_step isin_to_days bys m = bys \/
  exists (ytm : Q) (days : Z),
    (m_security_type m = "GOG_BOND" \/ m_security_type m = "TBILL") /\
    m_ytm m = Some ytm /\ ~ ytm == 0 /\
    mjoin (isin_to_days !! m_isin m) = Some days /\ days <> 0%Z /\
    bucket_step isin_to_days bys m
    = bucket_append (get_maturity_bucket days) (days, ytm) bys.
Proof.
  unfold bucket_step.
  destruct (String.eqb (m_security_type m) "GOG_BOND"
            || String.eqb (m_security_type m) "TBILL") eqn:T;
    cbn [andb]; [|left; reflexivity].
  destruct (m_ytm m) as [ytm|]; cbn [truthy]; [|left; reflexivity].
  destruct (bool_of_float ytm) eqn:By; [|left; reflexivity].
  destruct (mjoin (isin_to_days !! m_isin m)) as [days|]; [|left; reflexivity].
  destruct (bool_of_int days) eqn:Bd; [|left; reflexivity].
  right. exists ytm, days.
  split.
  { apply orb_true_iff in T as [T|T]; apply String.eqb_eq in T; auto. }
  split; [reflexivity|]. split; [apply bool_of_float_true, By|].
  split; [reflexivity|]. split; [apply bool_of_int_true, Bd | reflexivity].
Qed.

Lemma bucket_fold_invariant (isin_to_days : gmap string (option Z))
    (all_metrics ms : list metric) (bys : list (string * list (Z * Q))) :
  (forall m, In m ms -> In m all_metrics) ->
  List.NoDup (map fst bys) ->
  entries_all (counts_for isin_to_days all_metrics) bys ->
  List.NoDup (map fst (fold_left (bucket_step isin_to_days) ms bys)) /\
  entries_all (counts_for isin_to_days all_metrics)
    (fold_left (bucket_step isin_to_days) ms bys).
Proof.
  revert bys. induction ms as [|m ms IH]; intros bys Hsub Hnd Hall;
    cbn [fold_left]; [split; assumption|].
  apply IH; [intros m' Hm'; apply Hsub; right; exact Hm' | |];
    destruct (bucket_step_cases isin_to_days bys m)
      as [-> | (ytm & days & T & Y & Ynz & D & Dnz & ->)];
    try assumption.
  - apply bucket_append_NoDup. exact Hnd.
  - apply bucket_append_entries; [exact Hall|].
    exists m. cbn [fst snd].
    split; [apply Hsub; left; reflexivity|]. auto 10.
Qed.

Lemma bucket_fold_keys_grow (isin_to_days : gmap string (option Z))
    (ms : list metric) (bys : list (string * list (Z * Q))) (b : string) :
  In b (map fst bys) ->
  In b (map fst (fold_left (bucket_step isin_to_days) ms bys)).
Proof.
  revert bys. induction ms as [|m ms IH]; intros bys H; cbn [fold_left];
    [exact H|].
  apply IH.
  destruct (bucket_step_cases isin_to_days bys m)
    as [-> | (ytm & days & _ & _ & _ & _ & _ & ->)]; [exact H|].
  rewrite bucket_append_keys.
  destruct (in_dec String.string_dec (get_maturity_bucket days) (map fst bys));
    [exact H | apply in_or_app; left; exact H].
Qed.

Lemma bucket_fold_complete (isin_to_days : gmap string (option Z))
    (ms : list metric) (bys : list (string * list (Z * Q)))
    (b : string) (item : Z * Q) :
  counts_for isin_to_days ms b item ->
  In b (map fst (fold_left (bucket_step isin_to_days) ms bys)).
Proof.
  intros (m & Hm & T & Y & Ynz & D & Dnz & B).
  revert bys. induction ms as [|m0 ms IH]; intros bys; [contradiction|].
  cbn [fold_left]. destruct Hm as [-> | Hm]; [|apply IH; exact Hm].
  apply bucket_fold_keys_grow.
  unfold bucket_step.
  assert (String.eqb (m_security_type m) "GOG_BOND"
          || String.eqb (m_security_type m) "TBILL" = true) as ->.
  { apply orb_true_iff. destruct T as [T|T]; [left | right];
      apply String.eqb_eq; exact T. }
  rewrite Y, D. cbn [truthy andb].
  assert (bool_of_float (snd item) = true) as ->
    by (apply bool_of_float_true, Ynz).
  assert (bool_of_int (fst item) = true) as ->
    by (apply bool_of_int_true, Dnz).
  rewrite bucket_append_keys, B.
  destruct (in_dec String.string_dec b (map fst bys)) as [H|H]; [exact H|].
  apply in_or_app. right. left. reflexivity.
Qed.

Lemma curve_point_of_ok (trade_date bucket : string) (items : list (Z * Q)) :
  items <> [] ->
  curve_point_of trade_date (bucket, items)
  = Ok {| p_date := trade_date;
          p_maturity_days :=
            py_int (inject_Z (sum_int (map fst items))
                    / inject_Z (Z.of_nat (List.length items)));
          p_maturity_bucket := bucket;
          p_yield :=
            round (py_sum (map snd items)
                   / inject_Z (Z.of_nat (List.length items))) 4;
          p_curve_type := "GOG" |}.
Proof.
  intros H. unfold curve_point_of.
  rewrite !(truediv_ok _ _ (length_nonzero items H)). reflexivity.
Qed.

Lemma map_result_ok {A B : Type} (f : A -> result B) (g : A -> B)
    (xs : list A) :
  Forall (fun x => f x = Ok (g x)) xs -> map_result f xs = Ok (map g xs).
Proof.
  induction 1 as [|x xs Hx _ IH]; cbn [map_result map]; [reflexivity|].
  rewrite Hx, IH. reflexivity.
Qed.

(** The curve is one point per bucket, in the order of the buckets. *)
Lemma build_yield_curve_ok (trade_date : string) (all_metrics : list metric)
    (gog_data : list (string * option Z)) :
  let bys := fold_left (bucket_step (isin_to_days_of gog_data)) all_metrics [] in
  List.NoDup (map fst bys) /\
  entries_all (counts_for (isin_to_days_of gog_data) all_metrics) bys /\
  exists cps : list curve_point,
    build_yield_curve trade_date all_metrics gog_data = Ok cps /\
    map p_maturity_bucket cps = map fst bys /\
    Forall2 (fun e p => curve_point_of trade_date e = Ok p) bys cps.
Proof.
  intros bys.
  destruct (bucket_fold_invariant (isin_to_days_of gog_data) all_metrics
              all_metrics [] (fun m H => H) (List.NoDup_nil _)
              (List.Forall_nil _)) as [Hnd Hall].
  fold bys in Hnd, Hall.
  split; [exact Hnd|]. split; [exact Hall|].
  unfold build_yield_curve. fold bys.
  set (g := fun e : string * list (Z * Q) =>
              {| p_date := trade_date;
                 p_maturity_days :=
                   py_int (inject_Z (sum_int (map fst (snd e)))
                           / inject_Z (Z.of_nat (List.length (snd e))));
                 p_maturity_bucket := fst e;
                 p_yield :=
                   round (py_sum (map snd (snd e))
                          / inject_Z (Z.of_nat (List.length (snd e)))) 4;
                 p_curve_type := "GOG" |}).
  assert (Forall (fun e => curve_point_of trade_date e = Ok (g e)) bys) as Hok.
  { unfold entries_all in Hall.
    eapply List.Forall_impl; [|exact Hall].
    intros [b items] [Hne _]. apply curve_point_of_ok. exact Hne. }
  exists (map g bys).
  split; [apply map_result_ok; exact Hok|]. split.
  - rewrite map_map. reflexivity.
  - clear - Hok. induction Hok as [|e l He _ IH]; cbn [map]; constructor;
      assumption.
Qed.

Lemma get_maturity_bucket_label (days : Z) :
  In (get_maturity_bucket days) BUCKET_LABELS.
Proof.
  destruct (Z.lt_ge_cases days 0) as [Hneg | Hpos].
  - assert (get_maturity_bucket days = "20Y+") as ->.
    { unfold get_maturity_bucket, MATURITY_BUCKETS, find, in_bucket.
      decide_leb. reflexivity. }
    cbn. tauto.
  - destruct (get_maturity_bucket_cases days Hpos)
      as [[H E]|[[H E]|[[H E]|[[H E]|[[H E]|[[H E]|[[H E]|[[H E]|[H E]]]]]]]]];
      rewrite E; cbn; tauto.
Qed.

(** X17.  The curve builder never raises (no bucket is averaged over zero
    items) and returns at most one point per bucket; every point carries
    the trade date, the curve type GOG and one of the nine bucket labels;
    and a bucket has a point exactly when some GOG_BOND or TBILL metric
    with a non-zero [ytm] has non-zero days in the lookup that fall into
    that bucket. *)
Theorem yield_curve_has_one_point_per_populated_bucket (trade_date : string)
    (all_metrics : list metric) (gog_data : list (string * option Z)) :
  exists cps : list curve_point,
    build_yield_curve trade_date all_metrics gog_data = Ok cps /\
    List.NoDup (map p_maturity_bucket cps) /\
    Forall (fun p => p_date p = trade_date /\ p_curve_type p = "GOG" /\
                     In (p_maturity_bucket p) BUCKET_LABELS) cps /\
    forall b : string,
      In b (map p_maturity_bucket cps) <->
      exists (m : metric) (ytm : Q) (days : Z),
        In m all_metrics /\
        (m_security_type m = "GOG_BOND" \/ m_security_type m = "TBILL") /\
        m_ytm m = Some ytm /\ ~ ytm == 0 /\
        mjoin (isin_to_days_of gog_data !! m_isin m) = Some days /\
        days <> 0%Z /\ get_maturity_bucket days = b.
Proof.
  destruct (build_yield_curve_ok trade_date all_metrics gog_data)
    as (Hnd & Hall & cps & Hok & Hkeys & Hpts).
  cbv zeta in *.
  set (bys := fold_left (bucket_step (isin_to_days_of gog_data)) all_metrics [])
    in *.
  exists cps. split; [exact Hok|]. split; [rewrite Hkeys; exact Hnd|].
  split.
  - unfold entries_all in Hall.
    clear Hok Hkeys Hnd.
    induction Hpts as [|[b items] p bys' cps' Hp _ IH]; [constructor|].
    apply Forall_cons in Hall as [[Hne Hitems] Hall].
    constructor; [|apply IH; exact Hall].
    cbn [fst snd] in *.
    rewrite (curve_point_of_ok trade_date b items Hne) in Hp.
    injection Hp as <-. cbn.
    split; [reflexivity|]. split; [reflexivity|].
    destruct items as [|item items]; [contradiction|].
    apply Forall_cons in Hitems as [(m & _ & _ & _ & _ & _ & _ & <-) _].
    apply get_maturity_bucket_label.
  - intros b. rewrite Hkeys. split.
    + intros Hb. apply in_map_iff in Hb as ([b' items] & <- & Hin).
      unfold entries_all in Hall.
      apply (proj1 (List.Forall_forall _ _) Hall) in Hin as [Hne Hitems].
      cbn [fst snd] in *.
      destruct items as [|[d y] items]; [contradiction|].
      apply Forall_cons in Hitems
        as [(m & Hm & T & Y & Ynz & D & Dnz & B) _].
      cbn [fst snd] in *. exists m, y, d. auto 10.
    + intros (m & ytm & days & Hm & T & Y & Ynz & D & Dnz & B).
      apply (bucket_fold_complete _ _ _ _ (days, ytm)).
      exists m. cbn [fst snd]. auto 10.
Qed.

Lemma bucket_fold_filter (isin_to_days : gmap string (option Z))
    (keep : metric -> bool) (ms : list metric)
    (bys : list (string * list (Z * Q))) :
  (forall m bys', keep m = false -> bucket_step isin_to_days bys' m = bys') ->
  fold_left (bucket_step isin_to_days) (List.filter keep ms) bys
  = fold_left (bucket_step isin_to_days) ms bys.
Proof.
  intros Hskip. revert bys.
  induction ms as [|m ms IH]; intros bys; cbn [List.filter fold_left];
    [reflexivity|].
  destruct (keep m) eqn:K; cbn [fold_left].
  - apply IH.
  - rewrite (Hskip m bys K). apply IH.
Qed.

(** X18.  Only GOG_BOND and TBILL metrics with a non-zero [ytm] reach the
    curve: removing every other metric (the corporate ones, and those
    without a yield) from the list gives the same curve. *)
Theorem yield_curve_ignores_other_metrics (trade_date : string)
    (all_metrics : list metric) (gog_data : list (string * option Z)) :
  build_yield_curve trade_date
    (List.filter
       (fun m => (String.eqb (m_security_type m) "GOG_BOND"
                  || String.eqb (m_security_type m) "TBILL")
                 && truthy bool_of_float (m_ytm m))
       all_metrics)
    gog_data
  = build_yield_curve trade_date all_metrics gog_data.
Proof.
  unfold build_yield_curve. cbv zeta. rewrite bucket_fold_filter; [reflexivity|].
  intros m bys' K. unfold bucket_step. rewrite K. reflexivity.
Qed.

(** ** Daily summary *)

Lemma insert_by_days_In (p x : curve_point) (l : list curve_point) :
  In x (insert_by_days p l) <-> x = p \/ In x l.
Proof.
  induction l as [|q l IH]; cbn [insert_by_days].
  - cbn. intuition.
  - destruct (p_maturity_days q <=? p_maturity_days p)%Z; cbn [In];
      rewrite ?IH; intuition.
Qed.

Lemma insert_by_days_length (p : curve_point) (l : list curve_point) :
  List.length (insert_by_days p l) = S (List.length l).
Proof.
  induction l as [|q l IH]; cbn [insert_by_days]; [reflexivity|].
  destruct (p_maturity_days q <=? p_maturity_days p)%Z; cbn [List.length];
    [rewrite IH|]; reflexivity.
Qed.

Lemma insert_by_days_sorted (p : curve_point) (l : list curve_point) :
  StronglySorted days_le l -> StronglySorted days_le (insert_by_days p l).
Proof.
  induction 1 as [|q l Hl IH Hq]; cbn [insert_by_days].
  - constructor; constructor.
  - destruct (p_maturity_days q <=? p_maturity_days p)%Z eqn:E.
    + apply Z.leb_le in E. constructor; [exact IH|].
      apply List.Forall_forall. intros x Hx.
      apply insert_by_days_In in Hx as [-> | Hx]; [exact E|].
      exact (proj1 (List.Forall_forall _ _) Hq x Hx).
    + apply Z.leb_gt in E. constructor; [constructor; assumption|].
      constructor; [unfold days_le; lia|].
      apply List.Forall_forall. intros x Hx.
      pose proof (proj1 (List.Forall_forall _ _) Hq x Hx) as Hqx.
      unfold days_le in *. lia.
Qed.

(** The sorted curve has the points of the curve, in ascending order of
    [maturity_days]. *)
Lemma sorted_by_days_spec (curve_points : list curve_point) :
  (forall x, In x (sorted_by_days curve_points) <-> In x curve_points) /\
  List.length (sorted_by_days curve_points) = List.length curve_points /\
  StronglySorted days_le (sorted_by_days curve_points).
Proof.
  unfold sorted_by_days.
  assert (forall cps acc,
            (forall x, In x (fold_left (fun acc p => insert_by_days p acc) cps acc)
                       <-> In x cps \/ In x acc) /\
            List.length (fold_left (fun acc p => insert_by_days p acc) cps acc)
            = (List.length cps + List.length acc)%nat /\
            (StronglySorted days_le acc ->
             StronglySorted days_le
               (fold_left (fun acc p => insert_by_days p acc) cps acc))) as H.
  { induction cps as [|p cps IH]; intros acc; cbn [fold_left].
    - split; [intros x; cbn; intuition|]. split; [reflexivity | auto].
    - destruct (IH (insert_by_days p acc)) as (A & B & C).
      split; [|split].
      + intros x. rewrite A, insert_by_days_In. cbn [In]. intuition.
      + rewrite B, insert_by_days_length. cbn [List.length]. lia.
      + intros Hs. apply C, insert_by_days_sorted, Hs. }
  destruct (H curve_points []) as (A & B & C).
  split; [intros x; rewrite A; cbn; intuition|].
  split; [rewrite B; cbn; lia | apply C; constructor].
Qed.

Lemma last_In {A : Type} (l : list A) (d : A) : l <> [] -> In (List.last l d) l.
Proof.
  induction l as [|a l IH]; intros H; [contradiction|].
  destruct l as [|b l]; [left; reflexivity|].
  right. apply IH. discriminate.
Qed.

Lemma sorted_last_is_greatest (l : list curve_point) (d x : curve_point) :
  StronglySorted days_le l -> In x l -> days_le x (List.last l d).
Proof.
  induction 1 as [|a l Hl IH Ha]; intros Hx; [contradiction|].
  destruct l as [|b l].
  - destruct Hx as [<- | []]. unfold days_le. cbn. lia.
  - change (List.last (a :: b :: l) d) with (List.last (b :: l) d).
    destruct Hx as [<- | Hx]; [|exact (IH Hx)].
    apply (proj1 (List.Forall_forall _ _) Ha).
    apply last_In. discriminate.
Qed.

Lemma curve_shape_of_cases (curve_slope : Q) :
  (curve_slope < -0.5 /\ curve_shape_of curve_slope = "INVERTED") \/
  (-0.5 <= curve_slope < 0.5 /\ curve_shape_of curve_slope = "FLAT") \/
  (0.5 <= curve_slope /\ curve_shape_of curve_slope = "NORMAL").
Proof.
  unfold curve_shape_of.
  destruct (Qltb curve_slope (-0.5)) eqn:A.
  - left. apply Qltb_lt in A. split; [exact A | reflexivity].
  - apply Qltb_ge in A. destruct (Qltb curve_slope 0.5) eqn:B.
    + right. left. apply Qltb_lt in B. repeat split; assumption.
    + right. right. apply Qltb_ge in B. split; [exact B | reflexivity].
Qed.

(** X19.  With fewer than two curve points the summary says NORMAL with a
    slope of 0.  With two or more, the slope is the yield of a point of
    greatest [maturity_days] minus the yield of a point of least
    [maturity_days], rounded to 2 decimals (a 2-decimal number within half
    a unit of the second decimal of the exact difference, up to the error
    of double arithmetic), whatever the order of the points; and the shape
    follows the slope as written: INVERTED below -0.5, FLAT from -0.5 up to
    but not including 0.5 (so a slope of 0 is FLAT here), NORMAL from 0.5
    on. *)
Theorem summary_slope_spans_the_extreme_maturities (trade_date : string)
    (all_metrics : list metric) (curve_points : list curve_point) :
  let s := build_daily_summary trade_date all_metrics curve_points in
  ((List.length curve_points < 2)%nat ->
   s_curve_shape s = "NORMAL" /\ s_curve_slope s = 0) /\
  ((2 <= List.length curve_points)%nat ->
   (exists short long : curve_point,
      In short curve_points /\ In long curve_points /\
      (forall p, In p curve_points ->
         (p_maturity_days short <= p_maturity_days p <= p_maturity_days long)%Z)
      /\ rounding_of 2 (Qabs (p_yield long) + Qabs (p_yield short))
           (p_yield long - p_yield short) (s_curve_slope s)) /\
   ((s_curve_slope s < -0.5 /\ s_curve_shape s = "INVERTED") \/
    (-0.5 <= s_curve_slope s < 0.5 /\ s_curve_shape s = "FLAT") \/
    (0.5 <= s_curve_slope s /\ s_curve_shape s = "NORMAL"))).
Proof.
  cbv zeta.
  destruct (sorted_by_days_spec curve_points) as (Hin & Hlen & Hsorted).
  unfold build_daily_summary. cbv zeta.
  destruct (sorted_by_days curve_points) as [|first [|second rest]] eqn:E.
  - split; [intros _; split; reflexivity|].
    intros H. cbn in Hlen. lia.
  - split; [intros _; split; reflexivity|].
    intros H. cbn in Hlen. lia.
  - split; [intros H; cbn in Hlen; lia|]. intros _.
    cbn [s_curve_slope s_curve_shape].
    split; [|apply curve_shape_of_cases].
    exists first, (List.last (first :: second :: rest) first).
    split; [apply Hin; left; reflexivity|].
    split; [apply Hin, last_In; discriminate|].
    split.
    + intros p Hp. apply Hin in Hp. split.
      * destruct Hp as [<- | Hp]; [lia|].
        inversion Hsorted as [|? ? _ Hfirst]; subst.
        exact (proj1 (List.Forall_forall _ _) Hfirst p Hp).
      * exact (sorted_last_is_greatest _ first p Hsorted Hp).
    + apply round_rounding_of.
      pose proof (Qabs_nonneg (p_yield first)).
      pose proof (Qabs_nonneg
                    (p_yield (List.last (first :: second :: rest) first))).
      lra.
Qed.

Lemma summary_slope_spans_the_extreme_maturities_witness :
  (exists short long : curve_point,
     In short curve_10Y_then_91D /\ In long curve_10Y_then_91D /\
     (forall p, In p curve_10Y_then_91D ->
        (p_maturity_days short <= p_maturity_days p <= p_maturity_days long)%Z)
     /\ rounding_of 2 (Qabs (p_yield long) + Qabs (p_yield short))
          (p_yield long - p_yield short)
          (s_curve_slope
             (build_daily_summary "2026-01-30" [] curve_10Y_then_91D))) /\
  ((s_curve_slope (build_daily_summary "2026-01-30" [] curve_10Y_then_91D) < -0.5
    /\ s_curve_shape (build_daily_summary "2026-01-30" [] curve_10Y_then_91D)
       = "INVERTED") \/
   (-0.5 <= s_curve_slope (build_daily_summary "2026-01-30" [] curve_10Y_then_91D)
            < 0.5
    /\ s_curve_shape (build_daily_summary "2026-01-30" [] curve_10Y_then_91D)
       = "FLAT") \/
   (0.5 <= s_curve_slope (build_daily_summary "2026-01-30" [] curve_10Y_then_91D)
    /\ s_curve_shape (build_daily_summary "2026-01-30" [] curve_10Y_then_91D)
       = "NORMAL")).
Proof.
  apply (proj2 (summary_slope_spans_the_extreme_maturities "2026-01-30" []
                  curve_10Y_then_91D)).
  cbn. lia.
Defined.

Lemma find_some_first {A : Type} (f : A -> bool) (l : list A) (x : A) :
  find f l = Some x -> In x l /\ f x = true.
Proof. apply find_some. Qed.

(** With distinct buckets, the point of a bucket is the one [next] finds. *)
Lemma yield_of_bucket_point (b : string) (curve_points : list curve_point)
    (p : curve_point) :
  List.NoDup (map p_maturity_bucket curve_points) ->
  In p curve_points -> p_maturity_bucket p = b ->
  yield_of_bucket b curve_points = Some (p_yield p).
Proof.
  unfold yield_of_bucket.
  induction curve_points as [|q cps IH]; intros Hnd Hp Hb; [contradiction|].
  cbn [find map] in *. inversion Hnd as [|? ? Hq Hnd']; subst.
  destruct Hp as [-> | Hp].
  - rewrite String.eqb_refl. reflexivity.
  - destruct (String.eqb (p_maturity_bucket q) (p_maturity_bucket p)) eqn:E.
    + apply String.eqb_eq in E. exfalso. apply Hq. rewrite E.
      apply in_map. exact Hp.
    + apply IH; [exact Hnd' | exact Hp | reflexivity].
Qed.

(** X20.  The summary has a [spread_91d_10y] only when the curve has a
    point in bucket 91D and a point in bucket 10Y, both with a non-zero
    yield, and it is then the 10Y yield minus the 91D yield rounded to 2
    decimals (a 2-decimal number within half a unit of the second decimal
    of the exact difference, up to the error of double arithmetic); on a
    curve with at most one point per bucket (as the curve builder returns)
    two such points always give the spread. *)
Theorem summary_spread_needs_both_ends (trade_date : string)
    (all_metrics : list metric) (curve_points : list curve_point) :
  let s := build_daily_summary trade_date all_metrics curve_points in
  (forall x : Q,
     s_spread_91d_10y s = Some x ->
     exists p91 p10 : curve_point,
       In p91 curve_points /\ In p10 curve_points /\
       p_maturity_bucket p91 = "91D" /\ p_maturity_bucket p10 = "10Y" /\
       ~ p_yield p91 == 0 /\ ~ p_yield p10 == 0 /\
       rounding_of 2 (Qabs (p_yield p10) + Qabs (p_yield p91))
         (p_yield p10 - p_yield p91) x) /\
  (forall p91 p10 : curve_point,
     List.NoDup (map p_maturity_bucket curve_points) ->
     In p91 curve_points -> In p10 curve_points ->
     p_maturity_bucket p91 = "91D" -> p_maturity_bucket p10 = "10Y" ->
     ~ p_yield p91 == 0 -> ~ p_yield p10 == 0 ->
     exists x : Q,
       s_spread_91d_10y s = Some x /\
       rounding_of 2 (Qabs (p_yield p10) + Qabs (p_yield p91))
         (p_yield p10 - p_yield p91) x).
Proof.
  assert (forall a b : Q, 0 <= Qabs a + Qabs b) as Hscale.
  { intros a b. pose proof (Qabs_nonneg a). pose proof (Qabs_nonneg b). lra. }
  cbv zeta. split.
  - intros x H. unfold build_daily_summary in H. cbv zeta in H.
    destruct (match sorted_by_days curve_points with
              | first :: _ :: _ => _
              | _ => _
              end) as [shape slope].
    cbn [s_spread_91d_10y] in H. unfold yield_of_bucket in H.
    destruct (find (fun p => String.eqb (p_maturity_bucket p) "91D")
                curve_points) as [p91|] eqn:F91; cbn in H; [|discriminate].
    destruct (find (fun p => String.eqb (p_maturity_bucket p) "10Y")
                curve_points) as [p10|] eqn:F10; cbn in H; [|discriminate].
    destruct (bool_of_float (p_yield p91)) eqn:B91; cbn [andb] in H;
      [|discriminate].
    destruct (bool_of_float (p_yield p10)) eqn:B10; [|discriminate].
    injection H as <-.
    apply find_some_first in F91 as [I91 E91], F10 as [I10 E10].
    apply String.eqb_eq in E91, E10.
    apply bool_of_float_true in B91, B10.
    exists p91, p10.
    repeat (split; [assumption|]).
    apply round_rounding_of, Hscale.
  - intros p91 p10 Hnd I91 I10 E91 E10 N91 N10.
    unfold build_daily_summary. cbv zeta.
    destruct (match sorted_by_days curve_points with
              | first :: _ :: _ => _
              | _ => _
              end) as [shape slope].
    cbn [s_spread_91d_10y].
    rewrite (yield_of_bucket_point "91D" curve_points p91 Hnd I91 E91).
    rewrite (yield_of_bucket_point "10Y" curve_points p10 Hnd I10 E10).
    rewrite (proj2 (bool_of_float_true _) N91).
    rewrite (proj2 (bool_of_float_true _) N10).
    eexists. split; [reflexivity|].
    apply round_rounding_of, Hscale.
Qed.

Lemma summary_spread_needs_both_ends_witness :
  exists p91 p10 : curve_point,
    In p91 curve_10Y_then_91D /\ In p10 curve_10Y_then_91D /\
    p_maturity_bucket p91 = "91D" /\ p_maturity_bucket p10 = "10Y" /\
    ~ p_yield p91 == 0 /\ ~ p_yield p10 == 0 /\
    rounding_of 2 (Qabs (p_yield p10) + Qabs (p_yield p91))
      (p_yield p10 - p_yield p91) 7.00.
Proof.
  apply (proj1 (summary_spread_needs_both_ends "2026-01-30" []
                  curve_10Y_then_91D) 7.00).
  reflexivity.
Defined.

(** ** Volumes of the summary *)

Lemma max_by_volume_spec (rest : list metric) (best : metric) :
  exists l1 l2 : list metric,
    best :: rest = l1 ++ max_by_volume best rest :: l2 /\
    Forall (fun x => volume_or_0 x < volume_or_0 (max_by_volume best rest)) l1 /\
    Forall (fun x => volume_or_0 x <= volume_or_0 (max_by_volume best rest)) l2.
Proof.
  revert best. induction rest as [|m rest IH]; intros best;
    cbn [max_by_volume].
  - exists [], []. split; [reflexivity|]. split; constructor.
  - destruct (Qltb (volume_or_0 best) (volume_or_0 m)) eqn:E.
    + apply Qltb_lt in E.
      destruct (IH m) as (l1 & l2 & Heq & H1 & H2).
      remember (max_by_volume m rest) as M eqn:HM in *.
      assert (volume_or_0 m <= volume_or_0 M) as Hm.
      { destruct l1 as [|a l1]; cbn [app] in Heq; injection Heq as Ha Hrest.
        - rewrite Ha. apply Qle_refl.
        - subst a. apply List.Forall_cons_iff in H1 as [H1 _].
          apply Qlt_le_weak. exact H1. }
      exists (best :: l1), l2. cbn [app]. rewrite Heq.
      split; [reflexivity|]. split; [|exact H2].
      constructor; [|exact H1]. lra.
    + apply Qltb_ge in E.
      destruct (IH best) as (l1 & l2 & Heq & H1 & H2).
      remember (max_by_volume best rest) as M eqn:HM in *.
      destruct l1 as [|a l1]; cbn [app] in Heq; injection Heq as Ha Hrest.
      * rewrite <- Ha in H2 |- *.
        exists [], (m :: l2). cbn [app]. rewrite Hrest.
        split; [reflexivity|]. split; [constructor|].
        constructor; [exact E | exact H2].
      * subst a. exists (best :: m :: l1), l2. cbn [app]. rewrite Hrest.
        split; [reflexivity|]. split; [|exact H2].
        pose proof H1 as H1'.
        apply List.Forall_cons_iff in H1' as [Hb H1'].
        constructor; [exact Hb|]. constructor; [lra | exact H1'].
Qed.

(** X21.  [most_active_isin] is absent exactly when there are no metrics;
    otherwise it is the ISIN of the first metric of greatest volume (a
    missing volume counting as 0): every metric before it has a strictly
    smaller volume, none after it has a greater one. *)
Theorem most_active_isin_is_the_first_greatest_volume
    (all_metrics : list metric) :
  (most_active_isin all_metrics = None <-> all_metrics = []) /\
  (forall isin : string,
     most_active_isin all_metrics = Some isin ->
     exists (m : metric) (before after : list metric),
       all_metrics = before ++ m :: after /\ m_isin m = isin /\
       Forall (fun x => volume_or_0 x < volume_or_0 m) before /\
       Forall (fun x => volume_or_0 x <= volume_or_0 m) after).
Proof.
  unfold most_active_isin. destruct all_metrics as [|m0 rest].
  - split; [split; reflexivity | discriminate].
  - split; [split; discriminate|].
    intros isin H. injection H as <-.
    destruct (max_by_volume_spec rest m0) as (l1 & l2 & Heq & H1 & H2).
    exists (max_by_volume m0 rest), l1, l2. auto.
Qed.

Lemma most_active_isin_is_the_first_greatest_volume_witness :
  exists (m : metric) (before after : list metric),
    [metric_with_volume 10; metric_with_volume 30; metric_with_volume 30]
    = before ++ m :: after /\ m_isin m = "TB1" /\
    Forall (fun x => volume_or_0 x < volume_or_0 m) before /\
    Forall (fun x => volume_or_0 x <= volume_or_0 m) after.
Proof.
  apply (proj2 (most_active_isin_is_the_first_greatest_volume
                  [metric_with_volume 10; metric_with_volume 30;
                   metric_with_volume 30]) "TB1").
  reflexivity.
Defined.

Lemma total_volume_cons (t : string) (m : metric) (ms : list metric) :
  total_volume t (m :: ms)
  == (if String.eqb (m_security_type m) t then volume_or_0 m else 0)
     + total_volume t ms.
Proof.
  unfold total_volume. cbn [List.filter].
  destruct (String.eqb (m_security_type m) t); cbn [map].
  - apply py_sum_cons.
  - lra.
Qed.

(** X22.  The three volume totals of the summary split the volume of the
    GOG_BOND, TBILL and CORPORATE metrics between them (a missing volume
    counting as 0): their sum is the total over the metrics of these three
    types, each metric counted once, and a metric of any other type is in
    none of them. *)
Theorem summary_volumes_split_by_type (trade_date : string)
    (all_metrics : list metric) (curve_points : list curve_point) :
  let s := build_daily_summary trade_date all_metrics curve_points in
  s_total_volume_gog s + s_total_volume_tbill s + s_total_volume_corporate s
  == py_sum (map volume_or_0
               (List.filter
                  (fun m => String.eqb (m_security_type m) "GOG_BOND"
                            || String.eqb (m_security_type m) "TBILL"
                            || String.eqb (m_security_type m) "CORPORATE")
                  all_metrics)).
Proof.
  cbv zeta. unfold build_daily_summary. cbv zeta.
  destruct (match sorted_by_days curve_points with
            | first :: _ :: _ => _
            | _ => _
            end) as [shape slope].
  cbn [s_total_volume_gog s_total_volume_tbill s_total_volume_corporate].
  induction all_metrics as [|m ms IH].
  - reflexivity.
  - rewrite !total_volume_cons. cbn [List.filter].
    destruct (String.eqb (m_security_type m) "GOG_BOND") eqn:G;
      destruct (String.eqb (m_security_type m) "TBILL") eqn:T;
      destruct (String.eqb (m_security_type m) "CORPORATE") eqn:C;
      cbn [orb map]; rewrite ?py_sum_cons, <- IH;
      try lra;
      repeat match goal with
             | H : String.eqb _ _ = true |- _ => apply String.eqb_eq in H
             end; congruence.
Qed.

(** ** Yield curve: where a point lies *)

Lemma isin_to_days_of_lookup (rows : list (string * option Z)) (k : string)
    (v : option Z) :
  isin_to_days_of rows !! k = Some v -> In (k, v) rows.
Proof.
  unfold isin_to_days_of.
  assert (forall acc : gmap string (option Z),
            fold_left (fun acc r => <[fst r := snd r]> acc) rows acc !! k
            = Some v ->
            In (k, v) rows \/ acc !! k = Some v) as H.
  { induction rows as [|[k0 v0] rows IH]; intros acc Hk; cbn [fold_left] in Hk;
      [right; exact Hk|].
    destruct (IH _ Hk) as [Hin | Hacc]; [left; right; exact Hin|].
    cbn [fst snd] in Hacc.
    destruct (decide (k0 = k)) as [->|Hne].
    - rewrite lookup_insert_eq in Hacc. injection Hacc as ->.
      left. left. reflexivity.
    - rewrite lookup_insert_ne in Hacc by exact Hne. right. exact Hacc. }
  intros Hk. destruct (H ∅ Hk) as [Hin | Hempty]; [exact Hin|].
  rewrite lookup_empty in Hempty. discriminate Hempty.
Qed.

(** Every point of the curve is the average of the items of its bucket. *)
Lemma curve_points_from_entries (trade_date : string)
    (all_metrics : list metric) (gog_data : list (string * option Z))
    (cps : list curve_point) :
  build_yield_curve trade_date all_metrics gog_data = Ok cps ->
  Forall (fun p =>
            exists items : list (Z * Q),
              items <> [] /\
              Forall (counts_for (isin_to_days_of gog_data) all_metrics
                        (p_maturity_bucket p)) items /\
              p_maturity_days p
              = py_int (inject_Z (sum_int (map fst items))
                        / inject_Z (Z.of_nat (List.length items))) /\
              p_yield p
              = round (py_sum (map snd items)
                       / inject_Z (Z.of_nat (List.length items))) 4) cps.
Proof.
  intros Hcps.
  destruct (build_yield_curve_ok trade_date all_metrics gog_data)
    as (_ & Hall & cps' & Hok & _ & Hpts).
  cbv zeta in *. rewrite Hok in Hcps. injection Hcps as ->.
  unfold entries_all in Hall. clear Hok.
  induction Hpts as [|[b items] p bys' cps' Hp _ IH]; [constructor|].
  apply Forall_cons in Hall as [[Hne Hitems] Hall].
  constructor; [|apply IH; exact Hall].
  cbn [fst snd] in *.
  rewrite (curve_point_of_ok trade_date b items Hne) in Hp.
  injection Hp as <-. cbn.
  exists items. split; [exact Hne|]. split; [exact Hitems|].
  split; reflexivity.
Qed.

Lemma py_int_div (s n : Z) :
  (0 <= s)%Z -> (0 < n)%Z -> py_int (inject_Z s / inject_Z n) = (s / n)%Z.
Proof.
  intros Hs Hn. destruct n as [|n|n]; try lia.
  unfold py_int, Qdiv, Qinv, Qmult, inject_Z. cbn [Qnum Qden].
  rewrite Z.mul_1_r, Pos.mul_1_l.
  apply Z.quot_div_nonneg; lia.
Qed.

Lemma sum_int_acc (ds : list Z) (a : Z) :
  fold_left Z.add ds a = (a + sum_int ds)%Z.
Proof.
  unfold sum_int. revert a.
  induction ds as [|d ds IH]; intros a; cbn [fold_left]; [lia|].
  rewrite (IH (a + d)%Z), (IH (0 + d)%Z). lia.
Qed.

Lemma sum_int_bounds (ds : list Z) (lo hi : Z) :
  Forall (fun d => (lo <= d <= hi)%Z) ds ->
  (lo * Z.of_nat (List.length ds) <= sum_int ds
   <= hi * Z.of_nat (List.length ds))%Z.
Proof.
  induction 1 as [|d ds Hd _ IH].
  - cbn. lia.
  - unfold sum_int. cbn [fold_left]. rewrite sum_int_acc.
    cbn [List.length]. lia.
Qed.

Lemma list_Z_min_max (ds : list Z) :
  ds <> [] ->
  exists lo hi : Z,
    In lo ds /\ In hi ds /\ Forall (fun d => (lo <= d <= hi)%Z) ds.
Proof.
  induction ds as [|d ds IH]; intros H; [contradiction|].
  destruct ds as [|d' ds].
  - exists d, d. split; [left; reflexivity|]. split; [left; reflexivity|].
    constructor; [lia | constructor].
  - destruct IH as (lo & hi & Hlo & Hhi & Hall); [discriminate|].
    exists (Z.min d lo), (Z.max d hi).
    split; [destruct (Z.min_spec d lo) as [[_ ->]|[_ ->]];
            [left; reflexivity | right; exact Hlo]|].
    split; [destruct (Z.max_spec d hi) as [[_ ->]|[_ ->]];
            [right; exact Hhi | left; reflexivity]|].
    constructor; [lia|].
    eapply List.Forall_impl; [|exact Hall]. cbn. intros; lia.
Qed.

Lemma int_mean_between (ds : list Z) (lo hi : Z) :
  ds <> [] -> (0 <= lo)%Z -> Forall (fun d => (lo <= d <= hi)%Z) ds ->
  (lo <= py_int (inject_Z (sum_int ds)
                 / inject_Z (Z.of_nat (List.length ds))) <= hi)%Z.
Proof.
  intros Hne Hlo Hall.
  pose proof (sum_int_bounds ds lo hi Hall) as [Hl Hh].
  assert (0 < Z.of_nat (List.length ds))%Z as Hn
    by (destruct ds; [contradiction | cbn; lia]).
  rewrite py_int_div by nia.
  split.
  - apply Z.div_le_lower_bound; lia.
  - apply Z.div_le_upper_bound; lia.
Qed.

(** A bucket is a range: between two numbers of days of one bucket, every
    number of days is of that bucket. *)
Lemma get_maturity_bucket_convex (a x c : Z) :
  (0 <= a <= x)%Z -> (x <= c)%Z ->
  get_maturity_bucket a = get_maturity_bucket c ->
  get_maturity_bucket x = get_maturity_bucket a.
Proof.
  intros Ha Hc Hac.
  destruct (get_maturity_bucket_cases a (proj1 Ha))
    as [[H1 E1]|[[H1 E1]|[[H1 E1]|[[H1 E1]|[[H1 E1]|[[H1 E1]|[[H1 E1]|[[H1 E1]|[H1 E1]]]]]]]]];
    rewrite E1 in *;
    (destruct (get_maturity_bucket_cases c ltac:(lia))
      as [[H2 E2]|[[H2 E2]|[[H2 E2]|[[H2 E2]|[[H2 E2]|[[H2 E2]|[[H2 E2]|[[H2 E2]|[H2 E2]]]]]]]]];
     rewrite E2 in Hac; try discriminate Hac);
    (destruct (get_maturity_bucket_cases x ltac:(lia))
      as [[H3 E3]|[[H3 E3]|[[H3 E3]|[[H3 E3]|[[H3 E3]|[[H3 E3]|[[H3 E3]|[[H3 E3]|[H3 E3]]]]]]]]];
     try (exfalso; lia); exact E3).
Qed.

(** X23.  When no days to maturity in the lookup is negative, every point
    of the curve lies in its own bucket: its [maturity_days], the whole
    part of the mean of the days of its bucket, is positive and
    [get_maturity_bucket] maps it back to the point's bucket. *)
Theorem curve_point_days_fall_in_its_bucket (trade_date : string)
    (all_metrics : list metric) (gog_data : list (string * option Z))
    (cps : list curve_point) :
  (forall (isin : string) (days : Z),
     In (isin, Some days) gog_data -> (0 <= days)%Z) ->
  build_yield_curve trade_date all_metrics gog_data = Ok cps ->
  Forall (fun p => (0 < p_maturity_days p)%Z /\
                   get_maturity_bucket (p_maturity_days p)
                   = p_maturity_bucket p) cps.
Proof.
  intros Hpos Hcps.
  eapply List.Forall_impl; [|exact (curve_points_from_entries _ _ _ _ Hcps)].
  cbn beta. intros p (items & Hne & Hitems & -> & _).
  assert (Forall (fun d => (0 < d)%Z /\
                           get_maturity_bucket d = p_maturity_bucket p)
                 (map fst items)) as Hds.
  { apply List.Forall_forall. intros d Hd.
    apply in_map_iff in Hd as (item & <- & Hitem).
    apply (proj1 (List.Forall_forall _ _) Hitems) in Hitem
      as (m & _ & _ & _ & _ & D & Dnz & B).
    split; [|exact B].
    destruct (isin_to_days_of gog_data !! m_isin m) as [v|] eqn:L;
      [|discriminate D].
    cbn in D. subst v. apply isin_to_days_of_lookup in L.
    specialize (Hpos _ _ L). lia. }
  assert (map fst items <> []) as Hne' by (destruct items; [contradiction | discriminate]).
  destruct (list_Z_min_max (map fst items) Hne') as (lo & hi & Hlo & Hhi & Hall).
  pose proof (proj1 (List.Forall_forall _ _) Hds lo Hlo) as [Hlo0 Blo].
  pose proof (proj1 (List.Forall_forall _ _) Hds hi Hhi) as [_ Bhi].
  rewrite <- (length_map fst items).
  pose proof (int_mean_between (map fst items) lo hi Hne' ltac:(lia) Hall)
    as Hmean.
  split; [lia|].
  rewrite <- Blo. apply (get_maturity_bucket_convex lo _ hi); [lia | lia|].
  rewrite Blo, Bhi. reflexivity.
Qed.

Lemma curve_point_days_fall_in_its_bucket_witness :
  Forall (fun p => (0 < p_maturity_days p)%Z /\
                   get_maturity_bucket (p_maturity_days p)
                   = p_maturity_bucket p) curve_of_TB1.
Proof.
  apply (curve_point_days_fall_in_its_bucket "2026-01-30"
           [metric_with_volume 3000000] [("TB1", Some 91%Z)] curve_of_TB1).
  - intros isin days [E | []]. injection E as _ <-. lia.
  - vm_compute. reflexivity.
Defined.

Lemma py_sum_bounds (ys : list Q) (lo hi : Q) :
  Forall (fun y => lo <= y <= hi) ys ->
  lo * inject_Z (Z.of_nat (List.length ys)) <= py_sum ys
  /\ py_sum ys <= hi * inject_Z (Z.of_nat (List.length ys)).
Proof.
  induction 1 as [|y ys Hy _ IH].
  - unfold py_sum. cbn [fold_left List.length].
    change (inject_Z (Z.of_nat 0)) with 0. split; lra.
  - rewrite py_sum_cons.
    replace (Z.of_nat (List.length (y :: ys)))
      with (1 + Z.of_nat (List.length ys))%Z by (cbn [List.length]; lia).
    rewrite inject_Z_plus. change (inject_Z 1) with 1. split; lra.
Qed.

Lemma list_Q_min_max (ys : list Q) :
  ys <> [] ->
  exists lo hi : Q,
    In lo ys /\ In hi ys /\ Forall (fun y => lo <= y <= hi) ys.
Proof.
  induction ys as [|y ys IH]; intros H; [contradiction|].
  destruct ys as [|y' ys].
  - exists y, y. split; [left; reflexivity|]. split; [left; reflexivity|].
    constructor; [split; apply Qle_refl | constructor].
  - destruct IH as (lo & hi & Hlo & Hhi & Hall); [discriminate|].
    assert (exists lo', In lo' (y :: y' :: ys) /\ lo' <= y /\ lo' <= lo)
      as (lo' & Hlo' & A1 & A2).
    { destruct (Qlt_le_dec y lo) as [L|L].
      - exists y. split; [left; reflexivity|]. split; lra.
      - exists lo. split; [right; exact Hlo|]. split; lra. }
    assert (exists hi', In hi' (y :: y' :: ys) /\ y <= hi' /\ hi <= hi')
      as (hi' & Hhi' & B1 & B2).
    { destruct (Qlt_le_dec hi y) as [L|L].
      - exists y. split; [left; reflexivity|]. split; lra.
      - exists hi. split; [right; exact Hhi|]. split; lra. }
    exists lo', hi'. split; [exact Hlo'|]. split; [exact Hhi'|].
    constructor; [split; assumption|].
    eapply List.Forall_impl; [|exact Hall]. cbn beta. intros z [? ?].
    split; lra.
Qed.

Lemma float_mean_between (ys : list Q) (lo hi : Q) :
  ys <> [] -> Forall (fun y => lo <= y <= hi) ys ->
  lo <= py_sum ys / inject_Z (Z.of_nat (List.length ys)) <= hi.
Proof.
  intros Hne Hall.
  destruct (py_sum_bounds ys lo hi Hall) as [Hl Hh].
  assert (0 < inject_Z (Z.of_nat (List.length ys))) as Hn.
  { destruct ys; [contradiction|]. cbn [List.length].
    rewrite <- (Zlt_Qlt 0). lia. }
  split.
  - apply Qle_shift_div_l; assumption.
  - apply Qle_shift_div_r; assumption.
Qed.

(** X24.  The yield of a curve point lies between the smallest and the
    greatest [ytm], each rounded to 4 decimals, among the metrics that
    count for its bucket (GOG_BOND or TBILL, non-zero [ytm], non-zero days
    in the lookup that fall into the bucket). *)
Theorem curve_point_yield_is_within_its_bucket (trade_date : string)
    (all_metrics : list metric) (gog_data : list (string * option Z))
    (cps : list curve_point) :
  build_yield_curve trade_date all_metrics gog_data = Ok cps ->
  Forall (fun p =>
            exists item_lo item_hi : Z * Q,
              counts_for (isin_to_days_of gog_data) all_metrics
                (p_maturity_bucket p) item_lo /\
              counts_for (isin_to_days_of gog_data) all_metrics
                (p_maturity_bucket p) item_hi /\
              round (snd item_lo) 4 <= p_yield p <= round (snd item_hi) 4) cps.
Proof.
  intros Hcps.
  eapply List.Forall_impl; [|exact (curve_points_from_entries _ _ _ _ Hcps)].
  cbn beta. intros p (items & Hne & Hitems & _ & ->).
  assert (map snd items <> []) as Hne'
    by (destruct items; [contradiction | discriminate]).
  destruct (list_Q_min_max (map snd items) Hne') as (lo & hi & Hlo & Hhi & Hall).
  apply in_map_iff in Hlo as (item_lo & <- & Hlo).
  apply in_map_iff in Hhi as (item_hi & <- & Hhi).
  exists item_lo, item_hi.
  split; [exact (proj1 (List.Forall_forall _ _) Hitems _ Hlo)|].
  split; [exact (proj1 (List.Forall_forall _ _) Hitems _ Hhi)|].
  rewrite <- (length_map snd items).
  destruct (float_mean_between (map snd items) _ _ Hne' Hall) as [A B].
  split; apply round_mono; assumption.
Qed.

Lemma curve_point_yield_is_within_its_bucket_witness :
  Forall (fun p =>
            exists item_lo item_hi : Z * Q,
              counts_for (isin_to_days_of [("TB1", Some 91%Z)])
                [metric_with_volume 3000000] (p_maturity_bucket p) item_lo /\
              counts_for (isin_to_days_of [("TB1", Some 91%Z)])
                [metric_with_volume 3000000] (p_maturity_bucket p) item_hi /\
              round (snd item_lo) 4 <= p_yield p <= round (snd item_hi) 4)
         curve_of_TB1.
Proof.
  apply (curve_point_yield_is_within_its_bucket "2026-01-30"
           [metric_with_volume 3000000] [("TB1", Some 91%Z)] curve_of_TB1).
  vm_compute. reflexivity.
Defined.

(** ** The run *)

(** The row of a metric, key by key. *)
Lemma normalized_metric_row (m : metric) :
  let d := normalize_metric_record pyvalue (metric_to_dict m) in
  d !! "date" = Some (Some (VStr (m_date m))) /\
  d !! "isin" = Some (Some (VStr (m_isin m))) /\
  d !! "security_type" = Some (Some (VStr (m_security_type m))) /\
  d !! "ytm" = Some (VFloat <$> m_ytm m) /\
  d !! "discount_yield" = Some (VFloat <$> m_discount_yield m) /\
  d !! "bond_equivalent_yield" = Some (VFloat <$> m_bond_equivalent_yield m) /\
  d !! "real_yield" = Some (VFloat <$> m_real_yield m) /\
  d !! "coupon_rate" = Some (VFloat <$> m_coupon_rate m) /\
  d !! "volume" = Some (VFloat <$> m_volume m) /\
  d !! "turnover_ratio" = Some None /\
  d !! "hl_spread" = Some (VFloat <$> m_hl_spread m) /\
  d !! "liquidity_score" = Some (VStr <$> m_liquidity_score m) /\
  d !! "modified_duration" = Some (VFloat <$> m_modified_duration m) /\
  d !! "convexity" = Some None /\
  d !! "z_spread" = Some None /\
  d !! "corporate_spread" = Some None /\
  d !! "benchmark_yield" = Some (VFloat <$> m_benchmark_yield m) /\
  d !! "spread_vs_govt" = Some (VFloat <$> m_spread_vs_govt m) /\
  d !! "volume_avg_30d" = Some (VFloat <$> m_volume_avg_30d m) /\
  d !! "volume_spike_flag" = Some (VBool <$> m_volume_spike_flag m) /\
  d !! "liquidity_flag" = Some (VStr <$> m_liquidity_flag m).
Proof.
  cbv zeta. repeat split; reflexivity.
Qed.

(** What the spread calculator leaves of a metric. *)
Lemma corporate_spread_step_fields (bucket_to_yield : gmap string Q)
    (isin_to_days : gmap string (option Z)) (m : metric) :
  let m1 := fst (corporate_spread_step bucket_to_yield isin_to_days m) in
  (m_date m1 = m_date m /\ m_isin m1 = m_isin m /\
   m_security_type m1 = m_security_type m /\ m_ytm m1 = m_ytm m /\
   m_discount_yield m1 = m_discount_yield m /\
   m_bond_equivalent_yield m1 = m_bond_equivalent_yield m /\
   m_real_yield m1 = m_real_yield m /\ m_coupon_rate m1 = m_coupon_rate m /\
   m_volume m1 = m_volume m /\ m_hl_spread m1 = m_hl_spread m /\
   m_liquidity_score m1 = m_liquidity_score m /\
   m_modified_duration m1 = m_modified_duration m) /\
  (m_volume_avg_30d m1 = m_volume_avg_30d m /\
   m_volume_spike_flag m1 = m_volume_spike_flag m /\
   m_liquidity_flag m1 = m_liquidity_flag m) /\
  ((m_benchmark_yield m1 = m_benchmark_yield m /\
    m_spread_vs_govt m1 = m_spread_vs_govt m) \/
   (m_security_type m = "CORPORATE" /\
    exists benchmark spread : Q,
      m_benchmark_yield m1 = Some benchmark /\
      m_spread_vs_govt m1 = Some spread)) /\
  Forall (fun a => a_date a = m_date m /\ a_isin a = m_isin m)
         (snd (corporate_spread_step bucket_to_yield isin_to_days m)).
Proof.
  cbv zeta.
  destruct (corporate_spread_step_cases bucket_to_yield isin_to_days m)
    as [E | (ytm & benchmark & T & _ & [[_ E] | [_ E]])];
    cbv zeta in E; rewrite E; cbn [fst snd].
  - split; [repeat split|]. split; [repeat split|].
    split; [left; split; reflexivity | constructor].
  - split; [repeat split|]. split; [repeat split|].
    split; [right; split; [exact T | eauto] | constructor].
  - split; [repeat split|]. split; [repeat split|].
    split; [right; split; [exact T | eauto]|].
    constructor; [split; reflexivity | constructor].
Qed.

(** What the spike detector leaves of a metric. *)
Lemma volume_spike_step_fields
    (history : string -> string -> result (list (option Q)))
    (trade_date : string) (m : metric) :
  let m2 := fst (volume_spike_step history trade_date m) in
  (m_date m2 = m_date m /\ m_isin m2 = m_isin m /\
   m_security_type m2 = m_security_type m /\ m_ytm m2 = m_ytm m /\
   m_discount_yield m2 = m_discount_yield m /\
   m_bond_equivalent_yield m2 = m_bond_equivalent_yield m /\
   m_real_yield m2 = m_real_yield m /\ m_coupon_rate m2 = m_coupon_rate m /\
   m_volume m2 = m_volume m /\ m_hl_spread m2 = m_hl_spread m /\
   m_liquidity_score m2 = m_liquidity_score m /\
   m_modified_duration m2 = m_modified_duration m) /\
  (m_benchmark_yield m2 = m_benchmark_yield m /\
   m_spread_vs_govt m2 = m_spread_vs_govt m) /\
  ((m_liquidity_flag m2 = Some "STALE" /\
    (m_volume m = None \/ exists v, m_volume m = Some v /\ v <= 0) /\
    m_volume_avg_30d m2 = m_volume_avg_30d m /\
    m_volume_spike_flag m2 = m_volume_spike_flag m) \/
   (m_liquidity_flag m2 = Some "ACTIVE" /\
    (exists v, m_volume m = Some v /\ 0 < v) /\
    ((m_volume_avg_30d m2 = m_volume_avg_30d m /\
      m_volume_spike_flag m2 = m_volume_spike_flag m) \/
     (exists (avg : Q) (flag : bool),
        m_volume_avg_30d m2 = Some avg /\
        m_volume_spike_flag m2 = Some flag)))) /\
  Forall (fun a => a_date a = trade_date /\ a_isin a = m_isin m)
         (snd (volume_spike_step history trade_date m)).
Proof.
  cbv zeta.
  destruct (volume_spike_step_cases history trade_date m)
    as [[Hv E] | (v & Hvol & Hv &
                  [E | (avg & data & _ & [E | (a & _ & _ & A & B & E)])])];
    rewrite E; cbn [fst snd].
  - split; [repeat split|]. split; [repeat split|].
    split; [left; repeat split; [exact Hv] | constructor].
  - split; [repeat split|]. split; [repeat split|].
    split; [right; split; [reflexivity|]; split; [eauto|];
            left; split; reflexivity | constructor].
  - split; [repeat split|]. split; [repeat split|].
    split; [right; split; [reflexivity|]; split; [eauto|];
            right; cbn; eauto | constructor].
  - split; [repeat split|]. split; [repeat split|].
    split; [right; split; [reflexivity|]; split; [eauto|];
            right; cbn; eauto|].
    constructor; [split; assumption | constructor].
Qed.

Section RunFacts.

Variable float : string -> option Q.
Variable libm_pow : Q -> Q -> Q.

(** A metric as a builder leaves it. *)
Lemma built_metric_is_fresh (trade_date : string) (s : store) (m : metric) :
  In m (collect_all_metrics float libm_pow trade_date s) ->
  m_date m = trade_date /\
  (m_security_type m = "GOG_BOND" \/ m_security_type m = "TBILL" \/
   m_security_type m = "CORPORATE") /\
  m_benchmark_yield m = None /\ m_spread_vs_govt m = None /\
  m_volume_avg_30d m = None /\ m_volume_spike_flag m = None /\
  m_liquidity_flag m = None.
Proof.
  unfold collect_all_metrics. rewrite !in_app_iff.
  unfold process_gog_bonds, process_tbills, process_corporate.
  rewrite !in_collect.
  intros [(r & _ & H) | [(r & _ & H) | [(r & _ & H) | (r & _ & H)]]].
  - unfold process_gog_row in H.
    apply bind_ok_inv in H as (? & _ & H).
    apply bind_ok_inv in H as (? & _ & H).
    apply bind_ok_inv in H as (? & _ & H).
    injection H as <-. cbn. auto 10.
  - unfold process_gog_row in H.
    apply bind_ok_inv in H as (? & _ & H).
    apply bind_ok_inv in H as (? & _ & H).
    apply bind_ok_inv in H as (? & _ & H).
    injection H as <-. cbn. auto 10.
  - unfold process_tbill_row in H.
    apply bind_ok_inv in H as (? & _ & H).
    apply bind_ok_inv in H as (? & _ & H).
    injection H as <-. cbn. auto 10.
  - unfold process_corporate_row in H.
    apply bind_ok_inv in H as (? & _ & H).
    apply bind_ok_inv in H as (? & _ & H).
    apply bind_ok_inv in H as (? & _ & H).
    injection H as <-. cbn. auto 10.
Qed.

(** The run, once the curve is known not to raise. *)
Lemma run_quant_engine_ok (trade_date : string) (s : store) :
  let built := collect_all_metrics float libm_pow trade_date s in
  exists cps : list curve_point,
    build_yield_curve trade_date built
      (isin_and_days (st_new_gog s) ++ isin_and_days (st_old_gog s)
       ++ isin_and_days (st_treasury_bills s)) = Ok cps /\
    let step1 :=
      corporate_spread_step (bucket_to_yield_of cps)
        (isin_to_days_of (isin_and_days (st_corporate_all_dates s))) in
    let step2 := volume_spike_step (st_history s) trade_date in
    let spread := map (fun m => fst (step1 m)) built in
    let final := map (fun m => fst (step2 m)) spread in
    let alerts :=
      flat_map (fun m => snd (step1 m)) built
      ++ flat_map (fun m => snd (step2 m)) spread in
    run_quant_engine float libm_pow trade_date s
    = Ok ((match final with
           | [] => []
           | _ :: _ =>
               [UpsertSecurityMetrics
                  (map (fun m => normalize_metric_record pyvalue
                                   (metric_to_dict m)) final)]
           end)
          ++ (match cps with
              | [] => []
              | _ :: _ => [UpsertYieldCurvePoints cps]
              end)
          ++ [UpsertDailyMarketSummary (build_daily_summary trade_date final cps)]
          ++ (match alerts with
              | [] => []
              | _ :: _ => [InsertMarketAlerts alerts]
              end)).
Proof.
  cbv zeta.
  destruct (build_yield_curve_ok trade_date
              (collect_all_metrics float libm_pow trade_date s)
              (isin_and_days (st_new_gog s) ++ isin_and_days (st_old_gog s)
               ++ isin_and_days (st_treasury_bills s)))
    as (_ & _ & cps & Hok & _).
  exists cps. split; [exact Hok|].
  unfold run_quant_engine. cbv zeta. rewrite Hok. cbn [bind].
  unfold calculate_corporate_spreads, detect_volume_spikes.
  rewrite !for_each_metric_spec. reflexivity.
Qed.

End RunFacts.

Lemma build_yield_curve_dates (trade_date : string) (all_metrics : list metric)
    (gog_data : list (string * option Z)) (cps : list curve_point) :
  build_yield_curve trade_date all_metrics gog_data = Ok cps ->
  Forall (fun p => p_date p = trade_date) cps.
Proof.
  intros Hcps.
  destruct (build_yield_curve_ok trade_date all_metrics gog_data)
    as (_ & _ & cps' & Hok & _ & Hpts).
  cbv zeta in *. rewrite Hok in Hcps. injection Hcps as ->. clear Hok.
  induction Hpts as [|[b items] p bys' cps' Hp _ IH]; constructor;
    [|exact IH].
  unfold curve_point_of in Hp.
  apply bind_ok_inv in Hp as (? & _ & Hp).
  apply bind_ok_inv in Hp as (? & _ & Hp).
  injection Hp as <-. reflexivity.
Qed.

Lemma build_daily_summary_date (trade_date : string)
    (all_metrics : list metric) (curve_points : list curve_point) :
  s_date (build_daily_summary trade_date all_metrics curve_points) = trade_date.
Proof.
  unfold build_daily_summary. cbv zeta.
  destruct (match sorted_by_days curve_points with
            | first :: _ :: _ => _
            | _ => _
            end) as [shape slope].
  reflexivity.
Qed.

Lemma Forall2_map_right {A B : Type} (P : A -> B -> Prop) (f : A -> B)
    (l : list A) :
  (forall x, In x l -> P x (f x)) -> Forall2 P l (map f l).
Proof.
  induction l as [|x l IH]; intros H; cbn [map]; constructor.
  - apply H. left. reflexivity.
  - apply IH. intros y Hy. apply H. right. exact Hy.
Qed.

(** The rows of the [security_metrics] write of a run. *)
Lemma run_security_metrics_rows (float : string -> option Q)
    (libm_pow : Q -> Q -> Q) (trade_date : string) (s : store)
    (ws : list write) (rows : list (gmap string (option pyvalue))) :
  run_quant_engine float libm_pow trade_date s = Ok ws ->
  In (UpsertSecurityMetrics rows) ws ->
  exists (bucket_to_yield : gmap string Q)
         (isin_to_days : gmap string (option Z)),
    rows
    = map (fun m =>
             normalize_metric_record pyvalue
               (metric_to_dict
                  (fst (volume_spike_step (st_history s) trade_date
                          (fst (corporate_spread_step bucket_to_yield
                                  isin_to_days m))))))
          (collect_all_metrics float libm_pow trade_date s).
Proof.
  intros Hrun Hin.
  destruct (run_quant_engine_ok float libm_pow trade_date s)
    as (cps & _ & Heq).
  cbv zeta in Heq. rewrite Heq in Hrun. injection Hrun as <-.
  do 2 eexists.
  rewrite !in_app_iff in Hin. destruct Hin as [Hin | [Hin | [Hin | Hin]]].
  - match type of Hin with
    | In _ (match ?l with [] => _ | _ :: _ => _ end) =>
        remember l as final eqn:E
    end.
    assert (rows = map (fun m => normalize_metric_record pyvalue
                                   (metric_to_dict m)) final) as ->.
    { clear E. destruct final as [|m0 ms]; [contradiction|].
      destruct Hin as [Hin | []]. injection Hin as <-. reflexivity. }
    rewrite E, !map_map. reflexivity.
  - destruct cps; [contradiction|]. destruct Hin as [Hin | []]. discriminate Hin.
  - discriminate Hin.
  - match type of Hin with
    | In _ (match ?l with [] => _ | _ :: _ => _ end) => destruct l
    end; [contradiction|].
    destruct Hin as [Hin | []]. discriminate Hin.
Qed.

(** X25.  A run never raises on its own account and always writes the
    daily summary, even when no row was processed; it never sends an empty
    batch; and everything it writes carries the trade date: every metric
    row, every curve point, the summary and every alert, whose ISIN is that
    of a metric built in this run. *)
Theorem run_writes_carry_the_trade_date (float : string -> option Q)
    (libm_pow : Q -> Q -> Q) (trade_date : string) (s : store) :
  exists ws : list write,
    run_quant_engine float libm_pow trade_date s = Ok ws /\
    (exists row : summary, In (UpsertDailyMarketSummary row) ws) /\
    Forall
      (fun w =>
         match w with
         | UpsertSecurityMetrics rows =>
             rows <> [] /\
             Forall (fun d => d !! "date" = Some (Some (VStr trade_date))) rows
         | UpsertYieldCurvePoints rows =>
             rows <> [] /\ Forall (fun p => p_date p = trade_date) rows
         | UpsertDailyMarketSummary row => s_date row = trade_date
         | InsertMarketAlerts rows =>
             rows <> [] /\
             Forall (fun a =>
                       a_date a = trade_date /\
                       In (a_isin a)
                          (map m_isin
                             (collect_all_metrics float libm_pow trade_date s)))
                    rows
         end) ws.
Proof.
  destruct (run_quant_engine_ok float libm_pow trade_date s)
    as (cps & Hcps & Heq).
  cbv zeta in Heq. eexists. split; [exact Heq|]. split.
  { eexists. apply in_or_app. right. apply in_or_app. right.
    left. reflexivity. }
  set (built := collect_all_metrics float libm_pow trade_date s) in *.
  assert (forall m, In m built -> m_date m = trade_date) as Hdate.
  { intros m Hm. apply (built_metric_is_fresh _ _ _ _ _ Hm). }
  apply Forall_app. split; [|apply Forall_app; split; [|apply Forall_app; split]].
  - match goal with
    | |- Forall _ (match ?l with [] => _ | _ :: _ => _ end) =>
        remember l as final eqn:E
    end.
    destruct final as [|m0 ms]; constructor; [|constructor].
    split; [discriminate|]. rewrite E.
    apply List.Forall_forall. intros d Hd.
    apply in_map_iff in Hd as (m2 & <- & Hm2).
    apply in_map_iff in Hm2 as (m1 & <- & Hm1).
    apply in_map_iff in Hm1 as (m & <- & Hm).
    match goal with
    | |- normalize_metric_record _ (metric_to_dict ?x) !! _ = _ =>
        destruct (normalized_metric_row x) as (-> & _)
    end.
    do 3 f_equal.
    match goal with
    | |- context [volume_spike_step ?h ?t ?x] =>
        destruct (volume_spike_step_fields h t x) as ((-> & _) & _)
    end.
    match goal with
    | |- context [corporate_spread_step ?b ?i ?x] =>
        destruct (corporate_spread_step_fields b i x) as ((-> & _) & _)
    end.
    apply Hdate, Hm.
  - destruct cps as [|p cps]; constructor; [|constructor].
    split; [discriminate|]. exact (build_yield_curve_dates _ _ _ _ Hcps).
  - constructor; [apply build_daily_summary_date | constructor].
  - match goal with
    | |- Forall _ (match ?l with [] => _ | _ :: _ => _ end) =>
        remember l as alerts eqn:E
    end.
    destruct alerts as [|a0 al]; constructor; [|constructor].
    split; [discriminate|]. rewrite E.
    apply Forall_app. split; apply List.Forall_forall; intros a Ha;
      apply in_flat_map in Ha as (m & Hm & Ha).
    + match type of Ha with
      | context [corporate_spread_step ?b ?i ?x] =>
          destruct (corporate_spread_step_fields b i x) as (_ & _ & _ & Hal)
      end.
      apply (proj1 (List.Forall_forall _ _) Hal) in Ha as [-> ->].
      split; [apply Hdate, Hm | apply in_map, Hm].
    + apply in_map_iff in Hm as (m0 & <- & Hm0).
      match type of Ha with
      | context [volume_spike_step ?h ?t ?x] =>
          destruct (volume_spike_step_fields h t x) as (_ & _ & _ & Hal)
      end.
      apply (proj1 (List.Forall_forall _ _) Hal) in Ha as [-> ->].
      split; [reflexivity|].
      match goal with
      | |- context [corporate_spread_step ?b ?i ?x] =>
          destruct (corporate_spread_step_fields b i x) as ((_ & -> & _) & _)
      end.
      apply in_map, Hm0.
Qed.

(** X26.  The [security_metrics] write of a run has one row per metric the
    four builders emitted, in their order (new GOG, old GOG, T-bills,
    corporate), and the spread calculator and the spike detector change
    nothing of what the builders computed: date, ISIN, type, the yields,
    coupon, volume, high/low spread, liquidity score and duration of a row
    are those of its metric. *)
Theorem run_rows_keep_what_the_builders_computed (float : string -> option Q)
    (libm_pow : Q -> Q -> Q) (trade_date : string) (s : store)
    (ws : list write) (rows : list (gmap string (option pyvalue))) :
  run_quant_engine float libm_pow trade_date s = Ok ws ->
  In (UpsertSecurityMetrics rows) ws ->
  Forall2
    (fun m d =>
       d !! "date" = Some (Some (VStr (m_date m))) /\
       d !! "isin" = Some (Some (VStr (m_isin m))) /\
       d !! "security_type" = Some (Some (VStr (m_security_type m))) /\
       d !! "ytm" = Some (VFloat <$> m_ytm m) /\
       d !! "discount_yield" = Some (VFloat <$> m_discount_yield m) /\
       d !! "bond_equivalent_yield"
         = Some (VFloat <$> m_bond_equivalent_yield m) /\
       d !! "real_yield" = Some (VFloat <$> m_real_yield m) /\
       d !! "coupon_rate" = Some (VFloat <$> m_coupon_rate m) /\
       d !! "volume" = Some (VFloat <$> m_volume m) /\
       d !! "hl_spread" = Some (VFloat <$> m_hl_spread m) /\
       d !! "liquidity_score" = Some (VStr <$> m_liquidity_score m) /\
       d !! "modified_duration" = Some (VFloat <$> m_modified_duration m))
    (collect_all_metrics float libm_pow trade_date s) rows.
Proof.
  intros Hrun Hin.
  destruct (run_security_metrics_rows float libm_pow trade_date s ws rows
              Hrun Hin) as (b & i & ->).
  apply Forall2_map_right. intros m _.
  destruct (normalized_metric_row
              (fst (volume_spike_step (st_history s) trade_date
                      (fst (corporate_spread_step b i m)))))
    as (D1 & D2 & D3 & D4 & D5 & D6 & D7 & D8 & D9 & _ & D11 & D12 & D13 & _).
  rewrite D1, D2, D3, D4, D5, D6, D7, D8, D9, D11, D12, D13.
  destruct (volume_spike_step_fields (st_history s) trade_date
              (fst (corporate_spread_step b i m)))
    as ((-> & -> & -> & -> & -> & -> & -> & -> & -> & -> & -> & ->) & _).
  destruct (corporate_spread_step_fields b i m)
    as ((-> & -> & -> & -> & -> & -> & -> & -> & -> & -> & -> & ->) & _).
  repeat split; reflexivity.
Qed.

Lemma writes_of_one_tbill_run :
  run_quant_engine float_decimal_examples (fun _ _ => 1) "2026-01-30"
    store_with_one_tbill = Ok writes_of_one_tbill.
Proof. vm_compute. reflexivity. Qed.

Lemma rows_of_one_tbill_written :
  In (UpsertSecurityMetrics rows_of_one_tbill) writes_of_one_tbill.
Proof. left. vm_compute. reflexivity. Qed.

Lemma run_rows_keep_what_the_builders_computed_witness :
  Forall2
    (fun m d =>
       d !! "date" = Some (Some (VStr (m_date m))) /\
       d !! "isin" = Some (Some (VStr (m_isin m))) /\
       d !! "security_type" = Some (Some (VStr (m_security_type m))) /\
       d !! "ytm" = Some (VFloat <$> m_ytm m) /\
       d !! "discount_yield" = Some (VFloat <$> m_discount_yield m) /\
       d !! "bond_equivalent_yield"
         = Some (VFloat <$> m_bond_equivalent_yield m) /\
       d !! "real_yield" = Some (VFloat <$> m_real_yield m) /\
       d !! "coupon_rate" = Some (VFloat <$> m_coupon_rate m) /\
       d !! "volume" = Some (VFloat <$> m_volume m) /\
       d !! "hl_spread" = Some (VFloat <$> m_hl_spread m) /\
       d !! "liquidity_score" = Some (VStr <$> m_liquidity_score m) /\
       d !! "modified_duration" = Some (VFloat <$> m_modified_duration m))
    (collect_all_metrics float_decimal_examples (fun _ _ => 1) "2026-01-30"
       store_with_one_tbill)
    rows_of_one_tbill.
Proof.
  apply (run_rows_keep_what_the_builders_computed float_decimal_examples
           (fun _ _ => 1) "2026-01-30" store_with_one_tbill
           writes_of_one_tbill rows_of_one_tbill).
  - exact writes_of_one_tbill_run.
  - exact rows_of_one_tbill_written.
Defined.

(** X27.  Every row of the [security_metrics] write of a run has exactly
    the 21 keys of the schema.  Four of them are never filled
    ([turnover_ratio], [convexity], [z_spread], [corporate_spread]).  The
    liquidity flag is always set: ACTIVE with a positive volume, STALE
    otherwise, and a STALE row has no [volume_avg_30d].  [benchmark_yield]
    and [spread_vs_govt] are filled together and only on CORPORATE rows;
    [volume_avg_30d] and [volume_spike_flag] are filled together. *)
Theorem run_rows_have_the_uniform_schema (float : string -> option Q)
    (libm_pow : Q -> Q -> Q) (trade_date : string) (s : store)
    (ws : list write) (rows : list (gmap string (option pyvalue))) :
  run_quant_engine float libm_pow trade_date s = Ok ws ->
  In (UpsertSecurityMetrics rows) ws ->
  Forall
    (fun d =>
       dom d = list_to_set METRIC_KEYS /\
       (d !! "turnover_ratio" = Some None /\ d !! "convexity" = Some None /\
        d !! "z_spread" = Some None /\ d !! "corporate_spread" = Some None) /\
       ((d !! "liquidity_flag" = Some (Some (VStr "ACTIVE")) /\
         exists v : Q, d !! "volume" = Some (Some (VFloat v)) /\ 0 < v) \/
        (d !! "liquidity_flag" = Some (Some (VStr "STALE")) /\
         (d !! "volume" = Some None \/
          exists v : Q, d !! "volume" = Some (Some (VFloat v)) /\ v <= 0) /\
         d !! "volume_avg_30d" = Some None)) /\
       (d !! "benchmark_yield" = Some None <->
        d !! "spread_vs_govt" = Some None) /\
       (d !! "benchmark_yield" <> Some None ->
        d !! "security_type" = Some (Some (VStr "CORPORATE"))) /\
       (d !! "volume_avg_30d" = Some None <->
        d !! "volume_spike_flag" = Some None))
    rows.
Proof.
  intros Hrun Hin.
  destruct (run_security_metrics_rows float libm_pow trade_date s ws rows
              Hrun Hin) as (b & i & ->).
  apply List.Forall_forall. intros d Hd.
  apply in_map_iff in Hd as (m & <- & Hm).
  destruct (built_metric_is_fresh float libm_pow trade_date s m Hm)
    as (_ & _ & F1 & F2 & F3 & F4 & _).
  split.
  { apply set_eq. intros k.
    rewrite elem_of_dom, normalize_metric_record_lookup, elem_of_list_to_set.
    destruct (decide (k ∈ METRIC_KEYS)) as [H|H].
    - split; [intros _; exact H | intros _; eexists; reflexivity].
    - split; [intros [? E]; discriminate E | intros H'; contradiction]. }
  destruct (normalized_metric_row
              (fst (volume_spike_step (st_history s) trade_date
                      (fst (corporate_spread_step b i m)))))
    as (_ & _ & D3 & _ & _ & _ & _ & _ & D9 & D10 & _ & _ & _ & D14 & D15
        & D16 & D17 & D18 & D19 & D20 & D21).
  rewrite D3, D9, D10, D14, D15, D16, D17, D18, D19, D20, D21.
  destruct (volume_spike_step_fields (st_history s) trade_date
              (fst (corporate_spread_step b i m)))
    as ((_ & _ & -> & _ & _ & _ & _ & _ & -> & _) & (-> & ->) & Hflag & _).
  destruct (corporate_spread_step_fields b i m)
    as ((_ & _ & T & _ & _ & _ & _ & _ & V & _) & (A1 & A2 & _) & Hspread & _).
  rewrite T, V in *. rewrite A1, A2, F3, F4 in Hflag.
  split; [repeat split; reflexivity|].
  split; [|split; [|split]].
  - destruct Hflag as [(-> & Hv & -> & _) | (-> & (v & Hv & Hpos) & _)].
    + right. split; [reflexivity|]. split; [|reflexivity].
      destruct Hv as [-> | (v & -> & Hv)]; [left; reflexivity | right; eauto].
    + left. split; [reflexivity|]. rewrite Hv. eauto.
  - destruct Hspread as [[-> ->] | (_ & bm & sp & -> & ->)].
    + rewrite F1, F2. split; reflexivity.
    + split; discriminate.
  - destruct Hspread as [[-> _] | (-> & _)].
    + rewrite F1. intros H. contradiction H.
    + intros _. reflexivity.
  - destruct Hflag as [(_ & _ & -> & ->) | (_ & _ & [[-> ->] | (avg & fl & -> & ->)])].
    + split; reflexivity.
    + split; reflexivity.
    + split; discriminate.
Qed.

Lemma run_rows_have_the_uniform_schema_witness :
  Forall
    (fun d =>
       dom d = list_to_set METRIC_KEYS /\
       (d !! "turnover_ratio" = Some None /\ d !! "convexity" = Some None /\
        d !! "z_spread" = Some None /\ d !! "corporate_spread" = Some None) /\
       ((d !! "liquidity_flag" = Some (Some (VStr "ACTIVE")) /\
         exists v : Q, d !! "volume" = Some (Some (VFloat v)) /\ 0 < v) \/
        (d !! "liquidity_flag" = Some (Some (VStr "STALE")) /\
         (d !! "volume" = Some None \/
          exists v : Q, d !! "volume" = Some (Some (VFloat v)) /\ v <= 0) /\
         d !! "volume_avg_30d" = Some None)) /\
       (d !! "benchmark_yield" = Some None <->
        d !! "spread_vs_govt" = Some None) /\
       (d !! "benchmark_yield" <> Some None ->
        d !! "security_type" = Some (Some (VStr "CORPORATE"))) /\
       (d !! "volume_avg_30d" = Some None <->
        d !! "volume_spike_flag" = Some None))
    rows_of_one_tbill.
Proof.
  apply (run_rows_have_the_uniform_schema float_decimal_examples
           (fun _ _ => 1) "2026-01-30" store_with_one_tbill
           writes_of_one_tbill rows_of_one_tbill).
  - exact writes_of_one_tbill_run.
  - exact rows_of_one_tbill_written.
Defined.

(** X28.  On a date for which the four source tables have no row, a run
    writes the daily summary and nothing else: shape NORMAL with a slope of
    0, no 91D-10Y spread, the three volumes 0, no most active ISIN, and the
    two rates of the configuration. *)
Theorem run_on_empty_tables_writes_a_default_summary
    (float : string -> option Q) (libm_pow : Q -> Q -> Q)
    (trade_date : string) (s : store) :
  st_new_gog s = [] -> st_old_gog s = [] -> st_treasury_bills s = [] ->
  st_corporate s = [] ->
  run_quant_engine float libm_pow trade_date s
  = Ok [UpsertDailyMarketSummary
          {| s_date := trade_date; s_curve_shape := "NORMAL";
             s_curve_slope := 0; s_spread_91d_10y := None;
             s_total_volume_gog := 0; s_total_volume_tbill := 0;
             s_total_volume_corporate := 0; s_most_active_isin := None;
             s_inflation_rate := GHANA_INFLATION_RATE;
             s_policy_rate := GHANA_POLICY_RATE |}].
Proof.
  intros H1 H2 H3 H4.
  unfold run_quant_engine, collect_all_metrics. rewrite H1, H2, H3, H4.
  reflexivity.
Qed.

Lemma run_on_empty_tables_writes_a_default_summary_witness :
  run_quant_engine float_decimal_examples (fun _ _ => 1) "2026-01-30"
    empty_store
  = Ok [UpsertDailyMarketSummary
          {| s_date := "2026-01-30"; s_curve_shape := "NORMAL";
             s_curve_slope := 0; s_spread_91d_10y := None;
             s_total_volume_gog := 0; s_total_volume_tbill := 0;
             s_total_volume_corporate := 0; s_most_active_isin := None;
             s_inflation_rate := GHANA_INFLATION_RATE;
             s_policy_rate := GHANA_POLICY_RATE |}].
Proof.
  apply (run_on_empty_tables_writes_a_default_summary float_decimal_examples
           (fun _ _ => 1) "2026-01-30" empty_store); reflexivity.
Defined.

(** ** What every builder computes the same way *)

Lemma built_metric_derived_fields (float : string -> option Q)
    (libm_pow : Q -> Q -> Q) (trade_date : string) (s : store) (m : metric) :
  In m (collect_all_metrics float libm_pow trade_date s) ->
  m_liquidity_score m
  = Some (calculate_liquidity_score (m_volume m) (m_hl_spread m)) /\
  m_real_yield m = real_yield_of (m_ytm m).
Proof.
  unfold collect_all_metrics. rewrite !in_app_iff.
  unfold process_gog_bonds, process_tbills, process_corporate.
  rewrite !in_collect.
  intros [(r & _ & H) | [(r & _ & H) | [(r & _ & H) | (r & _ & H)]]].
  - unfold process_gog_row in H.
    apply bind_ok_inv in H as (? & _ & H).
    apply bind_ok_inv in H as (? & _ & H).
    apply bind_ok_inv in H as (? & _ & H).
    injection H as <-. cbn. split; reflexivity.
  - unfold process_gog_row in H.
    apply bind_ok_inv in H as (? & _ & H).
    apply bind_ok_inv in H as (? & _ & H).
    apply bind_ok_inv in H as (? & _ & H).
    injection H as <-. cbn. split; reflexivity.
  - unfold process_tbill_row in H.
    apply bind_ok_inv in H as (yields & _ & H).
    apply bind_ok_inv in H as (? & _ & H).
    injection H as <-. cbn. split; [reflexivity|].
    unfold real_yield_of. destruct (yields !! "ytm") as [y|]; reflexivity.
  - unfold process_corporate_row in H.
    apply bind_ok_inv in H as (? & _ & H).
    apply bind_ok_inv in H as (? & _ & H).
    apply bind_ok_inv in H as (? & _ & H).
    injection H as <-. cbn. split; reflexivity.
Qed.

Lemma calculate_liquidity_score_cases (volume hl_spread : option Q) :
  (calculate_liquidity_score volume hl_spread = "HIGH" /\
   exists v, volume = Some v /\ 10000000 < v) \/
  (calculate_liquidity_score volume hl_spread = "MEDIUM" /\
   exists v, volume = Some v /\ 1000000 < v <= 10000000) \/
  (calculate_liquidity_score volume hl_spread = "LOW" /\
   (volume = None \/ exists v, volume = Some v /\ v <= 1000000)).
Proof.
  unfold calculate_liquidity_score. destruct volume as [v|].
  - destruct (Qltb 10000000 v) eqn:A.
    + left. apply Qltb_lt in A. eauto.
    + apply Qltb_ge in A. destruct (Qltb 1000000 v) eqn:B.
      * right. left. apply Qltb_lt in B. eauto.
      * right. right. apply Qltb_ge in B. eauto.
  - right. right. auto.
Qed.

(** X29.  In every row of the [security_metrics] write of a run the
    liquidity score follows from the row's own volume: HIGH above
    10,000,000, MEDIUM above 1,000,000 and up to 10,000,000, LOW otherwise
    (a missing volume included); and a row flagged STALE always has the
    score LOW. *)
Theorem run_rows_score_follows_the_volume (float : string -> option Q)
    (libm_pow : Q -> Q -> Q) (trade_date : string) (s : store)
    (ws : list write) (rows : list (gmap string (option pyvalue))) :
  run_quant_engine float libm_pow trade_date s = Ok ws ->
  In (UpsertSecurityMetrics rows) ws ->
  Forall
    (fun d =>
       ((d !! "liquidity_score" = Some (Some (VStr "HIGH")) /\
         exists v : Q, d !! "volume" = Some (Some (VFloat v)) /\ 10000000 < v)
        \/
        (d !! "liquidity_score" = Some (Some (VStr "MEDIUM")) /\
         exists v : Q,
           d !! "volume" = Some (Some (VFloat v)) /\ 1000000 < v <= 10000000)
        \/
        (d !! "liquidity_score" = Some (Some (VStr "LOW")) /\
         (d !! "volume" = Some None \/
          exists v : Q,
            d !! "volume" = Some (Some (VFloat v)) /\ v <= 1000000))) /\
       (d !! "liquidity_flag" = Some (Some (VStr "STALE")) ->
        d !! "liquidity_score" = Some (Some (VStr "LOW"))))
    rows.
Proof.
  intros Hrun Hin.
  destruct (run_security_metrics_rows float libm_pow trade_date s ws rows
              Hrun Hin) as (b & i & ->).
  apply List.Forall_forall. intros d Hd.
  apply in_map_iff in Hd as (m & <- & Hm).
  destruct (built_metric_derived_fields float libm_pow trade_date s m Hm)
    as [Hscore _].
  destruct (built_metric_is_fresh float libm_pow trade_date s m Hm)
    as (_ & _ & _ & _ & F3 & F4 & _).
  destruct (normalized_metric_row
              (fst (volume_spike_step (st_history s) trade_date
                      (fst (corporate_spread_step b i m)))))
    as (_ & _ & _ & _ & _ & _ & _ & _ & D9 & _ & _ & D12 & _ & _ & _
        & _ & _ & _ & _ & _ & D21).
  rewrite D9, D12, D21.
  destruct (volume_spike_step_fields (st_history s) trade_date
              (fst (corporate_spread_step b i m)))
    as ((_ & _ & _ & _ & _ & _ & _ & _ & -> & _ & -> & _) & _ & Hflag & _).
  destruct (corporate_spread_step_fields b i m)
    as ((_ & _ & _ & _ & _ & _ & _ & _ & V & _ & L & _) & _).
  rewrite V in *. rewrite L, Hscore. clear D9 D12 D21.
  destruct (calculate_liquidity_score_cases (m_volume m) (m_hl_spread m))
    as [[-> (v & Hv & Hr)] | [[-> (v & Hv & Hr)] | [-> Hlow]]].
  - split; [left; rewrite Hv; eauto|].
    destruct Hflag as [(-> & Hs & _) | (-> & _)]; [|discriminate].
    intros _. exfalso. rewrite Hv in Hs.
    destruct Hs as [Hs | (v' & Hs & Hle)]; [discriminate Hs|].
    injection Hs as <-. lra.
  - split; [right; left; rewrite Hv; eauto|].
    destruct Hflag as [(-> & Hs & _) | (-> & _)]; [|discriminate].
    intros _. exfalso. rewrite Hv in Hs.
    destruct Hs as [Hs | (v' & Hs & Hle)]; [discriminate Hs|].
    injection Hs as <-. lra.
  - split; [|intros _; reflexivity].
    right. right. split; [reflexivity|].
    destruct Hlow as [-> | (v & -> & Hle)]; [left; reflexivity | right; eauto].
Qed.

Lemma run_rows_score_follows_the_volume_witness :
  Forall
    (fun d =>
       ((d !! "liquidity_score" = Some (Some (VStr "HIGH")) /\
         exists v : Q, d !! "volume" = Some (Some (VFloat v)) /\ 10000000 < v)
        \/
        (d !! "liquidity_score" = Some (Some (VStr "MEDIUM")) /\
         exists v : Q,
           d !! "volume" = Some (Some (VFloat v)) /\ 1000000 < v <= 10000000)
        \/
        (d !! "liquidity_score" = Some (Some (VStr "LOW")) /\
         (d !! "volume" = Some None \/
          exists v : Q,
            d !! "volume" = Some (Some (VFloat v)) /\ v <= 1000000))) /\
       (d !! "liquidity_flag" = Some (Some (VStr "STALE")) ->
        d !! "liquidity_score" = Some (Some (VStr "LOW"))))
    rows_of_one_tbill.
Proof.
  apply (run_rows_score_follows_the_volume float_decimal_examples
           (fun _ _ => 1) "2026-01-30" store_with_one_tbill
           writes_of_one_tbill rows_of_one_tbill).
  - exact writes_of_one_tbill_run.
  - exact rows_of_one_tbill_written.
Defined.

(** X30.  Whatever its builder and whichever way its [ytm] was obtained
    (computed from the price or taken from the row), a metric has a
    [real_yield] exactly when its [ytm] is there and not zero, and it is
    then the [ytm] less the inflation rate of 23.2, rounded to 2 decimals:
    a 2-decimal number within half a unit of the second decimal of the
    exact difference, up to the error of double arithmetic. *)
Theorem real_yield_is_ytm_less_inflation (float : string -> option Q)
    (libm_pow : Q -> Q -> Q) (trade_date : string) (s : store) :
  Forall
    (fun m =>
       (forall y : Q, m_ytm m = Some y -> ~ y == 0 ->
          exists r : Q,
            m_real_yield m = Some r /\
            rounding_of 2 (Qabs y + 23.2) (y - 23.2) r) /\
       (m_real_yield m = None <->
        m_ytm m = None \/ exists y : Q, m_ytm m = Some y /\ y == 0))
    (collect_all_metrics float libm_pow trade_date s).
Proof.
  apply List.Forall_forall. intros m Hm.
  destruct (built_metric_derived_fields float libm_pow trade_date s m Hm)
    as [_ ->].
  unfold real_yield_of. destruct (m_ytm m) as [y|].
  - destruct (bool_of_float y) eqn:B.
    + apply bool_of_float_true in B. split.
      * intros y' E _. injection E as <-.
        eexists. split; [reflexivity|].
        apply round_rounding_of.
        pose proof (Qabs_nonneg y). lra.
      * split; [discriminate|].
        intros [E | (y' & E & Z)]; [discriminate E|].
        injection E as <-. contradiction.
    + apply bool_of_float_false in B. split.
      * intros y' E N. injection E as <-. contradiction.
      * split; [intros _; right; eauto | reflexivity].
  - split; [discriminate|]. split; [auto | reflexivity].
Qed.
